(** * LandmarkOps: extraction of delivery notes and their lifecycle

    A shallow embedding of
      - [landmarkops/utils/azure_parser.py] (the extraction of header fields
        and line items from a document-analysis result), and
      - [landmarkops/landmark_ops/doctype/landmark_delivery_note/landmark_delivery_note.py]
        (the validation run on every save and the two status mutators),
    followed by the properties of the specification that concern them,
    and of
      - the call of the analysis service in [landmarkops/utils/azure_parser.py],
      - [landmarkops/utils/whatsapp_sender.py] (the messages to the driver), and
      - the replies of the driver and the background job of
        [landmarkops/api.py],
    on a model of the site they run on.

    Python values are dynamically typed, so the analysis result is kept as
    a JSON value ([pyval]) and every operation that Python would reject
    raises the exception Python raises.  A string holds the UTF-8 bytes
    of the text. *)

From Stdlib Require Import ZArith Lia Ascii String.
From stdpp Require Import base option list gmap strings.

Set Warnings "-register-all".

Local Open Scope string_scope.

(** ** Python values, exceptions and the builtins the code calls *)
Module Py.

(** A binary64 value: not-a-number, an infinity, or the finite [m * 2^e]. *)
Inductive pyfloat : Type :=
| FNaN
| FInf (neg : bool)
| FFin (m e : Z).

(** What [json] decoding yields.  A dict keeps its insertion order. *)
Inductive pyval : Type :=
| PNone
| PBool (b : bool)
| PInt (z : Z)
| PFloat (f : pyfloat)
| PStr (s : string)
| PList (l : list pyval)
| PDict (d : list (string * pyval)).

Inductive pyexc : Type :=
| AttributeError | TypeError | IndexError | KeyError | OverflowError.

(** A call either returns or raises; [E] is the type of what it raises. *)
Inductive result (E A : Type) : Type :=
| Ok (a : A)
| Raise (e : E).
Arguments Ok {E A} a.
Arguments Raise {E A} e.

Definition bind {E A B} (m : result E A) (k : A -> result E B) : result E B :=
  match m with
  | Ok a => k a
  | Raise e => Raise e
  end.

(** The result of code that can raise a Python exception. *)
Abbreviation res := (result pyexc).

Definition throw {A} (e : pyexc) : res A := Raise e.

Declare Scope py_scope.
Delimit Scope py_scope with py.
Notation "x <- m ;; k" := (bind m (fun x => k))
  (at level 100, m at next level, right associativity) : py_scope.
Local Open Scope py_scope.

(** [for x in l: acc = f(acc, x)], stopping at the first exception. *)
Fixpoint foldM {E A B} (f : A -> B -> result E A) (l : list B) (acc : A)
  : result E A :=
  match l with
  | [] => Ok acc
  | x :: l' => acc' <- f acc x ;; foldM f l' acc'
  end.

(** *** Strings

    A string holds the UTF-8 bytes of the text: a character is one byte
    below 128, or a leading byte from 192 on with the continuation
    bytes (128 to 191) that follow it.  [len], a slice and [strip]
    count, cut and test characters. *)

Definition ascii_code (a : ascii) : nat := nat_of_ascii a.

(** A byte that continues a character. *)
Definition continuation (a : ascii) : bool :=
  let n := ascii_code a in ((128 <=? n) && (n <=? 191))%nat.

(** [len(s)] *)
Fixpoint py_len (s : string) : nat :=
  match s with
  | EmptyString => 0
  | String a s' => if continuation a then py_len s' else S (py_len s')
  end.

(** [str.isspace] on a character of one byte: TAB..CR, FS..US and the
    space. *)
Definition py_isspace (a : ascii) : bool :=
  let n := ascii_code a in
  ((9 <=? n) && (n <=? 13) || (28 <=? n) && (n <=? 32))%nat.

(** [str.isspace] on a character of two bytes: U+0085 and U+00A0. *)
Definition py_isspace2 (a b : ascii) : bool :=
  let n := ascii_code a in
  let m := ascii_code b in
  ((n =? 194) && ((m =? 133) || (m =? 160)))%nat.

(** [str.isspace] on a character of three bytes: U+1680, U+2000 to
    U+200A, U+2028, U+2029, U+202F, U+205F and U+3000.  No character of
    four bytes is a space. *)
Definition py_isspace3 (a b c : ascii) : bool :=
  let n := ascii_code a in
  let m := ascii_code b in
  let k := ascii_code c in
  ((n =? 225) && (m =? 154) && (k =? 128)
   || (n =? 226) && (m =? 128)
      && ((128 <=? k) && (k <=? 138) || (k =? 168) || (k =? 169) || (k =? 175))
   || (n =? 226) && (m =? 129) && (k =? 159)
   || (n =? 227) && (m =? 128) && (k =? 128))%nat.

Definition lower_ascii (a : ascii) : ascii :=
  let n := ascii_code a in
  if ((65 <=? n) && (n <=? 90))%nat then ascii_of_nat (n + 32) else a.

(** [s.lower()], as far as the ASCII characters of the result go, which
    is what the code compares: the letters A to Z become a to z, U+0130
    becomes i followed by U+0307 and U+212A becomes k, as [str.lower]
    has them.  Any other letter outside the ASCII range, which
    [str.lower] changes into one character outside that range, is left
    as it is. *)
Fixpoint lower (s : string) : string :=
  match s with
  | EmptyString => EmptyString
  | String a s1 =>
      let plain := String (lower_ascii a) (lower s1) in
      match s1 with
      | EmptyString => plain
      | String b s2 =>
          if ((ascii_code a =? 196) && (ascii_code b =? 176))%nat then
            String "i" (String (ascii_of_nat 204) (String (ascii_of_nat 135) (lower s2)))
          else
            match s2 with
            | EmptyString => plain
            | String c s3 =>
                if ((ascii_code a =? 226) && (ascii_code b =? 132)
                    && (ascii_code c =? 170))%nat
                then String "k" (lower s3)
                else plain
            end
      end
  end.

(** [s.lstrip()] *)
Fixpoint lstrip (s : string) : string :=
  match s with
  | EmptyString => EmptyString
  | String a s1 =>
      if py_isspace a then lstrip s1 else
      match s1 with
      | EmptyString => s
      | String b s2 =>
          if py_isspace2 a b then lstrip s2 else
          match s2 with
          | EmptyString => s
          | String c s3 => if py_isspace3 a b c then lstrip s3 else s
          end
      end
  end.

(** [s.rstrip()]: what is left of the string from a character on is
    dropped when it is all spaces. *)
Fixpoint rstrip (s : string) : string :=
  match s with
  | EmptyString => EmptyString
  | String a s' =>
      if String.eqb (lstrip s) "" then EmptyString else String a (rstrip s')
  end.

(** [s.strip()] *)
Definition strip (s : string) : string := rstrip (lstrip s).

(** [needle in hay] *)
Fixpoint contains (needle hay : string) : bool :=
  String.prefix needle hay ||
  match hay with
  | EmptyString => false
  | String _ hay' => contains needle hay'
  end.

(** [s.replace(",", "")] *)
Fixpoint remove_commas (s : string) : string :=
  match s with
  | EmptyString => EmptyString
  | String a s' =>
      if Ascii.eqb a ","%char then remove_commas s' else String a (remove_commas s')
  end.

(** [s[:n]]: the first [n] characters, each with its continuation
    bytes. *)
Fixpoint take_prefix (n : nat) (s : string) : string :=
  match s with
  | EmptyString => EmptyString
  | String a s' =>
      if continuation a then String a (take_prefix n s') else
      match n with
      | O => EmptyString
      | S n' => String a (take_prefix n' s')
      end
  end.

(** [s[n:]]: the text without its first [n] characters. *)
Fixpoint drop_prefix (n : nat) (s : string) : string :=
  match s with
  | EmptyString => EmptyString
  | String a s' =>
      if continuation a then drop_prefix n s' else
      match n with
      | O => s
      | S n' => drop_prefix n' s'
      end
  end.

(** The characters of a string, as iteration over it yields them: a
    byte is put in front of the character that follows it when that
    begins with a continuation byte. *)
Fixpoint chars (s : string) : list string :=
  match s with
  | EmptyString => []
  | String a s' =>
      let rest := chars s' in
      match s' with
      | String b _ =>
          if continuation b then
            match rest with
            | c :: cs => String a c :: cs
            | [] => [String a EmptyString]
            end
          else String a EmptyString :: rest
      | EmptyString => [String a EmptyString]
      end
  end.

(** *** Dicts *)

Fixpoint assoc {V} (k : string) (d : list (string * V)) : option V :=
  match d with
  | [] => None
  | (k', v) :: d' => if String.eqb k k' then Some v else assoc k d'
  end.

(** [x.get(k, dflt)]: only a dict has [get]. *)
Definition py_get (x : pyval) (k : string) (dflt : pyval) : res pyval :=
  match x with
  | PDict d => Ok (default dflt (assoc k d))
  | _ => throw AttributeError
  end.

(** *** Numbers *)

Definition float_is_zero (f : pyfloat) : bool :=
  match f with FFin m _ => (m =? 0)%Z | _ => false end.

(** Truth value of an object. *)
Definition truthy (v : pyval) : bool :=
  match v with
  | PNone => false
  | PBool b => b
  | PInt z => negb (z =? 0)%Z
  | PFloat f => negb (float_is_zero f)
  | PStr s => negb (String.eqb s "")
  | PList l => match l with [] => false | _ => true end
  | PDict d => match d with [] => false | _ => true end
  end.

(** [bool], [int] and [float] are the numbers; a [bool] counts as 0 or 1. *)
Definition as_number (v : pyval) : option pyfloat :=
  match v with
  | PBool b => Some (FFin (if b then 1 else 0) 0)
  | PInt z => Some (FFin z 0)
  | PFloat f => Some f
  | _ => None
  end.

(** Exact comparison of two numbers; anything against NaN is false. *)
Definition float_ltb (a b : pyfloat) : bool :=
  match a, b with
  | FNaN, _ | _, FNaN => false
  | FInf n1, FInf n2 => n1 && negb n2
  | FInf n1, FFin _ _ => n1
  | FFin _ _, FInf n2 => negb n2
  | FFin m1 e1, FFin m2 e2 =>
      let e := Z.min e1 e2 in
      (m1 * 2 ^ (e1 - e) <? m2 * 2 ^ (e2 - e))%Z
  end.

Definition float_eqb (a b : pyfloat) : bool :=
  match a, b with
  | FNaN, _ | _, FNaN => false
  | FInf n1, FInf n2 => Bool.eqb n1 n2
  | FFin m1 e1, FFin m2 e2 =>
      let e := Z.min e1 e2 in
      (m1 * 2 ^ (e1 - e) =? m2 * 2 ^ (e2 - e))%Z
  | _, _ => false
  end.

(** [a == b] *)
Fixpoint py_eq (a b : pyval) {struct a} : bool :=
  match a, b with
  | PNone, PNone => true
  | PStr s1, PStr s2 => String.eqb s1 s2
  | PList l1, PList l2 =>
      (fix go (l1 l2 : list pyval) : bool :=
         match l1, l2 with
         | [], [] => true
         | x :: l1', y :: l2' => py_eq x y && go l1' l2'
         | _, _ => false
         end) l1 l2
  | PDict d1, PDict d2 =>
      (length d1 =? length d2)%nat &&
      (fix go (d : list (string * pyval)) : bool :=
         match d with
         | [] => true
         | (k, v) :: d' =>
             match assoc k d2 with
             | Some v' => py_eq v v'
             | None => false
             end && go d'
         end) d1
  | _, _ =>
      match as_number a, as_number b with
      | Some x, Some y => float_eqb x y
      | _, _ => false
      end
  end.

(** [a < b]: numbers with numbers, strings with strings, lists with lists
    (at the first pair of unequal elements); [TypeError] otherwise. *)
Fixpoint py_lt (a b : pyval) {struct a} : res bool :=
  match a, b with
  | PStr s1, PStr s2 => Ok (String.ltb s1 s2)
  | PList l1, PList l2 =>
      (fix go (l1 l2 : list pyval) : res bool :=
         match l1, l2 with
         | [], [] => Ok false
         | [], _ :: _ => Ok true
         | _ :: _, [] => Ok false
         | x :: l1', y :: l2' => if py_eq x y then go l1' l2' else py_lt x y
         end) l1 l2
  | _, _ =>
      match as_number a, as_number b with
      | Some x, Some y => Ok (float_ltb x y)
      | _, _ => throw TypeError
      end
  end.

(** What [range(v)] and [l[v]] accept as an integer: an [int] or a [bool]. *)
Definition as_index (v : pyval) : res Z :=
  match v with
  | PInt z => Ok z
  | PBool b => Ok (if b then 1 else 0)%Z
  | _ => throw TypeError
  end.

(** [int(f)]: truncation toward zero.  [ValueError] (on NaN) is the one
    exception that the callers of [int] and [float] catch, so it is the
    [None] of the inner option. *)
Definition int_of_float (f : pyfloat) : res (option Z) :=
  match f with
  | FNaN => Ok None
  | FInf _ => throw OverflowError
  | FFin m e => Ok (Some (if (0 <=? e)%Z then m * 2 ^ e else Z.quot m (2 ^ (- e))))%Z
  end.

(** *** Iteration and indexing *)

(** The elements [for x in v] visits. *)
Definition py_iter (v : pyval) : res (list pyval) :=
  match v with
  | PList l => Ok l
  | PDict d => Ok (PStr <$> d.*1)
  | PStr s => Ok (PStr <$> chars s)
  | _ => throw TypeError
  end.

(** The position a list of length [n] reads or writes for index [i]:
    a negative index counts from the end. *)
Definition list_pos (n : nat) (i : Z) : res nat :=
  let j := (if i <? 0 then i + Z.of_nat n else i)%Z in
  if ((0 <=? j) && (j <? Z.of_nat n))%Z then Ok (Z.to_nat j) else throw IndexError.

(** What a method of [str] is called on: anything else has no such
    attribute. *)
Definition as_str (v : pyval) : res string :=
  match v with
  | PStr s => Ok s
  | _ => throw AttributeError
  end.

(** [v.items()] *)
Definition py_items (v : pyval) : res (list (string * pyval)) :=
  match v with
  | PDict d => Ok d
  | _ => throw AttributeError
  end.

(** [l[i]] for an index that is not negative. *)
Definition list_get {A} (l : list A) (i : nat) : res A :=
  match l !! i with
  | Some x => Ok x
  | None => throw IndexError
  end.

(** [v[0]] *)
Definition py_first (v : pyval) : res pyval :=
  match v with
  | PList l => match l with x :: _ => Ok x | [] => throw IndexError end
  | PStr s => match chars s with c :: _ => Ok (PStr c) | [] => throw IndexError end
  | PDict _ => throw KeyError
  | _ => throw TypeError
  end.

End Py.

Import Py.
Local Open Scope py_scope.

(** ** The document: Landmark Delivery Note and its child rows *)
Module Doctype.

(** What [frappe.throw] is called with, one constructor per call:
    "Cannot change status from {0} to {1}", "Cannot confirm delivery
    without any items", "Invalid payment type: {0}" and "Failed to parse
    Azure response: {0}". *)
Inductive thrown : Type :=
| InvalidTransition (from to : string)
| NoItemsToConfirm
| InvalidPaymentType (p : string)
| MalformedAnalysisResult (cause : pyexc).

(** A row of the child table [items].  A text field holds [None] or a
    string, as the grid cell it was read from. *)
Record LineItem : Type := {
  sr_no : Z;
  item_id : option string;
  flexi_code : option string;
  item_name : option string;
  item_name_short : option string;
  unit : option string;
  qty : pyfloat;
  cartons : pyfloat;
}.

(** The document.  [fields] holds the header fields, which the parser
    reads and writes by name through [doc.get] and [doc.set]; the fields
    that the controller names in its code are record fields. *)
Record LandmarkDeliveryNote : Type := {
  name : string;
  is_local : bool;                       (* not inserted yet: [is_new()] *)
  status : string;
  payment_type : option string;
  fields : gmap string pyval;
  items : list LineItem;
  driver_confirmed_at : option string;
  delivered_at : option string;
}.

Definition with_status (s : string) (d : LandmarkDeliveryNote) :=
  {| name := name d; is_local := is_local d; status := s;
     payment_type := payment_type d; fields := fields d; items := items d;
     driver_confirmed_at := driver_confirmed_at d; delivered_at := delivered_at d |}.

Definition with_payment_type (p : option string) (d : LandmarkDeliveryNote) :=
  {| name := name d; is_local := is_local d; status := status d;
     payment_type := p; fields := fields d; items := items d;
     driver_confirmed_at := driver_confirmed_at d; delivered_at := delivered_at d |}.

Definition with_fields (f : gmap string pyval) (d : LandmarkDeliveryNote) :=
  {| name := name d; is_local := is_local d; status := status d;
     payment_type := payment_type d; fields := f; items := items d;
     driver_confirmed_at := driver_confirmed_at d; delivered_at := delivered_at d |}.

Definition with_items (l : list LineItem) (d : LandmarkDeliveryNote) :=
  {| name := name d; is_local := is_local d; status := status d;
     payment_type := payment_type d; fields := fields d; items := l;
     driver_confirmed_at := driver_confirmed_at d; delivered_at := delivered_at d |}.

Definition with_driver_confirmed_at (t : option string) (d : LandmarkDeliveryNote) :=
  {| name := name d; is_local := is_local d; status := status d;
     payment_type := payment_type d; fields := fields d; items := items d;
     driver_confirmed_at := t; delivered_at := delivered_at d |}.

Definition with_delivered_at (t : option string) (d : LandmarkDeliveryNote) :=
  {| name := name d; is_local := is_local d; status := status d;
     payment_type := payment_type d; fields := fields d; items := items d;
     driver_confirmed_at := driver_confirmed_at d; delivered_at := t |}.

Definition with_is_local (b : bool) (d : LandmarkDeliveryNote) :=
  {| name := name d; is_local := b; status := status d;
     payment_type := payment_type d; fields := fields d; items := items d;
     driver_confirmed_at := driver_confirmed_at d; delivered_at := delivered_at d |}.

(** Truth value of a field that holds [None] or a string. *)
Definition opt_truthy (h : option string) : bool :=
  match h with
  | Some s => negb (String.eqb s "")
  | None => false
  end.

(** [doc.get(fieldname)] *)
Definition doc_get (d : LandmarkDeliveryNote) (f : string) : pyval :=
  default PNone (fields d !! f).

(** [doc.set(fieldname, value)] *)
Definition doc_set (d : LandmarkDeliveryNote) (f : string) (v : pyval) :=
  with_fields (<[f := v]> (fields d)) d.

(** [doc.append("items", item)] *)
Definition doc_append_item (d : LandmarkDeliveryNote) (it : LineItem) :=
  with_items (items d ++ [it]) d.

End Doctype.
Import Doctype.

(** ** azure_parser.py *)
Module AzureParser.

(** *** extract_key_value_pairs *)

(** One turn of the loop over [keyValuePairs]. *)
Definition kv_step (pairs : gmap string pyval) (kv : pyval)
  : res (gmap string pyval) :=
  k <- py_get kv "key" PNone ;;
  if truthy k then
    v <- py_get kv "value" PNone ;;
    if truthy v then
      kc <- py_get k "content" (PStr "") ;;
      ks <- as_str kc ;;
      let key_text := strip (lower ks) in
      vc <- py_get v "content" (PStr "") ;;
      vs <- as_str vc ;;
      let value_text := strip vs in
      if negb (String.eqb key_text "") && negb (String.eqb value_text "")
      then Ok (<[key_text := PStr value_text]> pairs)
      else Ok pairs
    else Ok pairs
  else Ok pairs.

(** One turn of the loop over the fields of a document. *)
Definition field_step (pairs : gmap string pyval) (f : string * pyval)
  : gmap string pyval :=
  let '(field_name, field_data) := f in
  match field_data with
  | PDict d =>
      match assoc "content" d with
      | Some content => <[lower field_name := content]> pairs
      | None =>
          match assoc "valueString" d with
          | Some value_string => <[lower field_name := value_string]> pairs
          | None => pairs
          end
      end
  | _ => pairs
  end.

(** One turn of the loop over [documents]. *)
Definition document_step (pairs : gmap string pyval) (document : pyval)
  : res (gmap string pyval) :=
  fs <- py_get document "fields" (PDict []) ;;
  l <- py_items fs ;;
  Ok (fold_left field_step l pairs).

Definition extract_key_value_pairs (analyze_result : pyval)
  : res (gmap string pyval) :=
  kvs <- py_get analyze_result "keyValuePairs" (PList []) ;;
  kvl <- py_iter kvs ;;
  pairs <- foldM kv_step kvl ∅ ;;
  docs <- py_get analyze_result "documents" (PList []) ;;
  docl <- py_iter docs ;;
  foldM document_step docl pairs.

(** *** The header fields *)

Definition field_mapping : list (string * string) :=
  [ ("delivery note number", "delivery_note_no");
    ("delivery note no", "delivery_note_no");
    ("dn no", "delivery_note_no");
    ("date", "delivery_date");
    ("sales order number", "sales_order_no");
    ("sales order no", "sales_order_no");
    ("so no", "sales_order_no");
    ("sales responsible", "sales_responsible");
    ("delivery mode", "delivery_mode");
    ("customer code", "customer_code");
    ("customer name", "customer_name");
    ("phone", "customer_phone");
    ("customer reference", "customer_reference");
    ("delivery address", "delivery_address");
    ("address", "delivery_address") ].

(** [key_value_pairs.get(k)] *)
Definition pairs_get (key_value_pairs : gmap string pyval) (k : string) : pyval :=
  default PNone (key_value_pairs !! k).

(** One turn of the loop over [field_mapping.items()].  Next to the
    document, the state lists the calls of [doc.set] made so far, oldest
    first. *)
Definition header_step (key_value_pairs : gmap string pyval)
    (st : LandmarkDeliveryNote * list (string * pyval))
    (entry : string * string) : LandmarkDeliveryNote * list (string * pyval) :=
  let '(doc, sets) := st in
  let '(azure_key, doc_field) := entry in
  let value := pairs_get key_value_pairs (lower azure_key) in
  if truthy value && negb (truthy (doc_get doc doc_field))
  then (doc_set doc doc_field value, (sets ++ [(doc_field, value)])%list)
  else st.

Definition update_header_fields (key_value_pairs : gmap string pyval)
    (doc : LandmarkDeliveryNote)
  : LandmarkDeliveryNote * list (string * pyval) :=
  fold_left (header_step key_value_pairs) field_mapping (doc, []).

(** *** parse_items_table *)

(** A grid cell is [None] or the stripped content of a cell. *)
Abbreviation grid_t := (list (list (option string))).

(** [[[None for _ in range(column_count)] for _ in range(row_count)]]:
    the inner range is evaluated once per row, so not at all when there
    is no row. *)
Definition make_grid (row_count column_count : pyval) : res grid_t :=
  n_rows <- as_index row_count ;;
  if (n_rows <=? 0)%Z then Ok [] else
  n_cols <- as_index column_count ;;
  Ok (replicate (Z.to_nat n_rows) (replicate (Z.to_nat n_cols) None)).

(** [grid[row_idx][col_idx] = content] *)
Definition grid_set (grid : grid_t) (row_idx col_idx : pyval) (content : string)
  : res grid_t :=
  ri <- as_index row_idx ;;
  r <- list_pos (length grid) ri ;;
  let row := default [] (grid !! r) in
  ci <- as_index col_idx ;;
  c <- list_pos (length row) ci ;;
  Ok (<[r := <[c := Some content]> row]> grid).

(** One turn of the loop over [cells]. *)
Definition place_cell (row_count column_count : pyval) (grid : grid_t)
    (cell : pyval) : res grid_t :=
  row_idx <- py_get cell "rowIndex" (PInt 0) ;;
  col_idx <- py_get cell "columnIndex" (PInt 0) ;;
  c <- py_get cell "content" (PStr "") ;;
  s <- as_str c ;;
  let content := strip s in
  in_rows <- py_lt row_idx row_count ;;
  if in_rows then
    in_cols <- py_lt col_idx column_count ;;
    if in_cols then grid_set grid row_idx col_idx content else Ok grid
  else Ok grid.

Definition build_grid (row_count column_count cells : pyval) : res grid_t :=
  grid <- make_grid row_count column_count ;;
  l <- py_iter cells ;;
  foldM (place_cell row_count column_count) l grid.

(** [str(h).lower().strip() if h else ""] *)
Definition header_text (h : option string) : string :=
  match h with
  | Some s => if opt_truthy h then strip (lower s) else ""
  | None => ""
  end.

(** The key of [col_map] a header is stored under, if any: the chain of
    [if] / [elif] over the header. *)
Definition classify (header : string) : option string :=
  if contains "sr" header
     || (contains "no" header && (py_len header <? 10)%nat)
  then Some "sr_no"
  else if contains "item id" header || contains "itemid" header
  then Some "item_id"
  else if contains "flexi" header
  then Some "flexi_code"
  else if contains "item name" header || contains "description" header
  then Some "item_name"
  else if contains "unit" header && negb (contains "qty" header)
  then Some "unit"
  else if contains "qty" header || contains "quantity" header
  then Some "qty"
  else if contains "carton" header
  then Some "cartons"
  else None.

(** The loop over [enumerate(headers)], from index [idx] on. *)
Fixpoint map_columns (idx : Z) (headers : list string) (col_map : gmap string Z)
  : gmap string Z :=
  match headers with
  | [] => col_map
  | header :: rest =>
      map_columns (idx + 1) rest
        match classify header with
        | Some key => <[key := idx]> col_map
        | None => col_map
        end
  end.

(** [col_map.get(key, dflt)] and [key in col_map] *)
Definition col_get (col_map : gmap string Z) (key : string) (dflt : Z) : Z :=
  default dflt (col_map !! key).
Definition col_in (col_map : gmap string Z) (key : string) : bool :=
  bool_decide (is_Some (col_map !! key)).

(** [row[i]] *)
Definition row_at (row : list (option string)) (i : Z) : res (option string) :=
  p <- list_pos (length row) i ;;
  match row !! p with
  | Some c => Ok c
  | None => throw IndexError
  end.

Section Numbers.

(** [float(s)] on a string is the conversion of a decimal numeral to the
    nearest binary64 value; it is a parameter of the development.  [None]
    stands for [ValueError]. *)
Variable float_of_str : string -> option pyfloat.

(** [safe_int(value)], with the default [default=0].  The value is a grid
    cell, so [str(value)] is the value.  [OverflowError], which [int]
    raises on an infinity, is not among the exceptions caught. *)
Definition safe_int (value : option string) : res Z :=
  match value with
  | None => Ok 0%Z
  | Some s =>
      if String.eqb s "" then Ok 0%Z else
      match float_of_str (remove_commas s) with
      | None => Ok 0%Z
      | Some f => z <- int_of_float f ;; Ok (default 0%Z z)
      end
  end.

(** [safe_float(value)], with the default [default=0.0]. *)
Definition safe_float (value : option string) : pyfloat :=
  match value with
  | None => FFin 0 0
  | Some s =>
      if String.eqb s "" then FFin 0 0 else
      default (FFin 0 0) (float_of_str (remove_commas s))
  end.

(** The dict [item] built for the row [row_idx]. *)
Definition build_item (col_map : gmap string Z) (row : list (option string))
    (row_idx : Z) : res LineItem :=
  v_sr_no <- (if col_in col_map "sr_no"
              then c <- row_at row (col_get col_map "sr_no" 0) ;; safe_int c
              else Ok row_idx) ;;
  v_item_id <- (if col_in col_map "item_id"
                then row_at row (col_get col_map "item_id" 1)
                else Ok (Some "")) ;;
  v_flexi_code <- (if col_in col_map "flexi_code"
                   then row_at row (col_get col_map "flexi_code" (-1))
                   else Ok (Some "")) ;;
  v_item_name <- (if col_in col_map "item_name"
                  then row_at row (col_get col_map "item_name" 2)
                  else Ok (Some "")) ;;
  v_unit <- (if col_in col_map "unit"
             then row_at row (col_get col_map "unit" (-1))
             else Ok (Some "")) ;;
  v_qty <- (if col_in col_map "qty"
            then c <- row_at row (col_get col_map "qty" 3) ;; Ok (safe_float c)
            else Ok (FFin 0 0)) ;;
  v_cartons <- (if col_in col_map "cartons"
                then c <- row_at row (col_get col_map "cartons" (-1)) ;;
                     Ok (safe_float c)
                else Ok (FFin 0 0)) ;;
  Ok {| sr_no := v_sr_no; item_id := v_item_id; flexi_code := v_flexi_code;
        item_name := v_item_name; item_name_short := None; unit := v_unit;
        qty := v_qty; cartons := v_cartons |}.

(** One turn of the loop over [range(1, row_count)]. *)
Definition row_step (grid : grid_t) (col_map : gmap string Z)
    (doc : LandmarkDeliveryNote) (row_idx : nat) : res LandmarkDeliveryNote :=
  row <- list_get grid row_idx ;;
  if negb (existsb opt_truthy row) then Ok doc else
  item <- build_item col_map row (Z.of_nat row_idx) ;;
  if opt_truthy (item_name item) || opt_truthy (item_id item)
  then Ok (doc_append_item doc item)
  else Ok doc.

Definition parse_items_table (doc : LandmarkDeliveryNote) (table : pyval)
  : res LandmarkDeliveryNote :=
  let doc := with_items [] doc in
  row_count <- py_get table "rowCount" (PInt 0) ;;
  column_count <- py_get table "columnCount" (PInt 0) ;;
  cells <- py_get table "cells" (PList []) ;;
  if py_eq row_count (PInt 0) || py_eq column_count (PInt 0) then Ok doc else
  grid <- build_grid row_count column_count cells ;;
  header_row <- list_get grid 0 ;;
  let headers := header_text <$> header_row in
  let col_map := map_columns 0 headers ∅ in
  n_rows <- as_index row_count ;;
  foldM (row_step grid col_map) (seq 1 (Z.to_nat n_rows - 1)) doc.

(** The body of the [try] of [parse_azure_response]. *)
Definition parse_body (doc : LandmarkDeliveryNote) (azure_result : pyval)
  : res LandmarkDeliveryNote :=
  analyze_result <- py_get azure_result "analyzeResult" (PDict []) ;;
  key_value_pairs <- extract_key_value_pairs analyze_result ;;
  let doc := (update_header_fields key_value_pairs doc).1 in
  tables <- py_get analyze_result "tables" (PList []) ;;
  if truthy tables
  then table <- py_first tables ;; parse_items_table doc table
  else Ok doc.

(** [parse_azure_response(doc, azure_result)]: whatever the body raises
    is caught, logged and thrown again as "Failed to parse Azure
    response".  The code writes to [doc] in place; its callers drop the
    document when the parse raises, so the model returns none then. *)
Definition parse_azure_response (doc : LandmarkDeliveryNote) (azure_result : pyval)
  : result thrown LandmarkDeliveryNote :=
  match parse_body doc azure_result with
  | Ok doc' => Ok doc'
  | Raise e => Raise (MalformedAnalysisResult e)
  end.

End Numbers.

(** The status check of [poll_for_results]: the analysis is handed on only
    when [result.get("status", "").lower() == "succeeded"]. *)
Definition analysis_succeeded (result : pyval) : bool :=
  match py_get result "status" (PStr "") with
  | Ok (PStr s) => String.eqb (lower s) "succeeded"
  | _ => false
  end.

End AzureParser.

(** ** landmark_delivery_note.py *)
Module DeliveryNote.

Definition IMAGE_RECEIVED : string := "Image Received".
Definition PARSED : string := "Parsed".
Definition AWAITING : string := "Awaiting Driver Confirmation".
Definition CONFIRMED : string := "Confirmed by Driver".
Definition DELIVERED_CASH : string := "Delivered - Cash Received".
Definition DELIVERED_CREDIT : string := "Delivered - Credit".

Definition valid_status_flow : list (string * list string) :=
  [ (IMAGE_RECEIVED, [PARSED; AWAITING]);
    (PARSED, [AWAITING]);
    (AWAITING, [CONFIRMED]);
    (CONFIRMED, [DELIVERED_CASH; DELIVERED_CREDIT]);
    (DELIVERED_CASH, []);
    (DELIVERED_CREDIT, []) ].

(** [x in l] on a list of strings. *)
Definition str_in (x : string) (l : list string) : bool :=
  existsb (String.eqb x) l.

(** [validate_status_flow]; [old_doc] is what [get_doc_before_save()]
    returns: the document as it was last saved, or [None]. *)
Definition validate_status_flow (self : LandmarkDeliveryNote)
    (old_doc : option LandmarkDeliveryNote) : result thrown Datatypes.unit :=
  if is_local self then Ok tt else
  match old_doc with
  | Some old =>
      if negb (String.eqb (status old) (status self)) then
        let allowed_statuses := default [] (assoc (status old) valid_status_flow) in
        if negb (str_in (status self) allowed_statuses)
        then Raise (InvalidTransition (status old) (status self))
        else Ok tt
      else Ok tt
  | None => Ok tt
  end.

Definition confirmation_statuses : list string :=
  [CONFIRMED; DELIVERED_CASH; DELIVERED_CREDIT].

Definition validate_items_for_confirmation (self : LandmarkDeliveryNote)
  : result thrown Datatypes.unit :=
  if str_in (status self) confirmation_statuses
     && match items self with [] => true | _ => false end
  then Raise NoItemsToConfirm
  else Ok tt.

(** [self.payment_type != p] *)
Definition payment_type_differs (self : LandmarkDeliveryNote) (p : string) : bool :=
  match payment_type self with
  | Some q => negb (String.eqb q p)
  | None => true
  end.

Definition validate_payment_type (self : LandmarkDeliveryNote)
  : LandmarkDeliveryNote :=
  if str_in (status self) [DELIVERED_CASH; DELIVERED_CREDIT] then
    if String.eqb (status self) DELIVERED_CASH && payment_type_differs self "Cash"
    then with_payment_type (Some "Cash") self
    else if String.eqb (status self) DELIVERED_CREDIT
            && payment_type_differs self "Credit"
    then with_payment_type (Some "Credit") self
    else self
  else self.

(** The body of the loop of [generate_short_item_names]. *)
Definition short_item_name (item : LineItem) : LineItem :=
  match item_name item with
  | Some n =>
      if negb (String.eqb n "") && negb (opt_truthy (item_name_short item))
      then
        let short := take_prefix 40 n in
        let short := if (40 <? py_len n)%nat then short ++ "..." else short in
        {| sr_no := sr_no item; item_id := item_id item;
           flexi_code := flexi_code item; item_name := item_name item;
           item_name_short := Some short; unit := unit item;
           qty := qty item; cartons := cartons item |}
      else item
  | None => item
  end.

Definition generate_short_item_names (self : LandmarkDeliveryNote)
  : LandmarkDeliveryNote :=
  with_items (short_item_name <$> items self) self.

Definition validate (self : LandmarkDeliveryNote)
    (old_doc : option LandmarkDeliveryNote) : result thrown LandmarkDeliveryNote :=
  _ <- validate_status_flow self old_doc ;;
  _ <- validate_items_for_confirmation self ;;
  let self := validate_payment_type self in
  Ok (generate_short_item_names self).

(** *** Saving

    The state a method runs in: the saved documents by name, and the
    document in memory the method is called on.  A method returns the
    state it leaves and whether it returned or raised; what it assigned
    to the document in memory before raising stays assigned. *)
Record state : Type := {
  db : gmap string LandmarkDeliveryNote;
  self : LandmarkDeliveryNote;
}.

(** [self.get_doc_before_save()] *)
Definition get_doc_before_save (st : state) : option LandmarkDeliveryNote :=
  db st !! name (self st).

(** [self.save(ignore_permissions=True)]: the framework runs [validate]
    and, when it returns, writes the document. *)
Definition save (st : state) : state * result thrown Datatypes.unit :=
  match validate (self st) (get_doc_before_save st) with
  | Ok doc =>
      let saved := with_is_local false doc in
      ({| db := <[name saved := saved]> (db st); self := saved |}, Ok tt)
  | Raise e => (st, Raise e)
  end.

(** [set_driver_confirmed]; [now] is what [now()] returns. *)
Definition set_driver_confirmed (now : string) (st : state)
  : state * result thrown Datatypes.unit :=
  let self := with_status CONFIRMED (self st) in
  let self := with_driver_confirmed_at (Some now) self in
  save {| db := db st; self := self |}.

(** [set_delivered(payment_type)] *)
Definition set_delivered (payment_type : string) (now : string) (st : state)
  : state * result thrown Datatypes.unit :=
  let assigned :=
    if String.eqb payment_type "Cash" then
      Ok (with_payment_type (Some "Cash") (with_status DELIVERED_CASH (self st)))
    else if String.eqb payment_type "Credit" then
      Ok (with_payment_type (Some "Credit") (with_status DELIVERED_CREDIT (self st)))
    else Raise (InvalidPaymentType payment_type) in
  match assigned with
  | Ok self =>
      let self := with_delivered_at (Some now) self in
      save {| db := db st; self := self |}
  | Raise e => (st, Raise e)
  end.

End DeliveryNote.

Import AzureParser DeliveryNote.

(** ** The notions of the specification *)
Module Spec.

(** The transition graph of the lifecycle, as the specification draws it:
    the pairs (from, to) of its table. *)
Definition transition_graph : list (string * string) :=
  [ (IMAGE_RECEIVED, PARSED); (IMAGE_RECEIVED, AWAITING);
    (PARSED, AWAITING);
    (AWAITING, CONFIRMED);
    (CONFIRMED, DELIVERED_CASH); (CONFIRMED, DELIVERED_CREDIT) ].

(** A saved document whose payment type matches its terminal state. *)
Definition payment_matches (d : LandmarkDeliveryNote) : Prop :=
  (status d = DELIVERED_CASH -> payment_type d = Some "Cash") /\
  (status d = DELIVERED_CREDIT -> payment_type d = Some "Credit").

(** The stores that saving documents builds, starting from none saved. *)
Inductive reachable : gmap string LandmarkDeliveryNote -> Prop :=
| reach_empty : reachable ∅
| reach_save (st st' : state) :
    reachable (db st) -> save st = (st', Ok tt) -> reachable (db st').

(** No header of the table is classified as the column [key]. *)
Definition unclassified (headers : list string) (key : string) : Prop :=
  Forall (fun h => classify h <> Some key) headers.

(** What the item of row [row_idx] holds for the columns that no header
    is classified as. *)
Definition defaults_when_unclassified (headers : list string) (row_idx : nat)
    (it : LineItem) : Prop :=
  (unclassified headers "sr_no" -> sr_no it = Z.of_nat row_idx) /\
  (unclassified headers "item_id" -> item_id it = Some "") /\
  (unclassified headers "flexi_code" -> flexi_code it = Some "") /\
  (unclassified headers "item_name" -> item_name it = Some "") /\
  (unclassified headers "unit" -> unit it = Some "") /\
  (unclassified headers "qty" -> qty it = FFin 0 0) /\
  (unclassified headers "cartons" -> cartons it = FFin 0 0).



(** The item that the row [row_idx] of the grid yields, if it yields
    one: a row without a cell that counts as true yields none, and
    neither does a row whose item has no name and no id. *)
Definition row_item (float_of_str : string -> option pyfloat) (grid : grid_t)
    (col_map : gmap string Z) (row_idx : nat) : option LineItem :=
  match grid !! row_idx with
  | Some row =>
      if existsb opt_truthy row then
        match build_item float_of_str col_map row (Z.of_nat row_idx) with
        | Ok item =>
            if opt_truthy (item_name item) || opt_truthy (item_id item)
            then Some item else None
        | Raise _ => None
        end
      else None
  | None => None
  end.

(** The columns of [col_map] are positions of [row]. *)
Definition columns_in (col_map : gmap string Z) (row : list (option string))
  : Prop :=
  forall key i, col_map !! key = Some i -> (0 <= i < Z.of_nat (length row))%Z.

(** *** The expected shape of an analysis result

    [opt_field d k P]: the key [k] is absent from [d], or its value
    satisfies [P]. *)
Definition opt_field (d : list (string * pyval)) (k : string)
    (P : pyval -> Prop) : Prop :=
  match assoc k d with
  | Some v => P v
  | None => True
  end.

Definition is_str (v : pyval) : Prop := exists s, v = PStr s.

Definition is_index (v : pyval) : Prop := exists n, v = PInt n /\ (0 <= n)%Z.

Definition is_list_of (P : pyval -> Prop) (v : pyval) : Prop :=
  exists l, v = PList l /\ Forall P l.

(** The [key] or the [value] of a pair: null (or another value that
    counts as false), or an object whose [content], if any, is a
    string. *)
Definition content_shaped (v : pyval) : Prop :=
  truthy v = false \/ exists d, v = PDict d /\ opt_field d "content" is_str.

Definition kv_shaped (kv : pyval) : Prop :=
  exists d, kv = PDict d /\
    opt_field d "key" content_shaped /\ opt_field d "value" content_shaped.

(** A document: an object whose [fields], if any, is an object. *)
Definition document_shaped (v : pyval) : Prop :=
  exists d, v = PDict d /\ opt_field d "fields" (fun f => exists fd, f = PDict fd).

Section Shapes.

Variable float_of_str : string -> option pyfloat.

(** A text that is empty, or that [float] does not read as an infinity. *)
Definition finite_text (s : string) : Prop :=
  s = "" \/ forall neg, float_of_str (remove_commas s) <> Some (FInf neg).

(** A grid cell that [safe_int] converts without raising. *)
Definition finite_cell (c : option string) : Prop :=
  forall s, c = Some s -> finite_text s.

(** The invariant of the loop over the cells: [n] rows of [c] cells. *)
Definition grid_ok (n c : nat) (g : grid_t) : Prop :=
  length g = n /\
  Forall (fun row => length row = c /\ Forall finite_cell row) g.

(** A cell: an object whose indices, if any, are integers that are not
    negative and whose [content], if any, is a string. *)
Definition cell_shaped (c : pyval) : Prop :=
  exists d, c = PDict d /\
    opt_field d "rowIndex" is_index /\
    opt_field d "columnIndex" is_index /\
    opt_field d "content" (fun v => exists s, v = PStr s /\ finite_text (strip s)).

Definition table_shaped (t : pyval) : Prop :=
  exists d, t = PDict d /\
    opt_field d "rowCount" is_index /\
    opt_field d "columnCount" (fun v => exists n, v = PInt n) /\
    opt_field d "cells" (is_list_of cell_shaped).

(** [tables]: nothing, or a list whose first element is a table. *)
Definition tables_shaped (v : pyval) : Prop :=
  truthy v = false \/ exists t rest, v = PList (t :: rest) /\ table_shaped t.

Definition analyze_result_shaped (v : pyval) : Prop :=
  exists d, v = PDict d /\
    opt_field d "keyValuePairs" (is_list_of kv_shaped) /\
    opt_field d "documents" (is_list_of document_shaped) /\
    opt_field d "tables" tables_shaped.

Definition result_shaped (r : pyval) : Prop :=
  exists d, r = PDict d /\ opt_field d "analyzeResult" analyze_result_shaped.

End Shapes.

End Spec.
Import Spec.

(** ** Sample documents and analysis results *)
Module Samples.

Definition widget : LineItem :=
  {| sr_no := 1; item_id := Some "A-100"; flexi_code := Some "";
     item_name := Some "Widget"; item_name_short := None; unit := Some "pcs";
     qty := FFin 2 0; cartons := FFin 0 0 |}.

Definition note (new : bool) (st : string) (its : list LineItem)
  : LandmarkDeliveryNote :=
  {| name := "LDEL-0001"; is_local := new; status := st; payment_type := None;
     fields := ∅; items := its; driver_confirmed_at := None;
     delivered_at := None |}.

(** The store in which [LDEL-0001] was saved with status [st]. *)
Definition store_with (st : string) (its : list LineItem)
  : gmap string LandmarkDeliveryNote :=
  {[ "LDEL-0001" := note false st its ]}.

Definition cell (r c : Z) (content : pyval) : pyval :=
  PDict [("rowIndex", PInt r); ("columnIndex", PInt c); ("content", content)].

Definition table (rows cols : Z) (cells : list pyval) : pyval :=
  PDict [("rowCount", PInt rows); ("columnCount", PInt cols);
         ("cells", PList cells)].

Definition analysis (kvs tables : list pyval) : pyval :=
  PDict [("status", PStr "succeeded");
         ("analyzeResult",
          PDict [("keyValuePairs", PList kvs); ("tables", PList tables)])].

Definition kv (label text : string) : pyval :=
  PDict [("key", PDict [("content", PStr label)]);
         ("value", PDict [("content", PStr text)])].

(** A table whose only cell holds a number where a string is expected. *)
Definition number_in_cell : pyval :=
  analysis [] [table 2 1 [cell 0 0 (PInt 5)]].

(** A pair whose key is a string, not an object. *)
Definition string_as_key : pyval :=
  analysis [PDict [("key", PStr "DN No"); ("value", PDict [("content", PStr "DN-123")])]] [].

(** Header "Pos | Code | Item Name | Amount" and one row of data. *)
Definition code_table : pyval :=
  table 2 4
    [ cell 0 0 (PStr "Pos"); cell 0 1 (PStr "Code");
      cell 0 2 (PStr "Item Name"); cell 0 3 (PStr "Amount");
      cell 1 0 (PStr "9"); cell 1 1 (PStr "ID9");
      cell 1 2 (PStr "Widget"); cell 1 3 (PStr "3") ].

(** The end-to-end example of the specification. *)
Definition dn_123 : pyval :=
  analysis [kv "dn no" "DN-123"]
    [ table 3 3
        [ cell 0 0 (PStr "Sr No"); cell 0 1 (PStr "Item Name"); cell 0 2 (PStr "Qty");
          cell 1 0 (PStr "1"); cell 1 1 (PStr "Widget"); cell 1 2 (PStr "2");
          cell 2 0 (PStr "2"); cell 2 1 (PStr "Gadget"); cell 2 2 (PStr "5") ] ].

(** Labels that contain a key of the mapping without being one. *)
Definition long_labels : pyval :=
  PDict [("keyValuePairs",
          PList [kv "Customer Phone" "0501234567";
                 kv "Delivery Note No.:" "DN-123"])].

(** [LDEL-0001] as saved with status [saved] and as it is in memory with
    status [in_memory]. *)
Definition loaded (saved in_memory : string) (its : list LineItem) : state :=
  {| db := store_with saved its; self := note false in_memory its |}.

(** The no-break space U+00A0, which [str.isspace] holds of. *)
Definition no_break_space : string :=
  String (ascii_of_nat 194) (String (ascii_of_nat 160) EmptyString).

(** A name of 24 characters, of two bytes each. *)
Definition long_bytes_name : string := "رقمرقمرقمرقمرقمرقمرقمرقم".

(** The value of a text of one to fifteen decimal digits. *)
Fixpoint digits_value (s : string) (acc : Z) : option Z :=
  match s with
  | EmptyString => Some acc
  | String a s' =>
      let n := Z.of_nat (ascii_code a) in
      if ((48 <=? n) && (n <=? 57))%Z
      then digits_value s' (10 * acc + (n - 48))%Z
      else None
  end.

(** [float] on the texts of one to fifteen decimal digits, which are the
    numerals of the samples; it reads no other text.  It stands for
    [float] where a sample is run. *)
Definition float_of_digits (s : string) : option pyfloat :=
  if ((1 <=? String.length s) && (String.length s <=? 15))%nat
  then z ← digits_value s 0%Z; Some (FFin z 0)
  else None.

End Samples.
Import Samples.

(** ** whatsapp_sender.py: the phone number *)
Module PhoneNumber.

(** [s.replace(c, "")] for a single character [c] *)
Fixpoint remove_char (c : ascii) (s : string) : string :=
  match s with
  | EmptyString => EmptyString
  | String a s' =>
      if Ascii.eqb a c then remove_char c s' else String a (remove_char c s')
  end.

(** [s[1:]] *)
Definition drop_first (s : string) : string :=
  match s with
  | EmptyString => EmptyString
  | String _ s' => s'
  end.

(** [phone.replace(" ", "").replace("-", "").replace("(", "").replace(")", "")] *)
Definition remove_separators (phone : string) : string :=
  remove_char ")" (remove_char "(" (remove_char "-" (remove_char " " phone))).

(** [_clean_phone_number(phone)]: a value that counts as false gives the
    empty string; [replace] is a method of strings only. *)
Definition _clean_phone_number (phone : pyval) : res string :=
  if negb (truthy phone) then Ok "" else
  phone <- as_str phone ;;
  let phone := remove_separators phone in
  let phone :=
    if negb (String.prefix "+" phone) then
      if String.prefix "971" phone then "+" ++ phone
      else if String.prefix "0" phone then "+971" ++ drop_first phone
      else "+971" ++ phone
    else phone in
  Ok (if String.prefix "+" phone then drop_first phone else phone).

(** The characters that the cleaning removes. *)
Definition separators : list ascii := [" "; "-"; "("; ")"]%char.

End PhoneNumber.
Import PhoneNumber.

(** ** The site: settings, stored documents, requests and logs

    What the functions of [azure_parser.py], [whatsapp_sender.py] and
    [api.py] read and write besides their arguments: the settings, the
    stored delivery notes, the requests sent, the time slept, the error
    log and the comments. *)
Module Site.

(** The fields of [Landmark Ops Settings] that the code reads.  A text
    field holds [None] or a string; a number that is not set counts as
    false, like 0. *)
Record Settings : Type := {
  azure_endpoint : option string;
  azure_api_key : option string;
  azure_model_id : option string;
  azure_timeout : Z;
  azure_max_retries : Z;
  whatsapp_api_base_url : option string;
  whatsapp_api_token : option string;
  whatsapp_phone_number_id : option string;
  send_flow_after_parse : bool;
  driver_link_doctype : option string;
  driver_link_fieldname : option string;
}.

(** What is raised: by [frappe.throw], one constructor per call, by the
    framework ([DoesNotExist], [PasswordNotFound], [DateError]), by
    [response.json()] on a body that is not JSON, by a read of
    [response] before it is bound, by [float] on a text and by an
    operation that Python rejects. *)
Inductive failure : Type :=
| Thrown (t : thrown)
| DoesNotExist (delivery_note_name : pyval)
| PasswordNotFound (fieldname : string)
| DateError (value : pyval)
| AzureNotConfigured
| NoSourceFile
| SubmitFailed (text : string)
| AnalysisFailed (message : pyval)
| UnexpectedStatus (s : string)
| TimedOut (timeout : Z)
| WhatsAppNotConfigured
| PhoneNumberIdNotConfigured
| NoWhatsAppNumber
| MessageFailed (text : string)
| ButtonsFailed (text : string)
| NotJson (text : string)
| UnboundLocalError
| ValueError
| Python (e : pyexc).

Inductive verb : Type := GET | POST.

(** A call of [requests.get] or [requests.post]. *)
Record request : Type := {
  rq_verb : verb;
  rq_url : string;
  rq_headers : list (string * string);
  rq_json : option pyval;
  rq_timeout : Z;
}.

(** A response that [raise_for_status] accepts: [headers.get], and what
    [json()] returns, or the text of the error it raises. *)
Record response : Type := {
  header : string -> option string;
  json : result string pyval;
}.

(** What a request comes to: a response, or a [RequestException] with
    its text and the text of the response it carries, if any. *)
Inductive outcome : Type :=
| Responded (r : response)
| RequestException (text : string) (response_text : option string).

(** What the code does not decide.  [get_password], [formatdate] and
    [get_url] are the functions of the framework of these names, with
    [None] where they raise, [json_dumps] is [json.dumps] with an
    indent of 2, and [get_doc_by] is the look-up of a delivery note by a
    name that is not a string.  [http] is the network: the outcome
    of a request, given the requests sent before it.  The error that
    [json()] raises is a [RequestException] from version 2.27 of
    requests on, and is not before.  [polls_in_time] is how often the
    condition [time.time() - start_time < timeout] of a polling loop
    holds before it fails.  [py_str] is [str] on a value that is not a
    string, [exc_text] is [str] on an exception, [float_of_string] and
    [float_of_int] are [float] on a text and on an integer ([None]
    where it raises), [row_name] is the name of a row of the child
    table, by the name of its document and its position.  [rows] are
    the rows of a doctype with the fields a query asks for, in the
    order in which a query without conditions returns them, and
    [sql_like] is the operator LIKE of the database on a pattern and a
    value that is not NULL. *)
Record Environment : Type := {
  settings : Settings;
  get_password : string -> option string;
  http : list request -> request -> outcome;
  json_error_is_request_exception : bool;
  polls_in_time : list request -> nat;
  py_str : pyval -> string;
  exc_text : failure -> string;
  float_of_string : string -> option pyfloat;
  float_of_int : Z -> option pyfloat;
  formatdate : pyval -> option string;
  get_url : pyval -> string;
  json_dumps : pyval -> string;
  row_name : string -> nat -> string;
  get_doc_by : pyval -> option LandmarkDeliveryNote;
  rows : string -> list (list (string * pyval));
  sql_like : string -> pyval -> bool;
}.

Record world : Type := {
  docs : gmap string LandmarkDeliveryNote;
  sent : list request;
  slept : list Z;
  errors : list (string * string);
  comments : list (string * string);
}.

(** A function of the site: it changes the world, and returns or
    raises. *)
Definition Action (A : Type) : Type := world -> world * result failure A.

Definition ret {A} (a : A) : Action A := fun w => (w, Ok a).

Definition raise {A} (e : failure) : Action A := fun w => (w, Raise e).

Definition mbind {A B} (m : Action A) (k : A -> Action B) : Action B :=
  fun w =>
    match m w with
    | (w', Ok a) => k a w'
    | (w', Raise e) => (w', Raise e)
    end.

(** An operation of Python, with the exception it raises. *)
Definition py {A} (r : res A) : Action A :=
  fun w => (w, match r with Ok a => Ok a | Raise e => Raise (Python e) end).

Declare Scope site_scope.
Delimit Scope site_scope with site.
Notation "x <- m ;; k" := (mbind m (fun x => k))
  (at level 100, m at next level, right associativity) : site_scope.
Local Open Scope site_scope.

(** [try: body except Exception as e: handler(e)] *)
Definition try_except {A} (body : Action A) (handler : failure -> Action A) : Action A :=
  fun w =>
    match body w with
    | (w', Ok a) => (w', Ok a)
    | (w', Raise e) => handler e w'
    end.

(** [frappe.log_error(message=..., title=...)] *)
Definition log_error (message title : string) : Action Datatypes.unit :=
  fun w =>
    ({| docs := docs w; sent := sent w; slept := slept w;
        errors := (errors w ++ [(title, message)])%list;
        comments := comments w |}, Ok tt).

(** [time.sleep(seconds)] *)
Definition sleep (seconds : Z) : Action Datatypes.unit :=
  fun w =>
    ({| docs := docs w; sent := sent w; slept := (slept w ++ [seconds])%list;
        errors := errors w; comments := comments w |}, Ok tt).

(** [doc.add_comment("Comment", text)], on the document [doc_name] *)
Definition add_comment (doc_name text : string) : Action Datatypes.unit :=
  fun w =>
    ({| docs := docs w; sent := sent w; slept := slept w; errors := errors w;
        comments := (comments w ++ [(doc_name, text)])%list |}, Ok tt).

Definition with_docs (d : gmap string LandmarkDeliveryNote) (w : world) : world :=
  {| docs := d; sent := sent w; slept := slept w; errors := errors w;
     comments := comments w |}.

Definition with_sent (l : list request) (w : world) : world :=
  {| docs := docs w; sent := l; slept := slept w; errors := errors w;
     comments := comments w |}.

(** A method of the document that saves it: it runs on the stored
    documents of the site. *)
Definition run_method (f : state -> state * result thrown Datatypes.unit)
    (doc : LandmarkDeliveryNote) : Action LandmarkDeliveryNote :=
  fun w =>
    let out := f {| db := docs w; self := doc |} in
    (with_docs (db out.1) w,
     match out.2 with
     | Ok _ => Ok (self out.1)
     | Raise t => Raise (Thrown t)
     end).

(** The line feed. *)
Definition nl : string := String (ascii_of_nat 10) EmptyString.

(** [s.rstrip(c)] for a single character [c] *)
Fixpoint rstrip_char (c : ascii) (s : string) : string :=
  match s with
  | EmptyString => EmptyString
  | String a s' =>
      match rstrip_char c s' with
      | EmptyString => if Ascii.eqb a c then EmptyString else String a EmptyString
      | r => String a r
      end
  end.

(** [a or b] on two fields that hold [None] or a string *)
Definition opt_or (a b : option string) : option string :=
  if opt_truthy a then a else b.

(** [a or s] on such a field and a string *)
Definition opt_or_str (a : option string) (s : string) : string :=
  if opt_truthy a then default s a else s.

(** [d[k] = v] on a dict: the value of an existing key is replaced in
    place, a new key is added at the end. *)
Fixpoint dict_set (k : string) (v : pyval) (d : list (string * pyval))
  : list (string * pyval) :=
  match d with
  | [] => [(k, v)]
  | (k', v') :: d' =>
      if String.eqb k k' then (k, v) :: d' else (k', v') :: dict_set k v d'
  end.

(** [x[k] = v] for a string [k]: a list takes integers only, and nothing
    else of what JSON decodes to takes an assignment. *)
Definition set_item (x : pyval) (k : string) (v : pyval) : res pyval :=
  match x with
  | PDict d => Ok (PDict (dict_set k v d))
  | _ => throw TypeError
  end.

Section Functions.

Variable env : Environment.

(** What an f-string puts for a value. *)
Definition fmt (v : pyval) : string :=
  match v with
  | PStr s => s
  | _ => py_str env v
  end.

(** [frappe.get_doc("Landmark Delivery Note", name)]: the document as it
    is stored, which is not new. *)
Definition get_doc (delivery_note_name : pyval) : Action LandmarkDeliveryNote :=
  fun w =>
    (w, match delivery_note_name with
        | PStr n =>
            match docs w !! n with
            | Some d => Ok (with_is_local false d)
            | None => Raise (DoesNotExist delivery_note_name)
            end
        | _ =>
            match get_doc_by env delivery_note_name with
            | Some d => Ok (with_is_local false d)
            | None => Raise (DoesNotExist delivery_note_name)
            end
        end).

(** [settings.get_password(fieldname)] *)
Definition password (fieldname : string) : Action string :=
  match get_password env fieldname with
  | Some p => ret p
  | None => raise (PasswordNotFound fieldname)
  end.

(** A request is sent: it is recorded, and the network decides. *)
Definition send (rq : request) : world -> world * outcome :=
  fun w => (with_sent (sent w ++ [rq])%list w, http env (sent w) rq).

(** ** azure_parser.py: the call of the service *)

(** The loop over [range(max_retries)] from [attempts] on; [None] is
    returned when the loop ends without having bound [response]. *)
Fixpoint submit (rq : request) (max_retries : Z) (attempts : list Z)
  : Action (option response) :=
  match attempts with
  | [] => ret None
  | attempt :: rest =>
      fun w =>
        match send rq w with
        | (w, Responded r) => (w, Ok (Some r))
        | (w, RequestException e _) =>
            (if (attempt =? max_retries - 1)%Z then
               _ <- log_error
                      ("Azure API request failed after "
                       ++ fmt (PInt max_retries) ++ " attempts: " ++ e)
                      "Azure Document Intelligence Error" ;;
               raise (SubmitFailed e)
             else
               _ <- sleep (2 ^ attempt) ;;
               submit rq max_retries rest) w
        end
  end.

(** One turn of the loop of [poll_for_results] on a decoded body: the
    result to return, or [None] to poll again. *)
Definition poll_step (result : pyval) : Action (option pyval) :=
  status <- py (py_get result "status" (PStr "")) ;;
  status <- py (as_str status) ;;
  let status := lower status in
  if String.eqb status "succeeded" then ret (Some result)
  else if String.eqb status "failed" then
    error <- py (py_get result "error" (PDict [])) ;;
    message <- py (py_get error "message" (PStr "Unknown error")) ;;
    raise (AnalysisFailed message)
  else if str_in status ["running"; "notstarted"] then
    _ <- sleep 2 ;; ret None
  else raise (UnexpectedStatus status).

(** The loop of [poll_for_results]; its condition holds [budget] more
    times. *)
Fixpoint poll_loop (rq : request) (timeout : Z) (budget : nat) : Action pyval :=
  match budget with
  | O => raise (TimedOut timeout)
  | S budget =>
      let again :=
        fun text =>
          _ <- log_error ("Error polling Azure results: " ++ text)
                 "Azure Polling Error" ;;
          _ <- sleep 2 ;;
          poll_loop rq timeout budget in
      fun w =>
        match send rq w with
        | (w, Responded r) =>
            match json r with
            | Ok result =>
                (returned <- poll_step result ;;
                 match returned with
                 | Some result => ret result
                 | None => poll_loop rq timeout budget
                 end) w
            | Raise text =>
                if json_error_is_request_exception env then again text w
                else (w, Raise (NotJson text))
            end
        | (w, RequestException text _) => again text w
        end
  end.

Definition poll_for_results (operation_location api_key : string) (timeout : Z)
  : Action pyval :=
  let headers := [("Ocp-Apim-Subscription-Key", api_key)] in
  let rq := {| rq_verb := GET; rq_url := operation_location;
               rq_headers := headers; rq_json := None; rq_timeout := 30 |} in
  fun w => poll_loop rq timeout (polls_in_time env (sent w)) w.

(** The operation location that is read from the headers of the
    response. *)
Definition operation_location_of (r : response) : option string :=
  let operation_location :=
    opt_or (header r "Operation-Location") (header r "apim-request-id") in
  if negb (opt_truthy operation_location)
     && match header r "Operation-Location" with None => true | Some _ => false end
  then header r "apim-request-id"
  else operation_location.

Definition call_azure_document_intelligence
    (endpoint api_key model_id document_url : string) (timeout max_retries : Z)
  : Action pyval :=
  let endpoint := rstrip_char "/" endpoint in
  let analyze_url :=
    endpoint ++ "/formrecognizer/documentModels/" ++ model_id
    ++ ":analyze?api-version=2023-07-31" in
  let headers :=
    [("Ocp-Apim-Subscription-Key", api_key); ("Content-Type", "application/json")] in
  let payload := PDict [("urlSource", PStr document_url)] in
  let rq := {| rq_verb := POST; rq_url := analyze_url; rq_headers := headers;
               rq_json := Some payload; rq_timeout := 30 |} in
  bound <- submit rq max_retries (Z.of_nat <$> seq 0 (Z.to_nat max_retries)) ;;
  match bound with
  | None => raise UnboundLocalError
  | Some response =>
      let operation_location := operation_location_of response in
      result <- (if opt_truthy operation_location
                 then poll_for_results (default "" operation_location) api_key timeout
                 else match json response with
                      | Ok result => ret result
                      | Raise text => raise (NotJson text)
                      end) ;;
      py (set_item result "operation_id" (PStr (opt_or_str operation_location "")))
  end.

(** [parse_azure_response], with the entry of the error log it writes
    before it throws. *)
Definition parse_response (doc : LandmarkDeliveryNote) (azure_result : pyval)
  : Action LandmarkDeliveryNote :=
  match parse_body (float_of_string env) doc azure_result with
  | Ok doc => ret doc
  | Raise e =>
      _ <- log_error
             ("Error parsing Azure response: " ++ exc_text env (Python e)
              ++ nl ++ nl ++ "Response: " ++ json_dumps env azure_result)
             "Azure Response Parsing Error" ;;
      raise (Thrown (MalformedAnalysisResult e))
  end.

Definition parse_delivery_note_image (delivery_note_name : pyval) : Action pyval :=
  doc <- get_doc delivery_note_name ;;
  let settings := settings env in
  if negb (opt_truthy (azure_endpoint settings))
     || negb (opt_truthy (azure_api_key settings))
  then raise AzureNotConfigured else
  if negb (truthy (doc_get doc "source_file")) then raise NoSourceFile else
  let file_url := get_url env (doc_get doc "source_file") in
  api_key <- password "azure_api_key" ;;
  azure_result <-
    call_azure_document_intelligence
      (default "" (azure_endpoint settings)) api_key
      (opt_or_str (azure_model_id settings) "prebuilt-document") file_url
      (if (azure_timeout settings =? 0)%Z then 120%Z else azure_timeout settings)
      (if (azure_max_retries settings =? 0)%Z then 3%Z
       else azure_max_retries settings) ;;
  let doc := doc_set doc "raw_azure_json" (PStr (json_dumps env azure_result)) in
  operation_id <- py (py_get azure_result "operation_id" (PStr "")) ;;
  let doc := doc_set doc "azure_operation_id" operation_id in
  doc <- parse_response doc azure_result ;;
  let doc := with_status PARSED doc in
  _ <- run_method save doc ;;
  ret (PDict [("success", PBool true);
              ("message", PStr "Document parsed successfully")]).

(** ** whatsapp_sender.py *)

(** [v or 'N/A'], as the f-string puts it. *)
Definition or_na (v : pyval) : string :=
  if truthy v then fmt v else "N/A".

(** The line of [_build_items_summary] for the item at [idx]. *)
Definition summary_line (idx : Z) (item : LineItem) : string :=
  let item_name :=
    opt_or_str (item_name_short item) (opt_or_str (item_name item) "Item") in
  let qty := if truthy (PFloat (qty item)) then PFloat (qty item) else PInt 0 in
  fmt (PInt idx) ++ ". " ++ item_name ++ " - *Qty: " ++ fmt qty ++ "*".

(** [enumerate(l, start)] *)
Fixpoint enumerate {A} (start : Z) (l : list A) : list (Z * A) :=
  match l with
  | [] => []
  | x :: l' => (start, x) :: enumerate (start + 1) l'
  end.

(** [sep.join(lines)] *)
Fixpoint str_join (sep : string) (lines : list string) : string :=
  match lines with
  | [] => ""
  | [line] => line
  | line :: rest => line ++ sep ++ str_join sep rest
  end.

Definition _build_items_summary (doc : LandmarkDeliveryNote) : string :=
  match items doc with
  | [] => "_No items_"
  | _ =>
      str_join nl ((fun '(idx, item) => summary_line idx item) <$> enumerate 1 (items doc))
  end.

(** The [try] of [send_whatsapp_message] and of [send_whatsapp_buttons]:
    the request, and what is done with a [RequestException]. *)
Definition post_json (url : string) (headers : list (string * string))
    (payload : pyval) (title : string) (failed : string -> failure) : Action pyval :=
  let rq := {| rq_verb := POST; rq_url := url; rq_headers := headers;
               rq_json := Some payload; rq_timeout := 30 |} in
  let handler :=
    fun (text : string) (response_text : option string) =>
      _ <- log_error
             ("WhatsApp API Error: " ++ text ++ nl ++ nl ++ "Response: "
              ++ default "No response" response_text)
             title ;;
      raise (failed text) in
  fun w =>
    match send rq w with
    | (w, Responded r) =>
        match json r with
        | Ok v => (w, Ok v)
        | Raise text =>
            if json_error_is_request_exception env then handler text None w
            else (w, Raise (NotJson text))
        end
    | (w, RequestException text response_text) => handler text response_text w
    end.

(** What both functions do before they build the payload: the URL, the
    headers and the cleaned number. *)
Definition prepare (to_number : pyval)
  : Action (string * list (string * string) * string) :=
  let settings := settings env in
  if negb (opt_truthy (whatsapp_api_base_url settings))
     || negb (opt_truthy (whatsapp_api_token settings))
  then raise WhatsAppNotConfigured else
  to_number <- py (_clean_phone_number to_number) ;;
  let phone_number_id := whatsapp_phone_number_id settings in
  if negb (opt_truthy phone_number_id) then raise PhoneNumberIdNotConfigured else
  let url :=
    rstrip_char "/" (default "" (whatsapp_api_base_url settings)) ++ "/"
    ++ default "" phone_number_id ++ "/messages" in
  token <- password "whatsapp_api_token" ;;
  let headers :=
    [("Authorization", "Bearer " ++ token); ("Content-Type", "application/json")] in
  ret (url, headers, to_number).

Definition send_whatsapp_message (to_number : pyval) (message message_type : string)
  : Action pyval :=
  prepared <- prepare to_number ;;
  let '(url, headers, to_number) := prepared in
  let payload :=
    PDict [("messaging_product", PStr "whatsapp");
           ("recipient_type", PStr "individual");
           ("to", PStr to_number);
           ("type", PStr message_type);
           ("text", PDict [("preview_url", PBool false);
                           ("body", PStr message)])] in
  post_json url headers payload "WhatsApp Send Error" MessageFailed.

Definition send_whatsapp_buttons (to_number : pyval) (message : string)
    (buttons : list pyval) : Action pyval :=
  prepared <- prepare to_number ;;
  let '(url, headers, to_number) := prepared in
  let payload :=
    PDict [("messaging_product", PStr "whatsapp");
           ("recipient_type", PStr "individual");
           ("to", PStr to_number);
           ("type", PStr "interactive");
           ("interactive",
            PDict [("type", PStr "button");
                   ("body", PDict [("text", PStr message)]);
                   ("action", PDict [("buttons", PList (take 3 buttons))])])] in
  post_json url headers payload "WhatsApp Button Send Error" ButtonsFailed.

Definition review_message (doc : LandmarkDeliveryNote) (date items_text : string)
  : string :=
  "📦 *Delivery Confirmation Required*" ++ nl ++ nl
  ++ "*Delivery Note:* " ++ or_na (doc_get doc "delivery_note_no") ++ nl
  ++ "*Customer:* " ++ or_na (doc_get doc "customer_name") ++ nl
  ++ "*Date:* " ++ date ++ nl ++ nl
  ++ "*Items:*" ++ nl
  ++ items_text ++ nl ++ nl
  ++ "Please review the items and quantities. Tap the button below to confirm or update quantities.".

Definition send_driver_review_flow (delivery_note_name : pyval) : Action pyval :=
  doc <- get_doc delivery_note_name ;;
  if negb (truthy (doc_get doc "whatsapp_number")) then raise NoWhatsAppNumber else
  let items_text := _build_items_summary doc in
  date <- (if truthy (doc_get doc "delivery_date")
           then match formatdate env (doc_get doc "delivery_date") with
                | Some text => ret text
                | None => raise (DateError (doc_get doc "delivery_date"))
                end
           else ret "N/A") ;;
  let message := review_message doc date items_text in
  response <- send_whatsapp_message (doc_get doc "whatsapp_number") message "text" ;;
  let doc := with_status AWAITING doc in
  _ <- run_method save doc ;;
  ret response.

(** The two buttons that [send_delivery_status_buttons] sends. *)
Definition status_buttons (doc : LandmarkDeliveryNote) : list pyval :=
  [ PDict [("type", PStr "reply");
           ("reply", PDict [("id", PStr ("delivered_cash_" ++ name doc));
                            ("title", PStr "💵 Cash Received")])];
    PDict [("type", PStr "reply");
           ("reply", PDict [("id", PStr ("delivered_credit_" ++ name doc));
                            ("title", PStr "📝 Credit")])] ].

Definition send_delivery_status_buttons (delivery_note_name : pyval) : Action pyval :=
  doc <- get_doc delivery_note_name ;;
  if negb (truthy (doc_get doc "whatsapp_number")) then raise NoWhatsAppNumber else
  let message :=
    "✅ *Items Confirmed*" ++ nl ++ nl
    ++ "*Delivery Note:* " ++ or_na (doc_get doc "delivery_note_no") ++ nl
    ++ "*Customer:* " ++ or_na (doc_get doc "customer_name") ++ nl ++ nl
    ++ "Please select payment status:" in
  send_whatsapp_buttons (doc_get doc "whatsapp_number") message (status_buttons doc).

Definition send_confirmation_message (delivery_note_name : pyval)
    (payment_type : string) : Action pyval :=
  doc <- get_doc delivery_note_name ;;
  let message :=
    "✅ *Delivery Confirmed*" ++ nl ++ nl
    ++ "*Delivery Note:* " ++ or_na (doc_get doc "delivery_note_no") ++ nl
    ++ "*Customer:* " ++ or_na (doc_get doc "customer_name") ++ nl
    ++ "*Payment Type:* " ++ payment_type ++ nl ++ nl
    ++ "Thank you! The delivery has been marked as complete." in
  send_whatsapp_message (doc_get doc "whatsapp_number") message "text".

(** ** api.py: the replies of the driver *)

(** [float(v)] *)
Definition py_float (v : pyval) : Action pyfloat :=
  match v with
  | PBool b => ret (FFin (if b then 1 else 0) 0)
  | PInt z =>
      match float_of_int env z with
      | Some f => ret f
      | None => raise (Python OverflowError)
      end
  | PFloat f => ret f
  | PStr s =>
      match float_of_string env s with
      | Some f => ret f
      | None => raise ValueError
      end
  | _ => raise (Python TypeError)
  end.

Definition with_qty (q : pyfloat) (item : LineItem) : LineItem :=
  {| sr_no := sr_no item; item_id := item_id item; flexi_code := flexi_code item;
     item_name := item_name item; item_name_short := item_name_short item;
     unit := unit item; qty := q; cartons := cartons item |}.

(** The position of the first row from [idx] on whose name is equal to
    [item_name]. *)
Fixpoint find_row (doc_name : string) (item_name : pyval) (idx : nat)
    (rows : list LineItem) : option nat :=
  match rows with
  | [] => None
  | _ :: rows' =>
      if py_eq (PStr (row_name env doc_name idx)) item_name then Some idx
      else find_row doc_name item_name (S idx) rows'
  end.

(** [v is None] *)
Definition is_none (v : pyval) : bool :=
  match v with
  | PNone => true
  | _ => false
  end.

(** One turn of the loop over [items] of [driver_confirm_items]. *)
Definition update_item (doc : LandmarkDeliveryNote) (item_update : pyval)
  : Action LandmarkDeliveryNote :=
  item_name <- py (py_get item_update "name" PNone) ;;
  new_qty <- py (py_get item_update "qty" PNone) ;;
  if truthy item_name && negb (is_none new_qty)
  then
    match find_row (name doc) item_name 0 (items doc) with
    | Some idx =>
        q <- py_float new_qty ;;
        ret (with_items (alter (with_qty q) idx (items doc)) doc)
    | None => ret doc
    end
  else ret doc.

(** [for x in l: acc = f(acc, x)] on the site *)
Fixpoint for_each {A B} (f : A -> B -> Action A) (l : list B) (acc : A) : Action A :=
  match l with
  | [] => ret acc
  | x :: l' => acc <- f acc x ;; for_each f l' acc
  end.

(** [kwargs], or the form of the request when no argument is given *)
Definition arguments (kwargs form_dict : list (string * pyval))
  : list (string * pyval) :=
  match kwargs with
  | [] => form_dict
  | _ => kwargs
  end.

(** What the handlers of the two functions return. *)
Definition error_response (prefix title : string) (e : failure) : Action pyval :=
  _ <- log_error (prefix ++ exc_text env e) title ;;
  ret (PDict [("success", PBool false); ("message", PStr (exc_text env e))]).

Definition driver_confirm_items (now : string) (kwargs form_dict : list (string * pyval))
  : Action pyval :=
  try_except
    (let kwargs := arguments kwargs form_dict in
     let delivery_note_name := default PNone (assoc "delivery_note_name" kwargs) in
     let items := default (PList []) (assoc "items" kwargs) in
     if negb (truthy delivery_note_name) then
       ret (PDict [("success", PBool false);
                   ("message", PStr "Missing delivery_note_name")])
     else
     doc <- get_doc delivery_note_name ;;
     doc <- (if truthy items
             then updates <- py (py_iter items) ;; for_each update_item updates doc
             else ret doc) ;;
     _ <- run_method (set_driver_confirmed now) doc ;;
     _ <- send_delivery_status_buttons delivery_note_name ;;
     ret (PDict [("success", PBool true);
                 ("message", PStr "Items confirmed successfully");
                 ("delivery_note", delivery_note_name)]))
    (error_response "Driver Confirm Items Error: " "Driver Confirm API Error").

Definition driver_delivery_status (now : string)
    (kwargs form_dict : list (string * pyval)) : Action pyval :=
  try_except
    (let kwargs := arguments kwargs form_dict in
     let delivery_note_name := default PNone (assoc "delivery_note_name" kwargs) in
     action <- py (as_str (default (PStr "") (assoc "action" kwargs))) ;;
     let action := lower action in
     if negb (truthy delivery_note_name) || String.eqb action "" then
       ret (PDict [("success", PBool false);
                   ("message", PStr "Missing delivery_note_name or action")])
     else
     doc <- get_doc delivery_note_name ;;
     let delivered :=
       fun payment_type : string =>
         _ <- run_method (set_delivered payment_type now) doc ;;
         _ <- send_confirmation_message delivery_note_name payment_type ;;
         ret (PDict [("success", PBool true);
                     ("message", PStr ("Delivery marked as " ++ payment_type));
                     ("delivery_note", delivery_note_name);
                     ("payment_type", PStr payment_type)]) in
     if String.eqb action "delivered_cash" then delivered "Cash"
     else if String.eqb action "delivered_credit" then delivered "Credit"
     else
       ret (PDict [("success", PBool false);
                   ("message",
                    PStr ("Invalid action: " ++ action
                          ++ ". Use 'delivered_cash' or 'delivered_credit'"))]))
    (error_response "Driver Delivery Status Error: " "Delivery Status API Error").

(** [s[-n:]] for [n] greater than 0 *)
Definition take_last (n : nat) (s : string) : string :=
  drop_prefix (py_len s - n) s.

Definition is_digit (a : ascii) : bool :=
  let c := ascii_code a in ((48 <=? c) && (c <=? 57))%nat.

Fixpoint all_digits (s : string) : bool :=
  match s with
  | EmptyString => true
  | String a s' => is_digit a && all_digits s'
  end.

(** The filter [["like", f"%{s}%"]] on a value of the database: NULL
    matches nothing; on a text, a pattern whose [s] is made of digits
    is the search for [s]; anything else is for the database to
    decide. *)
Definition like (s : string) (value : pyval) : bool :=
  match value with
  | PNone => false
  | PStr v =>
      if all_digits s then contains s v else sql_like env ("%" ++ s ++ "%") value
  | _ => sql_like env ("%" ++ s ++ "%") value
  end.

(** [contact.get(k)] and [contact.k] on a row that a query returned *)
Definition row_get (row : list (string * pyval)) (k : string) : pyval :=
  default PNone (assoc k row).

Definition _lookup_driver_from_whatsapp (whatsapp_number : pyval) : Action pyval :=
  let settings := settings env in
  let link_doctype := opt_or_str (driver_link_doctype settings) "Whatsapp Contact Link" in
  let driver_field := opt_or_str (driver_link_fieldname settings) "driver" in
  whatsapp_number <- py (as_str whatsapp_number) ;;
  let clean_number :=
    remove_char "-" (remove_char " " (remove_char "+" whatsapp_number)) in
  let contacts :=
    take 1 (filter (fun row => like (take_last 10 clean_number)
                                 (row_get row "whatsapp_number") = true)
              (rows env link_doctype)) in
  match contacts with
  | contact :: _ =>
      ret (PDict [("driver", row_get contact driver_field);
                  ("contact_link", row_get contact "name");
                  ("whatsapp_number", row_get contact "whatsapp_number")])
  | [] => ret PNone
  end.

(** [_process_delivery_note_async]: the job that parses the image and
    asks the driver to review the items. *)
Definition _process_delivery_note_async (delivery_note_name : pyval)
  : Action Datatypes.unit :=
  try_except
    (_ <- parse_delivery_note_image delivery_note_name ;;
     if send_flow_after_parse (settings env)
     then _ <- send_driver_review_flow delivery_note_name ;; ret tt
     else ret tt)
    (fun e =>
       _ <- log_error
              ("Processing Error: " ++ exc_text env e ++ nl ++ "Delivery Note: "
               ++ fmt delivery_note_name)
              "Delivery Note Processing Error" ;;
       doc <- get_doc delivery_note_name ;;
       add_comment (name doc) ("Processing failed: " ++ exc_text env e)).

End Functions.

End Site.
Import Site.

(** ** What the properties of the requests speak of *)
Module Bounds.

(** The seconds slept in all. *)
Definition total (l : list Z) : Z := foldr Z.add 0%Z l.


(** The text of the field [to] of the payload of a request. *)
Definition recipient (rq : request) : option pyval :=
  match rq_json rq with
  | Some (PDict d) => assoc "to" d
  | _ => None
  end.

(** The value of [success] in what a function of [api.py] returns. *)
Definition success (returned : result failure pyval) : option pyval :=
  match returned with
  | Ok (PDict d) => assoc "success" d
  | _ => None
  end.

End Bounds.
Import Bounds.

(** ** What the properties of the messages speak of *)
Module Messages.

(** The buttons in the payload of a request. *)
Definition buttons_of (rq : request) : option pyval :=
  match rq_json rq with
  | Some (PDict d) =>
      match assoc "interactive" d with
      | Some (PDict i) =>
          match assoc "action" i with
          | Some (PDict a) => assoc "buttons" a
          | _ => None
          end
      | _ => None
      end
  | _ => None
  end.


(** The settings and the password that a message needs are there. *)
Definition whatsapp_configured (env : Environment) : Prop :=
  opt_truthy (whatsapp_api_base_url (settings env)) = true /\
  opt_truthy (whatsapp_api_token (settings env)) = true /\
  opt_truthy (whatsapp_phone_number_id (settings env)) = true /\
  is_Some (get_password env "whatsapp_api_token").

(** What a sender comes to: it raises before any request, or sends
    the one request [rq]. *)
Definition sender_spec (to_number : pyval) (w : world)
    (out : world * result failure pyval) (failed : string -> failure)
    (buttons : option pyval) : Prop :=
  docs out.1 = docs w /\
  ((sent out.1 = sent w /\
    exists e, out.2 = Raise e /\
      (e = WhatsAppNotConfigured \/ e = PhoneNumberIdNotConfigured \/
       e = PasswordNotFound "whatsapp_api_token" \/ exists x, e = Python x)) \/
   (exists rq t,
      sent out.1 = (sent w ++ [rq])%list /\ rq_verb rq = POST /\
      recipient rq = Some (PStr t) /\ buttons_of rq = buttons /\
      _clean_phone_number to_number = Ok t /\
      ((exists v, out.2 = Ok v) \/ (exists text, out.2 = Raise (failed text)) \/
       (exists text, out.2 = Raise (NotJson text))))).

End Messages.
Import Messages.

(** ** What the properties of the replies and of the look-up speak of *)
Module Rows.

(** The contact has a number: its [whatsapp_number] is not NULL. *)
Definition has_number (row : list (string * pyval)) : bool :=
  match row_get row "whatsapp_number" with
  | PNone => false
  | _ => true
  end.

(** The number of the contact is a text, if it has one. *)
Definition number_is_text (row : list (string * pyval)) : Prop :=
  match row_get row "whatsapp_number" with
  | PNone | PStr _ => True
  | _ => False
  end.

(** The characters that the look-up removes from a number. *)
Definition dropped : list ascii := ["+"; " "; "-"]%char.

(** The rows [b] are the rows [a] with other quantities: as many, in
    the same order, and equal in every other field. *)
Definition quantities_changed (a b : list LineItem) : Prop :=
  Forall2 (fun x y => y = with_qty (qty y) x) a b.

End Rows.
Import Rows.

(** ** What the properties of the background job speak of *)
Module Stored.

(** A delivery note is stored under the name [n], which is its name. *)
Definition named (n : string) (w : world) : Prop :=
  exists d, docs w !! n = Some d /\ name d = n.

(** A function of the site keeps the delivery note [n]. *)
Definition keeps {A} (n : string) (m : Action A) : Prop :=
  forall w, named n w -> named n (m w).1.

End Stored.
Import Stored.

(** ** A sample site *)
Module SiteSamples.

Definition sample_settings : Settings :=
  {| azure_endpoint := Some "https://vision.example/";
     azure_api_key := Some "*****";
     azure_model_id := None;
     azure_timeout := 0;
     azure_max_retries := 0;
     whatsapp_api_base_url := Some "https://graph.example/v17.0/";
     whatsapp_api_token := Some "*****";
     whatsapp_phone_number_id := Some "1234";
     send_flow_after_parse := true;
     driver_link_doctype := None;
     driver_link_fieldname := None |}.

(** A network on which every request is answered: the analysis has
    succeeded and holds the result [dn_123]. *)
Definition answering (_ : list request) (_ : request) : outcome :=
  Responded {| header := fun _ => None; json := Ok dn_123 |}.

(** A network on which every request fails. *)
Definition failing (_ : list request) (_ : request) : outcome :=
  RequestException "connection refused" None.

(** A site with the sample settings on the network [net]; the rows of a
    document are named 1, 2, ... *)
Definition site (net : list request -> request -> outcome) : Environment :=
  {| settings := sample_settings;
     get_password := fun _ => Some "secret";
     http := net;
     json_error_is_request_exception := true;
     polls_in_time := fun _ => 3%nat;
     py_str := fun _ => "?";
     exc_text := fun _ => "error";
     float_of_string := float_of_digits;
     float_of_int := fun z => Some (FFin z 0);
     formatdate := fun _ => Some "15-01-2025";
     get_url := fun _ => "https://files.example/dn.jpg";
     json_dumps := fun _ => "{}";
     row_name := fun _ idx => String (ascii_of_nat (49 + idx)) "";
     get_doc_by := fun _ => None;
     rows := fun _ => [[("name", PStr "WCL-0001"); ("driver", PStr "DRV-7");
                        ("whatsapp_number", PStr "0501234567")]];
     sql_like := fun _ _ => false |}.

(** [LDEL-0001] with the number of its driver and the file of its
    image. *)
Definition driver_note (st : string) (its : list LineItem) : LandmarkDeliveryNote :=
  doc_set (doc_set (note false st its) "whatsapp_number" (PStr "050 123-4567"))
    "source_file" (PStr "/files/dn.jpg").

(** The world in which only the document [d] is stored, under
    [LDEL-0001], and nothing has happened yet. *)
Definition storing (d : LandmarkDeliveryNote) : world :=
  {| docs := {[ "LDEL-0001" := d ]}; sent := []; slept := []; errors := [];
     comments := [] |}.


End SiteSamples.
Import SiteSamples.

(** ** Properties of the lifecycle *)
Section Lifecycle.

(** Case analysis on the first comparison of strings in the goal. *)
Ltac case_eqb :=
  match goal with
  | |- context [String.eqb ?a ?b] =>
      destruct (String.eqb_spec a b); try subst a
  end.

Lemma str_in_In (x : string) (l : list string) : str_in x l = true <-> In x l.
Proof.
  unfold str_in. rewrite existsb_exists. split.
  - intros (y & Hy & Heq). apply String.eqb_eq in Heq. now subst.
  - intros H. exists x. split; [assumption | apply String.eqb_refl].
Qed.

(** The dict [valid_status_flow] of the code is the table of the
    specification. *)
Lemma flow_allows_iff (from to : string) :
  str_in to (default [] (assoc from valid_status_flow)) = true
  <-> In (from, to) transition_graph.
Proof.
  split.
  - unfold valid_status_flow. cbn [assoc].
    repeat (case_eqb; [ rewrite str_in_In; cbn; intuition (subst; auto 10) | ]).
    cbn. discriminate.
  - cbn. intros H.
    repeat (destruct H as [H | H]; [ injection H as <- <-; reflexivity | ]).
    destruct H.
Qed.

Lemma validate_status (d d' : LandmarkDeliveryNote) old :
  validate d old = Ok d' ->
  status d' = status d /\ name d' = name d /\ is_local d' = is_local d.
Proof.
  unfold validate, bind.
  destruct (validate_status_flow d old); [ | discriminate].
  destruct (validate_items_for_confirmation d); [ | discriminate].
  intros [= <-]. unfold generate_short_item_names, validate_payment_type.
  repeat match goal with |- context [if ?b then _ else _] => destruct b end;
    repeat split.
Qed.

(** [validate] raises what its first failing check raises: the status
    flow is checked before the items. *)
Lemma validate_raises (d : LandmarkDeliveryNote) old :
  validate_items_for_confirmation d = Raise NoItemsToConfirm ->
  validate d old =
    match validate_status_flow d old with
    | Ok _ => Raise NoItemsToConfirm
    | Raise e => Raise e
    end.
Proof.
  intros H. unfold validate, bind.
  destruct (validate_status_flow d old); [now rewrite H | reflexivity].
Qed.

(** C4.  A change of status of a saved record to [to] is refused with
    InvalidTransition naming the saved status and [to] unless the pair
    is an edge of the transition graph, in which case the status check
    lets it pass.  The status compared against is the one last saved
    under the record's name: the status the document in memory had
    before the assignment plays no part. *)
Theorem status_change_checked (store : gmap string LandmarkDeliveryNote)
    (doc old : LandmarkDeliveryNote) (to : string) :
  is_local doc = false ->
  store !! name doc = Some old ->
  to <> status old ->
  let st := {| db := store; self := with_status to doc |} in
  (In (status old, to) transition_graph ->
     validate_status_flow (self st) (get_doc_before_save st) = Ok tt) /\
  (~ In (status old, to) transition_graph ->
     save st = (st, Raise (InvalidTransition (status old) to))).
Proof.
  intros Hnew Hold Hne st.
  assert (Hflow : validate_status_flow (self st) (get_doc_before_save st) =
                  if str_in to (default [] (assoc (status old) valid_status_flow))
                  then Ok tt else Raise (InvalidTransition (status old) to)).
  { unfold validate_status_flow, get_doc_before_save.
    cbn -[valid_status_flow assoc str_in]. rewrite Hnew, Hold.
    destruct (String.eqb_spec (status old) to) as [Heq | _]; [now subst | ].
    cbn -[valid_status_flow assoc str_in].
    now destruct (str_in to (default [] (assoc (status old) valid_status_flow))). }
  split; intros Hedge.
  - rewrite Hflow. apply flow_allows_iff in Hedge. now rewrite Hedge.
  - unfold save, validate, bind. rewrite Hflow.
    destruct (str_in to (default [] (assoc (status old) valid_status_flow)))
      eqn:Hin; [ | reflexivity].
    apply flow_allows_iff in Hin. contradiction.
Qed.

(** C10.  A record that is new is not subject to the status-flow check:
    whatever its status, [validate] cannot raise InvalidTransition, and
    when the check of the items passes it returns and the record is
    saved with the status it was created with. *)
Theorem new_record_skips_status_flow (doc : LandmarkDeliveryNote)
    (old_doc : option LandmarkDeliveryNote) :
  is_local doc = true ->
  validate_status_flow doc old_doc = Ok tt /\
  (forall from to, validate doc old_doc <> Raise (InvalidTransition from to)) /\
  (validate_items_for_confirmation doc = Ok tt ->
   exists doc',
     validate doc old_doc = Ok doc' /\ status doc' = status doc /\
     forall store,
       save {| db := store; self := doc |} =
       ({| db := <[name doc := with_is_local false doc']> store;
           self := with_is_local false doc' |}, Ok tt)).
Proof.
  intros Hnew.
  assert (Hflow : validate_status_flow doc old_doc = Ok tt).
  { unfold validate_status_flow. now rewrite Hnew. }
  split; [exact Hflow | split].
  - intros from to. unfold validate, bind. rewrite Hflow.
    unfold validate_items_for_confirmation.
    now destruct (_ && _).
  - intros Hitems.
    destruct (validate doc old_doc) as [doc' | e] eqn:Hv.
    + exists doc'. destruct (validate_status _ _ _ Hv) as (Hs & Hn & _).
      split; [reflexivity | split; [exact Hs | ]].
      intros store. unfold save, get_doc_before_save. cbn.
      assert (Hv' : validate doc (store !! name doc) = Ok doc').
      { revert Hv. unfold validate, bind. rewrite Hflow.
        unfold validate_status_flow. now rewrite Hnew. }
      rewrite Hv'. cbn. now rewrite Hn.
    + exfalso. revert Hv. unfold validate, bind. now rewrite Hflow, Hitems.
Qed.

(** C5, as the code has it.  Saving a record without items in one of
    the three confirmation statuses always fails: with NoItemsToConfirm
    when the status-flow check passes, and with the InvalidTransition of
    that check otherwise; nothing is written.  So does
    [set_driver_confirmed] on a record without items. *)
Theorem no_items_refused (st : state) :
  items (self st) = [] ->
  (str_in (status (self st)) confirmation_statuses = true ->
   save st =
     (st, match validate_status_flow (self st) (get_doc_before_save st) with
          | Ok _ => Raise NoItemsToConfirm
          | Raise e => Raise e
          end)) /\
  (forall now,
     let st' := {| db := db st;
                   self := with_driver_confirmed_at (Some now)
                             (with_status CONFIRMED (self st)) |} in
     set_driver_confirmed now st =
       (st', match validate_status_flow (self st') (get_doc_before_save st') with
             | Ok _ => Raise NoItemsToConfirm
             | Raise e => Raise e
             end)).
Proof.
  intros Hitems.
  assert (Hsave : forall s, items (self s) = [] ->
            str_in (status (self s)) confirmation_statuses = true ->
            save s = (s, match validate_status_flow (self s) (get_doc_before_save s) with
                         | Ok _ => Raise NoItemsToConfirm
                         | Raise e => Raise e
                         end)).
  { intros s Hi Hs. unfold save. rewrite validate_raises.
    - now destruct (validate_status_flow _ _).
    - unfold validate_items_for_confirmation. now rewrite Hs, Hi. }
  split; [now apply Hsave | ].
  intros now st'. unfold set_driver_confirmed. now apply Hsave.
Qed.

(** C6.  [set_delivered "Cash"] assigns the Cash terminal status, the
    payment type "Cash" and the time of delivery, and when the save
    that follows returns the saved document carries them; the same with
    "Credit".  The save does return for a record saved as confirmed with
    at least one item.  With any other payment type the call raises
    InvalidPaymentType and leaves the document and the store as they
    were. *)
Theorem set_delivered_spec (now : string) (st : state) :
  (forall p terminal,
     (p, terminal) = ("Cash", DELIVERED_CASH) \/
     (p, terminal) = ("Credit", DELIVERED_CREDIT) ->
     let out := set_delivered p now st in
     let doc := self out.1 in
     status doc = terminal /\ payment_type doc = Some p /\
     delivered_at doc = Some now /\
     (out.2 = Ok tt -> db out.1 !! name (self st) = Some doc) /\
     (forall old, is_local (self st) = false ->
        db st !! name (self st) = Some old -> status old = CONFIRMED ->
        items (self st) <> [] -> out.2 = Ok tt)) /\
  (forall p, p <> "Cash" -> p <> "Credit" ->
     set_delivered p now st = (st, Raise (InvalidPaymentType p))).
Proof.
  split.
  - intros p terminal Hp out doc.
    set (doc1 := with_delivered_at (Some now)
                   (with_payment_type (Some p) (with_status terminal (self st)))).
    assert (Hout : out = save {| db := db st; self := doc1 |}).
    { subst out doc1. unfold set_delivered.
      destruct Hp as [[= -> ->] | [= -> ->]]; reflexivity. }
    assert (Hval : forall d', validate doc1 (db st !! name (self st)) = Ok d' ->
              status d' = terminal /\ payment_type d' = Some p /\
              delivered_at d' = Some now /\ name d' = name (self st)).
    { intros d'. unfold validate, bind.
      destruct (validate_status_flow _ _); [ | discriminate].
      destruct (validate_items_for_confirmation _); [ | discriminate].
      intros [= <-].
      destruct Hp as [[= -> ->] | [= -> ->]]; repeat split. }
    subst doc. rewrite Hout. unfold save, get_doc_before_save. cbn [self db].
    change (name doc1) with (name (self st)).
    destruct (validate doc1 _) as [d' | e] eqn:Hv; cbn.
    + destruct (Hval d' eq_refl) as (Hs & Hp' & Hd & Hn).
      repeat split; try assumption.
      intros _. rewrite <- Hn. apply lookup_insert_eq.
    + assert (Hfields : status doc1 = terminal /\ payment_type doc1 = Some p /\
                        delivered_at doc1 = Some now) by (repeat split).
      destruct Hfields as (Hs & Hp' & Hd).
      repeat split; try assumption; try discriminate.
      intros old Hnew Hold Hst Hitems. exfalso. revert Hv.
      unfold validate, bind, validate_status_flow. cbn.
      rewrite Hnew, Hold, Hst.
      unfold validate_items_for_confirmation.
      destruct (items doc1) eqn:Hi; [now subst doc1 | ].
      destruct Hp as [[= -> ->] | [= -> ->]]; discriminate.
  - intros p Hcash Hcredit. unfold set_delivered.
    apply String.eqb_neq in Hcash, Hcredit. now rewrite Hcash, Hcredit.
Qed.

End Lifecycle.

(** ** Properties of the header fields *)
Section Header.

Implicit Types (pairs : gmap string pyval) (doc : LandmarkDeliveryNote).
Implicit Types (sets : list (string * pyval)) (l : list (string * string)).

Lemma doc_get_set doc (f g : string) (v : pyval) :
  doc_get (doc_set doc f v) g = if String.eqb f g then v else doc_get doc g.
Proof.
  unfold doc_get, doc_set. cbn.
  destruct (String.eqb_spec f g) as [-> | Hne].
  - now rewrite lookup_insert_eq.
  - now rewrite lookup_insert_ne.
Qed.

Lemma header_step_cases pairs doc sets (k f : string) :
  let v := pairs_get pairs (lower k) in
  (truthy v = true /\ truthy (doc_get doc f) = false /\
   header_step pairs (doc, sets) (k, f) = (doc_set doc f v, (sets ++ [(f, v)])%list))
  \/ ((truthy v = false \/ truthy (doc_get doc f) = true) /\
      header_step pairs (doc, sets) (k, f) = (doc, sets)).
Proof.
  cbn.
  destruct (truthy (pairs_get pairs (lower k))) eqn:Hv;
    destruct (truthy (doc_get doc f)) eqn:Hd; cbn; auto.
Qed.

(** A field that holds a value is left alone by the rest of the loop. *)
Lemma header_loop_keeps pairs l doc sets (f : string) :
  truthy (doc_get doc f) = true ->
  doc_get (fold_left (header_step pairs) l (doc, sets)).1 f = doc_get doc f.
Proof.
  revert doc sets. induction l as [ | [k g] l IH]; intros doc sets Hf; [reflexivity | ].
  cbn [fold_left].
  destruct (header_step_cases pairs doc sets k g) as [(Hv & Hg & ->) | (_ & ->)].
  - assert (Hne : String.eqb g f = false).
    { destruct (String.eqb_spec g f) as [-> | ]; [congruence | reflexivity]. }
    rewrite IH; rewrite doc_get_set, Hne; [reflexivity | assumption].
  - now apply IH.
Qed.

(** What the loop appends to the list of the calls of [doc.set]. *)
Lemma header_loop_sets pairs l doc sets :
  exists new,
    (fold_left (header_step pairs) l (doc, sets)).2 = (sets ++ new)%list /\
    NoDup new.*1 /\
    (forall f, In f new.*1 \/
       doc_get (fold_left (header_step pairs) l (doc, sets)).1 f = doc_get doc f) /\
    forall f v, In (f, v) new ->
      truthy (doc_get doc f) = false /\ truthy v = true /\
      doc_get (fold_left (header_step pairs) l (doc, sets)).1 f = v /\
      exists k, In (k, f) l /\ pairs_get pairs (lower k) = v.
Proof.
  revert doc sets. induction l as [ | [k g] l IH]; intros doc sets.
  - exists []. cbn. rewrite app_nil_r.
    split; [reflexivity | split; [apply NoDup_nil_2 | split; [now right | intros ? ? []]]].
  - cbn [fold_left].
    destruct (header_step_cases pairs doc sets k g) as [(Hv & Hg & ->) | (_ & ->)].
    + set (v0 := pairs_get pairs (lower k)) in *.
      destruct (IH (doc_set doc g v0) (sets ++ [(g, v0)])%list)
        as (new & Hsets & Hnd & Hor & Hnew).
      assert (Hset : truthy (doc_get (doc_set doc g v0) g) = true).
      { now rewrite doc_get_set, String.eqb_refl. }
      exists ((g, v0) :: new). split; [ | split; [ | split]].
      * rewrite Hsets, <- app_assoc. reflexivity.
      * cbn. apply NoDup_cons_2; [ | exact Hnd].
        intros Hin. apply list_elem_of_In, in_map_iff in Hin.
        destruct Hin as ([g' v'] & Heq & Hin). cbn in Heq. subst g'.
        destruct (Hnew g v' Hin) as (Hfalse & _). congruence.
      * intros f. destruct (String.eqb_spec g f) as [-> | Hne]; [left; now left | ].
        destruct (Hor f) as [Hin | Heq]; [left; now right | right].
        rewrite Heq, doc_get_set.
        destruct (String.eqb_spec g f); [contradiction | reflexivity].
      * intros f v [[= <- <-] | Hin].
        -- repeat split; try assumption.
           ++ rewrite header_loop_keeps by assumption.
              now rewrite doc_get_set, String.eqb_refl.
           ++ exists k. split; [now left | reflexivity].
        -- destruct (Hnew f v Hin) as (Hfalse & Htrue & Hfinal & k' & Hk' & Hval).
           rewrite doc_get_set in Hfalse.
           destruct (String.eqb_spec g f) as [-> | Hne]; [congruence | ].
           repeat split; try assumption.
           exists k'. split; [now right | assumption].
    + destruct (IH doc sets) as (new & Hsets & Hnd & Hor & Hnew).
      exists new. split; [exact Hsets | split; [exact Hnd | split; [exact Hor | ]]].
      intros f v Hin.
      destruct (Hnew f v Hin) as (Hfalse & Htrue & Hfinal & k' & Hk' & Hval).
      repeat split; try assumption.
      exists k'. split; [now right | assumption].
Qed.

(** After the loop, a field that some entry of the mapping offers a
    value for holds a value. *)
Lemma header_loop_fills pairs l doc sets (k f : string) :
  In (k, f) l -> truthy (pairs_get pairs (lower k)) = true ->
  truthy (doc_get (fold_left (header_step pairs) l (doc, sets)).1 f) = true.
Proof.
  revert doc sets. induction l as [ | [k' g] l IH]; intros doc sets Hin Hv; [destruct Hin | ].
  cbn [fold_left].
  destruct (header_step_cases pairs doc sets k' g) as [(Hv' & Hg & ->) | (Hskip & ->)].
  - destruct (String.eqb_spec g f) as [-> | Hne].
    + rewrite header_loop_keeps; now rewrite doc_get_set, String.eqb_refl.
    + destruct Hin as [[= -> ->] | Hin]; [congruence | now apply IH].
  - destruct Hin as [[= -> ->] | Hin]; [ | now apply IH].
    destruct Hskip as [Hskip | Hskip]; [congruence | ].
    rewrite header_loop_keeps; assumption.
Qed.

(** A field that no entry of the mapping offers a value for is left as
    it was. *)
Lemma header_loop_skips pairs l doc sets (f : string) :
  (forall k, In (k, f) l -> truthy (pairs_get pairs (lower k)) = false) ->
  doc_get (fold_left (header_step pairs) l (doc, sets)).1 f = doc_get doc f.
Proof.
  revert doc sets. induction l as [ | [k g] l IH]; intros doc sets Hno; [reflexivity | ].
  cbn [fold_left].
  destruct (header_step_cases pairs doc sets k g) as [(Hv & Hg & ->) | (_ & ->)].
  - rewrite IH by (intros k' Hk'; apply Hno; now right).
    rewrite doc_get_set. destruct (String.eqb_spec g f) as [-> | ]; [ | reflexivity].
    rewrite (Hno k) in Hv by now left. discriminate.
  - apply IH. intros k' Hk'. apply Hno. now right.
Qed.

(** The keys of the mapping are written in lower case. *)
Lemma field_mapping_lower (k f : string) :
  In (k, f) field_mapping -> lower k = k.
Proof.
  cbn. intros H.
  repeat (destruct H as [[= <- <-] | H]; [reflexivity | ]). destruct H.
Qed.

(** C7.  In one pass over the mapping a header field that already
    holds a value keeps it; [doc.set] is called at most once per field,
    only on a field that held no value, and the value of that first call
    is the value the field has when the pass ends; it is called exactly
    once on an empty field that some entry of the mapping has a value
    for; and a later pass, with any labels, leaves the fields written in
    this pass as they are. *)
Theorem first_write_wins pairs doc :
  let out := update_header_fields pairs doc in
  (forall f, truthy (doc_get doc f) = true -> doc_get out.1 f = doc_get doc f) /\
  NoDup out.2.*1 /\
  (forall f v, In (f, v) out.2 ->
     truthy (doc_get doc f) = false /\ truthy v = true /\ doc_get out.1 f = v /\
     exists k, In (k, f) field_mapping /\ pairs_get pairs k = v) /\
  (forall k f, In (k, f) field_mapping -> truthy (pairs_get pairs k) = true ->
     truthy (doc_get doc f) = false -> In f out.2.*1) /\
  (forall pairs' f v, In (f, v) out.2 ->
     doc_get (update_header_fields pairs' out.1).1 f = v).
Proof.
  intros out. subst out. unfold update_header_fields.
  destruct (header_loop_sets pairs field_mapping doc [])
    as (new & Hsets & Hnd & Hor & Hnew).
  cbn [app] in Hsets. rewrite Hsets.
  split; [ | split; [ | split; [ | split]]].
  - intros f Hf. now apply header_loop_keeps.
  - exact Hnd.
  - intros f v Hin. destruct (Hnew f v Hin) as (H1 & H2 & H3 & k & Hk & Hv).
    repeat split; try assumption. exists k. split; [assumption | ].
    now rewrite <- (field_mapping_lower k f Hk).
  - intros k f Hk Hv Hf. destruct (Hor f) as [Hin | Heq]; [assumption | ].
    rewrite <- (field_mapping_lower k f Hk) in Hv.
    pose proof (header_loop_fills pairs field_mapping doc [] k f Hk Hv) as Hfill.
    congruence.
  - intros pairs' f v Hin. destruct (Hnew f v Hin) as (_ & H2 & H3 & _).
    rewrite header_loop_keeps; congruence.
Qed.

(** C3, as the code has it.  A label is looked up in the mapping as a
    whole: labels that are not keys of the mapping, whatever they
    contain, have no effect on the header fields; and a label that is a
    key of the mapping gives its value to the field of that key when the
    field is empty and no earlier key of the same field has a value. *)
Theorem labels_match_exactly pairs doc :
  (forall pairs',
     (forall k f, In (k, f) field_mapping -> pairs' !! k = pairs !! k) ->
     update_header_fields pairs' doc = update_header_fields pairs doc) /\
  (forall before k f after v,
     field_mapping = (before ++ (k, f) :: after)%list ->
     pairs !! k = Some v -> truthy v = true ->
     truthy (doc_get doc f) = false ->
     (forall k', In (k', f) before -> truthy (pairs_get pairs k') = false) ->
     doc_get (update_header_fields pairs doc).1 f = v).
Proof.
  split.
  - intros pairs' Hsame. unfold update_header_fields.
    generalize (doc, @nil (string * pyval)).
    pose proof field_mapping_lower as Hlow. revert Hsame Hlow.
    generalize field_mapping.
    induction l as [ | [k f] l IH]; intros Hsame Hlow st; [reflexivity | ].
    cbn [fold_left].
    assert (Hstep : header_step pairs' st (k, f) = header_step pairs st (k, f)).
    { destruct st as [d s]. cbn. unfold pairs_get.
      rewrite (Hlow k f) by now left. rewrite (Hsame k f) by now left. reflexivity. }
    rewrite Hstep. apply IH; intros; [apply (Hsame k0 f0) | apply (Hlow k0 f0)]; now right.
  - intros before k f after v Hmap Hk Hv Hf Hbefore.
    unfold update_header_fields.
    assert (Hlow : forall k' f', In (k', f') (before ++ (k, f) :: after)%list -> lower k' = k').
    { rewrite <- Hmap. apply field_mapping_lower. }
    rewrite Hmap, fold_left_app. cbn [fold_left].
    destruct (fold_left (header_step pairs) before (doc, [])) as [doc1 sets1] eqn:Hfold.
    assert (Hdoc1 : doc_get doc1 f = doc_get doc f).
    { change doc1 with (doc1, sets1).1. rewrite <- Hfold.
      apply header_loop_skips. intros k' Hk'.
      rewrite (Hlow k' f) by (apply in_or_app; now left). now apply Hbefore. }
    assert (Hval : pairs_get pairs (lower k) = v).
    { rewrite (Hlow k f) by (apply in_or_app; right; now left).
      unfold pairs_get. now rewrite Hk. }
    destruct (header_step_cases pairs doc1 sets1 k f) as [(_ & _ & ->) | (Hskip & _)].
    + rewrite header_loop_keeps; rewrite doc_get_set, String.eqb_refl; congruence.
    + destruct Hskip; congruence.
Qed.

End Header.

(** ** Properties of the items table *)
Section Items.

Variable float_of_str : string -> option pyfloat.

Lemma py_lt_int (a b : Z) : py_lt (PInt a) (PInt b) = Ok (a <? b)%Z.
Proof.
  cbn. rewrite Z.pow_0_r, !Z.mul_1_r. reflexivity.
Qed.

Lemma list_pos_nonneg (n : nat) (i : Z) :
  (0 <= i < Z.of_nat n)%Z -> list_pos n i = Ok (Z.to_nat i).
Proof.
  intros Hi. unfold list_pos.
  destruct (Z.ltb_spec i 0); [lia | ].
  destruct (Z.leb_spec 0 i); [ | lia].
  destruct (Z.ltb_spec i (Z.of_nat n)); [reflexivity | lia].
Qed.

(** A loop whose turns all return and keep an invariant returns and
    keeps it. *)
Lemma foldM_inv {E A B} (I : A -> Prop) (f : A -> B -> result E A)
    (l : list B) (acc : A) :
  I acc ->
  (forall a x, In x l -> I a -> exists a', f a x = Ok a' /\ I a') ->
  exists r, foldM f l acc = Ok r /\ I r.
Proof.
  revert acc. induction l as [ | x l IH]; intros acc Hacc Hstep.
  - exists acc. now split.
  - destruct (Hstep acc x (or_introl eq_refl) Hacc) as (a' & Hfx & Ha').
    cbn. rewrite Hfx. cbn. apply IH; [exact Ha' | ].
    intros a y Hy. apply Hstep. now right.
Qed.

Lemma opt_field_default (d : list (string * pyval)) (k : string)
    (P : pyval -> Prop) (dflt : pyval) :
  opt_field d k P -> P dflt -> P (default dflt (assoc k d)).
Proof.
  unfold opt_field. now destruct (assoc k d).
Qed.

(** *** The grid *)

Lemma make_grid_ok (n c : Z) :
  (0 < n)%Z -> 
  make_grid (PInt n) (PInt c) =
    Ok (replicate (Z.to_nat n) (replicate (Z.to_nat c) None)) /\
  grid_ok float_of_str (Z.to_nat n) (Z.to_nat c)
    (replicate (Z.to_nat n) (replicate (Z.to_nat c) None)).
Proof.
  intros Hn. split.
  - unfold make_grid. cbn. destruct (Z.leb_spec n 0); [lia | reflexivity].
  - split; [apply length_replicate | ].
    apply Forall_replicate. split; [apply length_replicate | ].
    apply Forall_replicate. intros s [=].
Qed.

Lemma grid_set_ok (n c : nat) (g : grid_t) (ri ci : Z) (content : string) :
  grid_ok float_of_str n c g -> finite_text float_of_str content ->
  (0 <= ri < Z.of_nat n)%Z -> (0 <= ci < Z.of_nat c)%Z ->
  exists g', grid_set g (PInt ri) (PInt ci) content = Ok g' /\
             grid_ok float_of_str n c g'.
Proof.
  intros [Hlen Hrows] Hfin Hri Hci. unfold grid_set. cbn [as_index bind].
  rewrite Hlen, list_pos_nonneg by assumption. cbn [bind].
  destruct (lookup_lt_is_Some_2 g (Z.to_nat ri)) as [row Hrow]; [lia | ].
  rewrite Hrow. cbn [from_option id].
  destruct (proj1 (Forall_lookup _ _) Hrows _ _ Hrow) as [Hrl Hcells].
  rewrite Hrl, list_pos_nonneg by assumption. cbn [bind].
  eexists. split; [reflexivity | ].
  split; [now rewrite length_insert | ].
  apply Forall_insert; [assumption | ].
  split; [now rewrite length_insert | ].
  apply Forall_insert; [assumption | ].
  intros s [= <-]. exact Hfin.
Qed.

Lemma place_cell_ok (n c : Z) (g : grid_t) (cell : pyval) :
  grid_ok float_of_str (Z.to_nat n) (Z.to_nat c) g ->
  cell_shaped float_of_str cell ->
  exists g', place_cell (PInt n) (PInt c) g cell = Ok g' /\
             grid_ok float_of_str (Z.to_nat n) (Z.to_nat c) g'.
Proof.
  intros Hg (d & -> & Hri & Hci & Hcontent).
  apply (opt_field_default _ _ _ (PInt 0)) in Hri; [ | exists 0%Z; split; [reflexivity | lia]].
  apply (opt_field_default _ _ _ (PInt 0)) in Hci; [ | exists 0%Z; split; [reflexivity | lia]].
  apply (opt_field_default _ _ _ (PStr "")) in Hcontent;
    [ | exists ""; split; [reflexivity | now left]].
  destruct Hri as (ri & Hri & Hri0), Hci as (ci & Hci & Hci0),
    Hcontent as (s & Hs & Hfin).
  unfold place_cell. cbn [py_get bind]. rewrite Hri, Hci, Hs. cbn [as_str bind].
  rewrite !py_lt_int. cbn [bind].
  destruct (Z.ltb_spec ri n); [ | now exists g].
  destruct (Z.ltb_spec ci c); [ | now exists g].
  apply grid_set_ok; [assumption | assumption | lia | lia].
Qed.

Lemma build_grid_ok (n c : Z) (cells : pyval) :
  (0 < n)%Z -> is_list_of (cell_shaped float_of_str) cells ->
  exists g, build_grid (PInt n) (PInt c) cells = Ok g /\
            grid_ok float_of_str (Z.to_nat n) (Z.to_nat c) g.
Proof.
  intros Hn (l & -> & Hcells). unfold build_grid.
  destruct (make_grid_ok n c Hn) as [-> Hg]. cbn [bind py_iter].
  apply foldM_inv; [exact Hg | ].
  intros g cell Hin Hg'. apply place_cell_ok; [exact Hg' | ].
  rewrite Forall_forall in Hcells. apply Hcells. now apply list_elem_of_In.
Qed.

(** *** The columns *)

Lemma map_columns_lookup (hs : list string) (idx : Z) (m : gmap string Z)
    (key : string) (i : Z) :
  map_columns idx hs m !! key = Some i ->
  m !! key = Some i \/ (idx <= i < idx + Z.of_nat (length hs))%Z.
Proof.
  revert idx m. induction hs as [ | h hs IH]; intros idx m H; cbn [map_columns] in H.
  - now left.
  - apply IH in H. cbn [length]. destruct H as [H | H]; [ | right; lia].
    destruct (classify h) as [k | ]; [ | now left].
    destruct (decide (k = key)) as [-> | Hne].
    + rewrite lookup_insert_eq in H. injection H as <-. right; lia.
    + rewrite lookup_insert_ne in H by assumption. now left.
Qed.

Lemma map_columns_unclassified (hs : list string) (idx : Z) (m : gmap string Z)
    (key : string) :
  map_columns idx hs m !! key = None <->
  m !! key = None /\ unclassified hs key.
Proof.
  unfold unclassified.
  revert idx m. induction hs as [ | h hs IH]; intros idx m; cbn [map_columns].
  - split; [intros H; split; [exact H | constructor] | now intros [H _]].
  - rewrite IH, Forall_cons. destruct (classify h) as [k | ].
    + destruct (decide (k = key)) as [-> | Hne].
      * rewrite lookup_insert_eq. split; [now intros [[=] _] | now intros (_ & [] & _)].
      * rewrite lookup_insert_ne by assumption.
        split; [intros [H1 H2] | intros (H1 & _ & H2)]; repeat split; try assumption.
        intros [= ->]. contradiction.
    + split; [intros [H1 H2] | intros (H1 & _ & H2)]; repeat split; try assumption.
      discriminate.
Qed.

(** *** The items *)

Lemma bind_ok_inv {E A B} (m : result E A) (k : A -> result E B) (r : B) :
  bind m k = Ok r -> exists a, m = Ok a /\ k a = Ok r.
Proof.
  destruct m as [a | e]; [ | discriminate]. intros H. now exists a.
Qed.

Lemma col_in_false (col_map : gmap string Z) (key : string) :
  col_map !! key = None -> col_in col_map key = false.
Proof.
  intros H. unfold col_in. rewrite H. reflexivity.
Qed.

Lemma build_item_defaults (col_map : gmap string Z) (row : list (option string))
    (row_idx : Z) (it : LineItem) :
  build_item float_of_str col_map row row_idx = Ok it ->
  (col_map !! "sr_no" = None -> sr_no it = row_idx) /\
  (col_map !! "item_id" = None -> item_id it = Some "") /\
  (col_map !! "flexi_code" = None -> flexi_code it = Some "") /\
  (col_map !! "item_name" = None -> item_name it = Some "") /\
  (col_map !! "unit" = None -> unit it = Some "") /\
  (col_map !! "qty" = None -> qty it = FFin 0 0) /\
  (col_map !! "cartons" = None -> cartons it = FFin 0 0).
Proof.
  unfold build_item. intros H.
  apply bind_ok_inv in H as (v1 & H1 & H).
  apply bind_ok_inv in H as (v2 & H2 & H).
  apply bind_ok_inv in H as (v3 & H3 & H).
  apply bind_ok_inv in H as (v4 & H4 & H).
  apply bind_ok_inv in H as (v5 & H5 & H).
  apply bind_ok_inv in H as (v6 & H6 & H).
  apply bind_ok_inv in H as (v7 & H7 & H).
  injection H as <-. cbn.
  repeat split; intros Hnone; apply col_in_false in Hnone;
    rewrite Hnone in *; congruence.
Qed.

Lemma row_at_ok (row : list (option string)) (i : Z) :
  (0 <= i < Z.of_nat (length row))%Z ->
  exists c, row_at row i = Ok c /\ row !! Z.to_nat i = Some c.
Proof.
  intros Hi. unfold row_at. rewrite list_pos_nonneg by assumption. cbn [bind].
  destruct (lookup_lt_is_Some_2 row (Z.to_nat i)) as [c Hc]; [lia | ].
  rewrite Hc. now exists c.
Qed.

Lemma column_read (col_map : gmap string Z) (row : list (option string))
    (key : string) (dflt : Z) :
  columns_in col_map row -> col_in col_map key = true ->
  exists c, row_at row (col_get col_map key dflt) = Ok c /\ In c row.
Proof.
  intros Hcols Hin. unfold col_in, col_get in *.
  destruct (col_map !! key) as [i | ] eqn:Hi; [ | discriminate].
  destruct (row_at_ok row i (Hcols key i Hi)) as (c & Hc & Hlook).
  exists c. split; [exact Hc | ].
  apply list_elem_of_In. eapply list_elem_of_lookup_2. exact Hlook.
Qed.

Lemma safe_int_ok (c : option string) :
  finite_cell float_of_str c -> exists z, safe_int float_of_str c = Ok z.
Proof.
  intros Hc. destruct c as [s | ]; [ | now exists 0%Z].
  unfold safe_int. destruct (String.eqb_spec s "") as [ | Hne]; [now exists 0%Z | ].
  destruct (Hc s eq_refl) as [ | Hfin]; [contradiction | ].
  destruct (float_of_str (remove_commas s)) as [[ | neg | m e] | ];
    try (eexists; reflexivity).
  now destruct (Hfin neg).
Qed.

Lemma build_item_ok (col_map : gmap string Z) (row : list (option string))
    (row_idx : Z) :
  columns_in col_map row -> Forall (finite_cell float_of_str) row ->
  exists it, build_item float_of_str col_map row row_idx = Ok it.
Proof.
  intros Hcols Hrow. unfold build_item.
  assert (Hint : forall key dflt,
            exists z, (if col_in col_map key
                       then c <- row_at row (col_get col_map key dflt) ;;
                            safe_int float_of_str c
                       else Ok row_idx) = Ok z).
  { intros key dflt. destruct (col_in col_map key) eqn:Hin; [ | now eexists].
    destruct (column_read col_map row key dflt Hcols Hin) as (c & -> & Hc).
    cbn [bind]. apply safe_int_ok.
    rewrite Forall_forall in Hrow. apply Hrow. now apply list_elem_of_In. }
  assert (Htext : forall key dflt,
            exists c, (if col_in col_map key
                       then row_at row (col_get col_map key dflt)
                       else Ok (Some "")) = Ok c).
  { intros key dflt. destruct (col_in col_map key) eqn:Hin; [ | now eexists].
    destruct (column_read col_map row key dflt Hcols Hin) as (c & -> & _).
    now eexists. }
  assert (Hfloat : forall key dflt,
            exists f, (if col_in col_map key
                       then c <- row_at row (col_get col_map key dflt) ;;
                            Ok (safe_float float_of_str c)
                       else Ok (FFin 0 0)) = Ok f).
  { intros key dflt. destruct (col_in col_map key) eqn:Hin; [ | now eexists].
    destruct (column_read col_map row key dflt Hcols Hin) as (c & -> & _).
    now eexists. }
  destruct (Hint "sr_no" 0%Z) as [v1 ->].
  destruct (Htext "item_id" 1%Z) as [v2 ->].
  destruct (Htext "flexi_code" (-1)%Z) as [v3 ->].
  destruct (Htext "item_name" 2%Z) as [v4 ->].
  destruct (Htext "unit" (-1)%Z) as [v5 ->].
  destruct (Hfloat "qty" 3%Z) as [v6 ->].
  destruct (Hfloat "cartons" (-1)%Z) as [v7 ->].
  cbn [bind]. now eexists.
Qed.

Lemma with_items_items (doc : LandmarkDeliveryNote) :
  with_items (items doc) doc = doc.
Proof. now destruct doc. Qed.

(** The loop over the rows appends items built by [build_item] from
    rows of the grid, and changes nothing else. *)
Lemma row_loop_items (grid : grid_t) (col_map : gmap string Z) (rows : list nat)
    (doc doc' : LandmarkDeliveryNote) :
  foldM (row_step float_of_str grid col_map) rows doc = Ok doc' ->
  exists new,
    doc' = with_items (items doc ++ new) doc /\
    Forall (fun it => exists i row,
              In i rows /\ grid !! i = Some row /\
              build_item float_of_str col_map row (Z.of_nat i) = Ok it /\
              opt_truthy (item_name it) || opt_truthy (item_id it) = true) new.
Proof.
  revert doc. induction rows as [ | i rows IH]; intros doc H; cbn [foldM] in H.
  - injection H as <-. exists []. rewrite app_nil_r, with_items_items.
    split; [reflexivity | constructor].
  - apply bind_ok_inv in H as (d1 & Hstep & H).
    destruct (IH d1 H) as (new1 & -> & Hnew1).
    assert (Hweak : Forall (fun it => exists j row,
              In j (i :: rows) /\ grid !! j = Some row /\
              build_item float_of_str col_map row (Z.of_nat j) = Ok it /\
              opt_truthy (item_name it) || opt_truthy (item_id it) = true) new1).
    { eapply Forall_impl; [exact Hnew1 | ].
      intros it (j & row & Hj & Hrow & Hit). exists j, row. split; [now right | now split]. }
    unfold row_step in Hstep.
    apply bind_ok_inv in Hstep as (row & Hrow & Hstep).
    unfold list_get in Hrow. destruct (grid !! i) as [row' | ] eqn:Hgi; [ | discriminate].
    injection Hrow as ->.
    destruct (negb (existsb opt_truthy row)).
    { injection Hstep as <-. now exists new1. }
    apply bind_ok_inv in Hstep as (it & Hit & Hstep).
    destruct (opt_truthy (item_name it) || opt_truthy (item_id it)) eqn:Hkeep.
    + injection Hstep as <-. exists (it :: new1). split.
      * cbn. now rewrite <- app_assoc.
      * constructor; [ | exact Hweak]. exists i, row.
        split; [now left | split; [exact Hgi | now split]].
    + injection Hstep as <-. now exists new1.
Qed.

Lemma row_loop_ok (grid : grid_t) (col_map : gmap string Z) (rows : list nat)
    (doc : LandmarkDeliveryNote) :
  (forall i, In i rows -> exists row,
     grid !! i = Some row /\ columns_in col_map row /\
     Forall (finite_cell float_of_str) row) ->
  exists doc', foldM (row_step float_of_str grid col_map) rows doc = Ok doc'.
Proof.
  intros Hrows.
  destruct (foldM_inv (fun _ => True) (row_step float_of_str grid col_map) rows doc I)
    as (doc' & Hdoc' & _); [ | now exists doc'].
  intros d i Hi _. destruct (Hrows i Hi) as (row & Hrow & Hcols & Hfin).
  unfold row_step, list_get. rewrite Hrow. cbn [bind].
  destruct (negb (existsb opt_truthy row)); [now exists d | ].
  destruct (build_item_ok col_map row (Z.of_nat i) Hcols Hfin) as [it ->].
  cbn [bind]. destruct (_ || _); eexists; split; reflexivity || exact I.
Qed.

Lemma py_eq_int_zero (n : Z) : py_eq (PInt n) (PInt 0) = (n =? 0)%Z.
Proof.
  cbn. rewrite Z.mul_1_r. reflexivity.
Qed.

Lemma parse_items_table_ok (doc : LandmarkDeliveryNote) (table : pyval) :
  table_shaped float_of_str table ->
  exists doc', parse_items_table float_of_str doc table = Ok doc'.
Proof.
  intros (d & -> & Hrc & Hcc & Hcells).
  apply (opt_field_default _ _ _ (PInt 0)) in Hrc; [ | exists 0%Z; split; [reflexivity | lia]].
  apply (opt_field_default _ _ _ (PInt 0)) in Hcc; [ | now exists 0%Z].
  apply (opt_field_default _ _ _ (PList [])) in Hcells;
    [ | exists []; split; [reflexivity | constructor]].
  destruct Hrc as (n & Hn & Hn0), Hcc as (c & Hc).
  unfold parse_items_table. cbn [py_get bind]. rewrite Hn, Hc, !py_eq_int_zero.
  destruct (Z.eqb_spec n 0); [now eexists | ].
  destruct (Z.eqb_spec c 0); [now eexists | ]. cbn [orb].
  destruct (build_grid_ok n c _ ltac:(lia) Hcells) as (g & -> & Hlen & Hrows).
  cbn [bind]. unfold list_get at 1.
  destruct (lookup_lt_is_Some_2 g 0) as [header_row Hh]; [lia | ].
  rewrite Hh. cbn [bind as_index].
  destruct (proj1 (Forall_lookup _ _) Hrows _ _ Hh) as [Hhl _].
  apply row_loop_ok. intros i Hi. apply in_seq in Hi.
  destruct (lookup_lt_is_Some_2 g i) as [row Hrow]; [lia | ].
  destruct (proj1 (Forall_lookup _ _) Hrows _ _ Hrow) as [Hrl Hfin].
  exists row. split; [exact Hrow | split; [ | exact Hfin]].
  intros key j Hj. apply map_columns_lookup in Hj.
  rewrite lookup_empty, length_fmap in Hj. destruct Hj as [[=] | Hj]. lia.
Qed.

(** The loop over the rows appends the items of the rows, in the order
    of the rows, and changes nothing else. *)
Lemma row_loop_row_items (grid : grid_t) (col_map : gmap string Z) (rows : list nat)
    (doc doc' : LandmarkDeliveryNote) :
  foldM (row_step float_of_str grid col_map) rows doc = Ok doc' ->
  doc' = with_items (items doc ++ omap (row_item float_of_str grid col_map) rows) doc.
Proof.
  revert doc. induction rows as [ | i rows IH]; intros doc H; cbn [foldM] in H.
  - injection H as <-. cbn [omap list_omap]. now rewrite app_nil_r, with_items_items.
  - apply bind_ok_inv in H as (d1 & Hstep & H). rewrite (IH d1 H). clear IH H.
    cbn [omap list_omap]. unfold row_item. unfold row_step, list_get in Hstep.
    destruct (grid !! i) as [row | ]; [ | discriminate]. cbn [bind] in Hstep.
    destruct (existsb opt_truthy row); cbn [negb] in Hstep.
    2: { now injection Hstep as <-. }
    destruct (build_item float_of_str col_map row (Z.of_nat i)) as [it | e];
      [ | discriminate].
    cbn [bind] in Hstep.
    destruct (opt_truthy (item_name it) || opt_truthy (item_id it)).
    + injection Hstep as <-. cbn. now rewrite <- app_assoc.
    + now injection Hstep as <-.
Qed.

(** When the loop over the rows returns, every row it went through is
    a row of the grid, and the item of every row that has a cell that
    counts as true was built. *)
Lemma row_loop_built (grid : grid_t) (col_map : gmap string Z) (rows : list nat)
    (doc doc' : LandmarkDeliveryNote) :
  foldM (row_step float_of_str grid col_map) rows doc = Ok doc' ->
  Forall (fun i => exists row,
            grid !! i = Some row /\
            (existsb opt_truthy row = true ->
             exists it, build_item float_of_str col_map row (Z.of_nat i) = Ok it))
         rows.
Proof.
  revert doc. induction rows as [ | i rows IH]; intros doc H; cbn [foldM] in H;
    [constructor | ].
  apply bind_ok_inv in H as (d1 & Hstep & H).
  constructor; [ | exact (IH d1 H)].
  unfold row_step, list_get in Hstep.
  destruct (grid !! i) as [row | ]; [ | discriminate]. cbn [bind] in Hstep.
  exists row. split; [reflexivity | ]. intros Hany. rewrite Hany in Hstep.
  cbn [negb] in Hstep.
  destruct (build_item float_of_str col_map row (Z.of_nat i)) as [it | e];
    [now exists it | discriminate].
Qed.

(** C2, as the code has it.  Where the table has no row or no column
    it yields no item.  Otherwise the items are those of the rows of
    the grid below the header row, in the order of the rows: a row
    without a cell that counts as true has no item, and the item built
    for any other row is kept when it has a name or an id.  The item
    built for a row holds, for each of the seven columns that no header
    is classified as, the default: the index of its own row for
    [sr_no], the empty string for [item_id], [flexi_code], [item_name]
    and [unit], and 0.0 for [qty] and [cartons].  No column is read by
    its position. *)
Theorem unclassified_columns_default (doc : LandmarkDeliveryNote) (table : pyval)
    (doc' : LandmarkDeliveryNote) :
  parse_items_table float_of_str doc table = Ok doc' ->
  exists row_count column_count cells,
    py_get table "rowCount" (PInt 0) = Ok row_count /\
    py_get table "columnCount" (PInt 0) = Ok column_count /\
    py_get table "cells" (PList []) = Ok cells /\
    if py_eq row_count (PInt 0) || py_eq column_count (PInt 0)
    then items doc' = []
    else
      exists grid header_row n,
        build_grid row_count column_count cells = Ok grid /\
        grid !! 0 = Some header_row /\
        as_index row_count = Ok n /\
        let headers := header_text <$> header_row in
        let col_map := map_columns 0 headers ∅ in
        let data_rows := seq 1 (Z.to_nat n - 1) in
        items doc' = omap (row_item float_of_str grid col_map) data_rows /\
        forall row_idx, In row_idx data_rows ->
          exists row,
            grid !! row_idx = Some row /\
            if existsb opt_truthy row then
              exists it,
                build_item float_of_str col_map row (Z.of_nat row_idx) = Ok it /\
                defaults_when_unclassified headers row_idx it /\
                row_item float_of_str grid col_map row_idx
                = if opt_truthy (item_name it) || opt_truthy (item_id it)
                  then Some it else None
            else row_item float_of_str grid col_map row_idx = None.
Proof.
  unfold parse_items_table. intros H.
  apply bind_ok_inv in H as (rc & Hrc & H).
  apply bind_ok_inv in H as (cc & Hcc & H).
  apply bind_ok_inv in H as (cells & Hcells & H).
  exists rc, cc, cells. do 3 (split; [assumption | ]).
  destruct (py_eq rc (PInt 0) || py_eq cc (PInt 0)).
  { now injection H as <-. }
  apply bind_ok_inv in H as (grid & Hgrid & H).
  apply bind_ok_inv in H as (header_row & Hh & H).
  apply bind_ok_inv in H as (n & Hn & H).
  unfold list_get in Hh. destruct (grid !! 0) as [h | ] eqn:Hg0; [ | discriminate].
  injection Hh as ->.
  pose proof (row_loop_built _ _ _ _ _ H) as Hbuilt.
  apply row_loop_row_items in H as ->. cbn [items with_items app].
  exists grid, header_row, n. do 3 (split; [assumption | ]).
  set (col_map := map_columns 0 _ ∅) in *. split; [reflexivity | ].
  intros i Hi. rewrite Forall_forall in Hbuilt.
  destruct (Hbuilt i ltac:(now apply list_elem_of_In)) as (row & Hrow & Hit).
  exists row. split; [exact Hrow | ]. unfold row_item. rewrite Hrow.
  destruct (existsb opt_truthy row); [ | reflexivity].
  destruct (Hit eq_refl) as [it Hbuild]. exists it. rewrite Hbuild.
  split; [reflexivity | ]. split; [ | reflexivity].
  apply build_item_defaults in Hbuild.
  destruct Hbuild as (H1 & H2 & H3 & H4 & H5 & H6 & H7).
  repeat split; intros Hun;
    [apply H1 | apply H2 | apply H3 | apply H4 | apply H5 | apply H6 | apply H7];
    apply map_columns_unclassified; (split; [apply lookup_empty | exact Hun]).
Qed.

End Items.

(** ** Properties of the parse as a whole *)
Section Parse.

Variable float_of_str : string -> option pyfloat.

Lemma content_read (v : pyval) :
  content_shaped v -> truthy v = true ->
  exists s, (c <- py_get v "content" (PStr "") ;; as_str c) = Ok s.
Proof.
  intros [Hfalse | (d & -> & Hc)] Htrue; [congruence | ].
  apply (opt_field_default _ _ _ (PStr "")) in Hc; [ | now exists ""].
  destruct Hc as [s Hs]. cbn [py_get bind]. rewrite Hs. now exists s.
Qed.

Lemma kv_step_ok (pairs : gmap string pyval) (kv : pyval) :
  kv_shaped kv -> exists pairs', kv_step pairs kv = Ok pairs'.
Proof.
  intros (d & -> & Hk & Hv).
  apply (opt_field_default _ _ _ PNone) in Hk; [ | now left].
  apply (opt_field_default _ _ _ PNone) in Hv; [ | now left].
  unfold kv_step. cbn [py_get bind].
  destruct (truthy (default PNone (assoc "key" d))) eqn:Hkt; [ | now eexists].
  destruct (truthy (default PNone (assoc "value" d))) eqn:Hvt; [ | now eexists].
  destruct (content_read _ Hk Hkt) as [ks Hks].
  destruct (content_read _ Hv Hvt) as [vs Hvs].
  apply bind_ok_inv in Hks as (kc & Hk1 & Hk2).
  apply bind_ok_inv in Hvs as (vc & Hv1 & Hv2).
  rewrite Hk1. cbn [bind]. rewrite Hk2. cbn [bind].
  rewrite Hv1. cbn [bind]. rewrite Hv2. cbn [bind].
  destruct (_ && _); now eexists.
Qed.

Lemma document_step_ok (pairs : gmap string pyval) (document : pyval) :
  document_shaped document -> exists pairs', document_step pairs document = Ok pairs'.
Proof.
  intros (d & -> & Hf).
  apply (opt_field_default _ _ _ (PDict [])) in Hf; [ | now exists []].
  destruct Hf as [fd Hfd]. unfold document_step. cbn [py_get bind].
  rewrite Hfd. cbn. now eexists.
Qed.

Lemma foldM_ok {E A B} (f : A -> B -> result E A) (l : list B) (acc : A) :
  (forall a x, In x l -> exists a', f a x = Ok a') ->
  exists r, foldM f l acc = Ok r.
Proof.
  intros Hstep.
  destruct (foldM_inv (fun _ => True) f l acc I) as (r & Hr & _); [ | now exists r].
  intros a x Hx _. destruct (Hstep a x Hx) as [a' Ha']. now exists a'.
Qed.

Lemma extract_key_value_pairs_ok (analyze_result : pyval) :
  analyze_result_shaped float_of_str analyze_result ->
  exists pairs, extract_key_value_pairs analyze_result = Ok pairs.
Proof.
  intros (d & -> & Hkvs & Hdocs & _).
  apply (opt_field_default _ _ _ (PList [])) in Hkvs;
    [ | exists []; split; [reflexivity | constructor]].
  apply (opt_field_default _ _ _ (PList [])) in Hdocs;
    [ | exists []; split; [reflexivity | constructor]].
  destruct Hkvs as (kvl & Hkvl & Hkv), Hdocs as (docl & Hdocl & Hdoc).
  unfold extract_key_value_pairs. cbn [py_get bind]. rewrite Hkvl, Hdocl.
  cbn [py_iter bind].
  destruct (foldM_ok kv_step kvl ∅) as [pairs ->].
  { intros a kv Hin. apply kv_step_ok. rewrite Forall_forall in Hkv.
    apply Hkv. now apply list_elem_of_In. }
  cbn [bind]. apply foldM_ok.
  intros a document Hin. apply document_step_ok. rewrite Forall_forall in Hdoc.
  apply Hdoc. now apply list_elem_of_In.
Qed.

Lemma parse_body_ok (doc : LandmarkDeliveryNote) (azure_result : pyval) :
  result_shaped float_of_str azure_result ->
  exists doc', parse_body float_of_str doc azure_result = Ok doc'.
Proof.
  intros (d & -> & Har).
  apply (opt_field_default _ _ _ (PDict [])) in Har.
  2: { exists []. repeat split. }
  unfold parse_body. cbn [py_get bind].
  destruct (extract_key_value_pairs_ok _ Har) as [pairs ->]. cbn [bind].
  destruct Har as (a & -> & _ & _ & Ht). cbn [py_get bind].
  apply (opt_field_default _ _ _ (PList [])) in Ht; [ | now left].
  destruct (truthy (default (PList []) (assoc "tables" a))) eqn:Htt; [ | now eexists].
  destruct Ht as [Hfalse | (t & rest & -> & Htable)]; [congruence | ].
  cbn [py_first bind]. now apply parse_items_table_ok.
Qed.

(** C1, as the code has it.  For a result of the expected shape (every
    key may be absent; what is present is an object, a list, an integer
    that is not negative or a string where one is expected, and no cell
    reads as an infinite number) the parse returns a document.  Data of
    another shape is not brought to a default: the exception it causes
    is thrown again as "Failed to parse Azure response". *)
Theorem shaped_result_parses (doc : LandmarkDeliveryNote) (azure_result : pyval) :
  result_shaped float_of_str azure_result ->
  exists doc', parse_azure_response float_of_str doc azure_result = Ok doc'.
Proof.
  intros Hshape. unfold parse_azure_response.
  destruct (parse_body_ok doc azure_result Hshape) as [doc' ->]. now exists doc'.
Qed.

(** *** What the parse leaves alone *)

Lemma header_loop_frame (pairs : gmap string pyval) (l : list (string * string))
    (st : LandmarkDeliveryNote * list (string * pyval)) :
  exists f, (fold_left (header_step pairs) l st).1 = with_fields f st.1.
Proof.
  revert st. induction l as [ | [k g] l IH]; intros [doc sets].
  - exists (fields doc). now destruct doc.
  - cbn [fold_left].
    destruct (header_step_cases pairs doc sets k g) as [(_ & _ & ->) | (_ & ->)].
    + destruct (IH (doc_set doc g (pairs_get pairs (lower k)),
                    (sets ++ [(g, pairs_get pairs (lower k))])%list)) as [f ->].
      now exists f.
    + apply IH.
Qed.

(** The parse writes header fields and items, nothing else. *)
Lemma parse_body_frame (doc doc' : LandmarkDeliveryNote) (azure_result : pyval) :
  parse_body float_of_str doc azure_result = Ok doc' ->
  exists f l, doc' = with_items l (with_fields f doc).
Proof.
  unfold parse_body. intros H.
  apply bind_ok_inv in H as (ar & _ & H).
  apply bind_ok_inv in H as (pairs & _ & H).
  apply bind_ok_inv in H as (tables & _ & H).
  destruct (header_loop_frame pairs field_mapping (doc, [])) as [f Hf].
  unfold update_header_fields in H. rewrite Hf in H. cbn [fst] in H.
  exists f. destruct (truthy tables).
  - apply bind_ok_inv in H as (table & _ & H).
    unfold parse_items_table in H.
    apply bind_ok_inv in H as (rc & _ & H).
    apply bind_ok_inv in H as (cc & _ & H).
    apply bind_ok_inv in H as (cells & _ & H).
    destruct (_ || _).
    + injection H as <-. now exists [].
    + apply bind_ok_inv in H as (grid & _ & H).
      apply bind_ok_inv in H as (header_row & _ & H).
      apply bind_ok_inv in H as (n & _ & H).
      apply row_loop_items in H as (new & -> & _). now eexists.
  - injection H as <-. exists (items doc). now destruct doc.
Qed.

End Parse.

(** ** The invariant of the payment type *)
Section Payment.

Lemma validate_payment_matches (d d' : LandmarkDeliveryNote) old :
  validate d old = Ok d' -> payment_matches d'.
Proof.
  unfold validate, bind.
  destruct (validate_status_flow d old); [ | discriminate].
  destruct (validate_items_for_confirmation d); [ | discriminate].
  intros [= <-]. unfold payment_matches, generate_short_item_names. cbn.
  unfold validate_payment_type, payment_type_differs.
  destruct (String.eqb_spec (status d) DELIVERED_CASH) as [Hc | Hc];
    destruct (String.eqb_spec (status d) DELIVERED_CREDIT) as [Hk | Hk];
    try (rewrite Hc in Hk; discriminate).
  - rewrite Hc. cbn. rewrite <- Hc.
    destruct (payment_type d) as [q | ] eqn:Hq; cbn.
    + destruct (String.eqb_spec q "Cash") as [-> | ]; cbn;
        rewrite ?Hq; split; congruence.
    + split; congruence.
  - rewrite Hk. cbn. rewrite <- Hk.
    destruct (payment_type d) as [q | ] eqn:Hq; cbn.
    + destruct (String.eqb_spec q "Credit") as [-> | ]; cbn;
        rewrite ?Hq; split; congruence.
    + split; congruence.
  - destruct (str_in (status d) [DELIVERED_CASH; DELIVERED_CREDIT]); cbn;
      split; congruence.
Qed.

Lemma save_keeps_payment_type (st : state) :
  status (self st) <> DELIVERED_CASH -> status (self st) <> DELIVERED_CREDIT ->
  payment_type (self (save st).1) = payment_type (self st).
Proof.
  intros Hc Hk. unfold save.
  destruct (validate (self st) (get_doc_before_save st)) as [d' | e] eqn:Hv;
    [ | reflexivity].
  revert Hv. unfold validate, bind.
  destruct (validate_status_flow _ _); [ | discriminate].
  destruct (validate_items_for_confirmation _); [ | discriminate].
  intros [= <-]. cbn. unfold validate_payment_type, str_in. cbn.
  apply String.eqb_neq in Hc, Hk. now rewrite Hc, Hk.
Qed.

(** What a save that returns has done to the payment type: it is the
    one of the status where the status is a Delivered one, and the one
    of the record in memory otherwise. *)
Lemma save_payment_type (st st' : state) :
  save st = (st', Ok tt) ->
  db st' = <[name (self st) := self st']> (db st) /\
  status (self st') = status (self st) /\
  payment_type (self st')
  = if String.eqb (status (self st)) DELIVERED_CASH then Some "Cash"
    else if String.eqb (status (self st)) DELIVERED_CREDIT then Some "Credit"
    else payment_type (self st).
Proof.
  unfold save.
  destruct (validate (self st) (get_doc_before_save st)) as [d' | e] eqn:Hv;
    [ | discriminate].
  intros [= <-]. revert Hv. unfold validate, bind.
  destruct (validate_status_flow _ _); [ | discriminate].
  destruct (validate_items_for_confirmation _); [ | discriminate].
  intros [= <-]. cbn.
  assert (Hname : forall d, name (validate_payment_type d) = name d).
  { intros d. unfold validate_payment_type.
    repeat match goal with |- context [if ?b then _ else _] => destruct b end;
      reflexivity. }
  assert (Hstatus : forall d, status (validate_payment_type d) = status d).
  { intros d. unfold validate_payment_type.
    repeat match goal with |- context [if ?b then _ else _] => destruct b end;
      reflexivity. }
  rewrite Hname, Hstatus. split; [reflexivity | ]. split; [reflexivity | ].
  unfold validate_payment_type, str_in, payment_type_differs. cbn [existsb].
  destruct (String.eqb_spec (status (self st)) DELIVERED_CASH) as [Hc | Hc].
  - cbn [orb andb]. destruct (payment_type (self st)) as [q | ] eqn:Hq;
      [ | reflexivity].
    destruct (String.eqb_spec q "Cash") as [-> | _]; cbn [negb]; [ | reflexivity].
    rewrite Hc. cbn. exact Hq.
  - cbn [orb andb].
    destruct (String.eqb_spec (status (self st)) DELIVERED_CREDIT) as [Hk | Hk];
      [ | reflexivity].
    cbn [orb andb]. destruct (payment_type (self st)) as [q | ] eqn:Hq;
      [ | reflexivity].
    destruct (String.eqb_spec q "Credit") as [-> | _]; cbn [negb]; [ | reflexivity].
    exact Hq.
Qed.

(** C9, as the code has it.  In every store that saving builds, a
    record in the Cash terminal state has the payment type "Cash" and a
    record in the Credit terminal state has "Credit".  The payment type
    is not set by a terminal transition only.  Every save that returns
    stores the record in memory under its name, and the payment type it
    stores is "Cash" where the status is the Cash terminal state and
    "Credit" where it is the Credit one, whether this save changes the
    status or not, and is the payment type that the record in memory
    carries, whatever it is, in any other status.  A save that raises
    leaves everything as it is.  [set_driver_confirmed] and the parse
    leave the payment type in memory as it is. *)
Theorem payment_type_follows_saved_status :
  (forall store, reachable store ->
     forall n d, store !! n = Some d -> payment_matches d) /\
  (forall st st', save st = (st', Ok tt) ->
     db st' = <[name (self st) := self st']> (db st) /\
     status (self st') = status (self st) /\
     payment_type (self st')
     = if String.eqb (status (self st)) DELIVERED_CASH then Some "Cash"
       else if String.eqb (status (self st)) DELIVERED_CREDIT then Some "Credit"
       else payment_type (self st)) /\
  (forall st e, (save st).2 = Raise e -> (save st).1 = st) /\
  (forall now st,
     payment_type (self (set_driver_confirmed now st).1) = payment_type (self st)) /\
  (forall float_of_str doc azure_result doc',
     parse_azure_response float_of_str doc azure_result = Ok doc' ->
     payment_type doc' = payment_type doc /\ status doc' = status doc).
Proof.
  split; [ | split; [ | split; [ | split]]].
  - intros store Hreach. induction Hreach as [ | st st' _ IH Hsave]; intros n d Hd.
    + now rewrite lookup_empty in Hd.
    + unfold save in Hsave.
      destruct (validate (self st) (get_doc_before_save st)) as [d' | e] eqn:Hv;
        [ | discriminate].
      injection Hsave as <-. cbn in Hd.
      destruct (decide (name d' = n)) as [<- | Hne].
      * rewrite lookup_insert_eq in Hd. injection Hd as <-.
        apply validate_payment_matches in Hv. exact Hv.
      * rewrite lookup_insert_ne in Hd by assumption. now apply (IH n).
  - exact save_payment_type.
  - intros st e. unfold save.
    now destruct (validate (self st) (get_doc_before_save st)).
  - intros now st. unfold set_driver_confirmed.
    now rewrite save_keeps_payment_type.
  - intros fos doc r doc'. unfold parse_azure_response.
    destruct (parse_body fos doc r) as [d | e] eqn:Hbody; [ | discriminate].
    intros [= <-]. apply parse_body_frame in Hbody as (f & l & ->). now split.
Qed.

End Payment.

(** ** Further properties of the code *)
Section Further.

Variable float_of_str : string -> option pyfloat.

(** Every item that the table yields has a name or an id: a row whose
    [item_name] and [item_id] are both empty or [None] is dropped. *)
Theorem retained_items_named (doc : LandmarkDeliveryNote) (table : pyval)
    (doc' : LandmarkDeliveryNote) :
  parse_items_table float_of_str doc table = Ok doc' ->
  Forall (fun it => opt_truthy (item_name it) || opt_truthy (item_id it) = true)
         (items doc').
Proof.
  unfold parse_items_table. intros H.
  apply bind_ok_inv in H as (rc & _ & H).
  apply bind_ok_inv in H as (cc & _ & H).
  apply bind_ok_inv in H as (cells & _ & H).
  destruct (py_eq rc (PInt 0) || py_eq cc (PInt 0)).
  { injection H as <-. constructor. }
  apply bind_ok_inv in H as (grid & _ & H).
  apply bind_ok_inv in H as (header_row & _ & H).
  apply bind_ok_inv in H as (n & _ & H).
  apply row_loop_items in H as (new & -> & Hnew). cbn.
  eapply Forall_impl; [exact Hnew | ].
  now intros it (i & row & _ & _ & _ & Hkeep).
Qed.

(** A cell whose indices are not negative is placed at its coordinate,
    without the space around its content, when both indices are below
    the counts, and is dropped otherwise. *)
Theorem cell_placed_or_dropped (n c : Z) (grid : grid_t) (ri ci : Z) (s : string) :
  length grid = Z.to_nat n ->
  Forall (fun row => length row = Z.to_nat c) grid ->
  (0 <= ri)%Z -> (0 <= ci)%Z ->
  place_cell (PInt n) (PInt c) grid (cell ri ci (PStr s)) =
    Ok (if ((ri <? n) && (ci <? c))%Z
        then <[Z.to_nat ri := <[Z.to_nat ci := Some (strip s)]>
                                (default [] (grid !! Z.to_nat ri))]> grid
        else grid).
Proof.
  intros Hlen Hrows Hri Hci. unfold place_cell, Samples.cell.
  cbn -[py_lt grid_set strip]. rewrite !py_lt_int. cbn [bind].
  destruct (Z.ltb_spec ri n); [ | reflexivity].
  cbn [bind andb].
  destruct (Z.ltb_spec ci c); [ | reflexivity].
  unfold grid_set. cbn [as_index bind].
  rewrite Hlen, list_pos_nonneg by lia. cbn [bind].
  destruct (lookup_lt_is_Some_2 grid (Z.to_nat ri)) as [row Hrow]; [lia | ].
  rewrite Hrow. cbn [from_option id].
  rewrite (proj1 (Forall_lookup _ _) Hrows _ _ Hrow), list_pos_nonneg by lia.
  reflexivity.
Qed.

(** [safe_int] returns its default on [None], on the empty string, on a
    text that [float] rejects and on a text that it reads as NaN; on a
    text that [float] reads as an infinity it raises [OverflowError],
    which the parse then throws as its failure. *)
Theorem safe_int_cases :
  safe_int float_of_str None = Ok 0%Z /\
  safe_int float_of_str (Some "") = Ok 0%Z /\
  (forall s, float_of_str (remove_commas s) = None ->
     safe_int float_of_str (Some s) = Ok 0%Z) /\
  (forall s, float_of_str (remove_commas s) = Some FNaN ->
     safe_int float_of_str (Some s) = Ok 0%Z) /\
  (forall s neg, s <> "" -> float_of_str (remove_commas s) = Some (FInf neg) ->
     safe_int float_of_str (Some s) = Raise OverflowError) /\
  (forall neg doc,
     float_of_str "inf" = Some (FInf neg) ->
     parse_azure_response float_of_str doc
       (analysis [] [table 2 1 [cell 0 0 (PStr "Sr"); cell 1 0 (PStr "inf")]])
     = Raise (MalformedAnalysisResult OverflowError)).
Proof.
  split; [reflexivity | split; [reflexivity | split; [ | split; [ | split]]]].
  - intros s Hs. unfold safe_int. rewrite Hs. now destruct (String.eqb s "").
  - intros s Hs. unfold safe_int. rewrite Hs. now destruct (String.eqb s "").
  - intros s neg Hne Hs. unfold safe_int. rewrite Hs.
    apply String.eqb_neq in Hne. now rewrite Hne.
  - intros neg doc Hinf. unfold parse_azure_response.
    vm_compute. rewrite Hinf. reflexivity.
Qed.

End Further.

(** ** The short names *)
Section ShortNames.

Lemma py_len_app (s1 s2 : string) : py_len (s1 ++ s2) = py_len s1 + py_len s2.
Proof.
  induction s1 as [ | a s1 IH]; [reflexivity | ].
  change (String a s1 ++ s2) with (String a (s1 ++ s2)).
  cbn [py_len]. rewrite IH. now destruct (continuation a).
Qed.

(** A slice that is as long as the text, or longer, is the text. *)
Lemma take_prefix_all (n : nat) (s : string) : py_len s <= n -> take_prefix n s = s.
Proof.
  revert n. induction s as [ | a s IH]; intros n Hn; [reflexivity | ].
  cbn [take_prefix py_len] in *. destruct (continuation a).
  - now rewrite IH.
  - destruct n as [ | n]; [lia | ]. rewrite IH by lia. reflexivity.
Qed.

(** A shorter slice cuts the text in front of a character. *)
Lemma take_prefix_cut (n : nat) (s : string) :
  n < py_len s ->
  exists a rest,
    s = take_prefix n s ++ String a rest /\ continuation a = false /\
    py_len (take_prefix n s) = n.
Proof.
  revert n. induction s as [ | b s IH]; intros n Hn; [cbn in Hn; lia | ].
  cbn [take_prefix py_len] in *. destruct (continuation b) eqn:Hb.
  - destruct (IH n Hn) as (a & rest & Hs & Ha & Hlen).
    exists a, rest. cbn [py_len]. rewrite Hb.
    split; [ | now split].
    change (String b (take_prefix n s) ++ String a rest)
      with (String b (take_prefix n s ++ String a rest)).
    now rewrite <- Hs.
  - destruct n as [ | n].
    + exists b, s. now repeat split.
    + destruct (IH n ltac:(lia)) as (a & rest & Hs & Ha & Hlen).
      exists a, rest. cbn [py_len]. rewrite Hb, Hlen.
      split; [ | now split].
      change (String b (take_prefix n s) ++ String a rest)
        with (String b (take_prefix n s ++ String a rest)).
      now rewrite <- Hs.
Qed.

(** [generate_short_item_names] leaves a short name that is set as it
    is, so running it again changes nothing.  Where the item has a name
    and no short name, the short name it sets is the name when that has
    at most 40 characters, and otherwise the first 40 characters of the
    name followed by three dots, 43 characters in all. *)
Theorem short_item_name_once (it : LineItem) :
  (opt_truthy (item_name_short it) = true -> short_item_name it = it) /\
  short_item_name (short_item_name it) = short_item_name it /\
  (forall n, item_name it = Some n -> n <> "" ->
     opt_truthy (item_name_short it) = false ->
     exists short,
       item_name_short (short_item_name it) = Some short /\
       (py_len n <= 40 -> short = n) /\
       (40 < py_len n ->
        exists first a rest,
          n = first ++ String a rest /\ continuation a = false /\
          py_len first = 40 /\ short = first ++ "..." /\ py_len short = 43)).
Proof.
  unfold short_item_name.
  destruct (item_name it) as [n | ] eqn:Hn.
  2: { rewrite Hn. repeat split; try reflexivity. discriminate. }
  destruct n as [ | a n].
  { cbn. rewrite Hn. cbn. repeat split; try reflexivity.
    intros n' [= <-] Hne. now destruct Hne. }
  destruct (opt_truthy (item_name_short it)) eqn:Hshort.
  { cbn. rewrite Hn, Hshort. cbn. repeat split; try reflexivity. discriminate. }
  cbn [String.eqb negb andb item_name item_name_short].
  split; [discriminate | split].
  - destruct (40 <? py_len (String a n))%nat; cbn [take_prefix];
      destruct (continuation a); reflexivity.
  - intros n' [= <-] _ _. eexists. split; [reflexivity | ].
    destruct (Nat.ltb_spec 40 (py_len (String a n))) as [Hlong | Hfits].
    + split; [lia | ]. intros _.
      destruct (take_prefix_cut 40 (String a n) Hlong) as (b & rest & Hs & Hb & Hlen).
      exists (take_prefix 40 (String a n)), b, rest.
      split; [exact Hs | ]. split; [exact Hb | ]. split; [exact Hlen | ].
      split; [reflexivity | ]. rewrite py_len_app, Hlen. reflexivity.
    + split; [ | lia]. intros _. now apply take_prefix_all.
Qed.

End ShortNames.

(** ** The code on the samples *)
Section OnSamples.

(** C8.  A cell with a negative index is not discarded: the index
    counts from the end of the grid, so the cell (-1, 0) of a table of
    two rows is placed in the last row, and the cell (-3, 0), which no
    row answers to, stops the parse with an [IndexError]. *)
Theorem negative_index_wraps :
  build_grid (PInt 2) (PInt 2) (PList [cell (-1) 0 (PStr "X")])
    = Ok [[None; None]; [Some "X"; None]] /\
  build_grid (PInt 2) (PInt 2) (PList [cell (-3) 0 (PStr "X")])
    = Raise IndexError.
Proof.
  split; reflexivity.
Qed.

(** C1 fails as stated: a cell whose content is a number, and a pair
    whose key is a string, each in a result whose status is
    "succeeded", make the parse raise. *)
Lemma malformed_data_raises :
  analysis_succeeded number_in_cell = true /\
  analysis_succeeded string_as_key = true /\
  (forall float_of_str doc,
     parse_azure_response float_of_str doc number_in_cell
       = Raise (MalformedAnalysisResult AttributeError)) /\
  (forall float_of_str doc,
     parse_azure_response float_of_str doc string_as_key
       = Raise (MalformedAnalysisResult AttributeError)).
Proof.
  repeat split; reflexivity.
Qed.

(** C2 fails as stated: the header "Code" of column 1 and the header
    "Amount" of column 3 are not classified, the row of data holds
    "ID9" and "3" there, and the item has the empty string and 0.0. *)
Lemma code_column_not_read :
  build_grid (PInt 2) (PInt 4)
    (default PNone (assoc "cells" match code_table with PDict d => d | _ => [] end))
    = Ok [ [Some "Pos"; Some "Code"; Some "Item Name"; Some "Amount"];
           [Some "9"; Some "ID9"; Some "Widget"; Some "3"] ] /\
  forall float_of_str,
    parse_items_table float_of_str (note false IMAGE_RECEIVED []) code_table
    = Ok (note false IMAGE_RECEIVED
            [ {| sr_no := 1; item_id := Some ""; flexi_code := Some "";
                 item_name := Some "Widget"; item_name_short := None;
                 unit := Some ""; qty := FFin 0 0; cartons := FFin 0 0 |} ]).
Proof.
  split; [reflexivity | ]. intros float_of_str. reflexivity.
Qed.

(** C3 fails as stated: the labels "customer phone" and "delivery note
    no.:" contain the keys "phone" and "delivery note no", and neither
    [customer_phone] nor [delivery_note_no] is set. *)
Lemma longer_label_unmapped :
  contains "phone" "customer phone" = true /\
  contains "delivery note no" "delivery note no.:" = true /\
  exists pairs,
    extract_key_value_pairs long_labels = Ok pairs /\
    pairs !! "customer phone" = Some (PStr "0501234567") /\
    pairs !! "delivery note no.:" = Some (PStr "DN-123") /\
    let doc := (update_header_fields pairs (note false IMAGE_RECEIVED [])).1 in
    doc_get doc "customer_phone" = PNone /\ doc_get doc "delivery_note_no" = PNone.
Proof.
  split; [reflexivity | split; [reflexivity | ]].
  eexists. split; [reflexivity | ]. repeat split; vm_compute; reflexivity.
Qed.

(** C5 fails as stated: on a record saved as "Image Received" and
    without items, [set_driver_confirmed] raises InvalidTransition, not
    NoItemsToConfirm. *)
(** C9 does not hold as it is worded.  A record that is created in the
    Cash terminal state without a payment type is stored with "Cash",
    and no status was changed.  When its payment type is then set to
    "Credit" in memory and it is saved again, with the status it is
    stored with, the save assigns "Cash".  And a record that is saved
    with the status "Image Received" and the payment type "Cash" is
    stored so: it has a payment type and has made no terminal
    transition. *)
Lemma payment_type_assigned_without_transition :
  let created := (save {| db := ∅; self := note true DELIVERED_CASH [widget] |}).1 in
  let edited :=
    {| db := db created; self := with_payment_type (Some "Credit") (self created) |} in
  let received :=
    (save {| db := ∅;
             self := with_payment_type (Some "Cash") (note true IMAGE_RECEIVED []) |}).1 in
  payment_type (note true DELIVERED_CASH [widget]) = None /\
  reachable (db created) /\
  db created !! "LDEL-0001" = Some (self created) /\
  payment_type (self created) = Some "Cash" /\
  status (self edited) = status (self created) /\
  payment_type (self edited) = Some "Credit" /\
  (save edited).2 = Ok tt /\
  payment_type (self (save edited).1) = Some "Cash" /\
  reachable (db received) /\
  db received !! "LDEL-0001" = Some (self received) /\
  status (self received) = IMAGE_RECEIVED /\
  payment_type (self received) = Some "Cash".
Proof.
  intros created edited received.
  split; [reflexivity | ]. split.
  { apply (reach_save {| db := ∅; self := note true DELIVERED_CASH [widget] |} created);
      [apply reach_empty | reflexivity]. }
  split; [vm_compute; reflexivity | ]. split; [reflexivity | ].
  split; [reflexivity | ]. split; [reflexivity | ].
  split; [vm_compute; reflexivity | ]. split; [vm_compute; reflexivity | ].
  split.
  { apply (reach_save
             {| db := ∅;
                self := with_payment_type (Some "Cash") (note true IMAGE_RECEIVED []) |}
             received); [apply reach_empty | reflexivity]. }
  split; [vm_compute; reflexivity | ]. split; reflexivity.
Qed.

Lemma confirm_without_items_invalid_transition :
  items (self (loaded IMAGE_RECEIVED IMAGE_RECEIVED [])) = [] /\
  (set_driver_confirmed "2025-01-15 10:30:00" (loaded IMAGE_RECEIVED IMAGE_RECEIVED [])).2
    = Raise (InvalidTransition IMAGE_RECEIVED CONFIRMED).
Proof.
  split; [reflexivity | vm_compute; reflexivity].
Qed.

End OnSamples.

(** ** The theorems at work on the samples *)
Section Witnesses.

(** Solves the shape of a sample: every value is the constructor that
    the shape asks for. *)
Ltac shape :=
  repeat first
    [ exact I
    | reflexivity
    | lia
    | apply Forall_nil
    | apply Forall_cons
    | match goal with
      | |- finite_text _ _ => right; intros ?; vm_compute; discriminate
      | |- content_shaped _ => right
      | |- tables_shaped _ _ => right
      | |- context [opt_field] => unfold opt_field
      | |- context [assoc ?k ?d] =>
          let r := eval vm_compute in (assoc k d) in
          change (assoc k d) with r; cbv beta iota
      | |- _ => progress unfold result_shaped, analyze_result_shaped, table_shaped,
                  cell_shaped, kv_shaped, document_shaped, is_list_of, is_index, is_str
      | |- exists _, _ => eexists
      | |- _ /\ _ => split
      end ].

Lemma dn_123_shaped : result_shaped float_of_digits dn_123.
Proof.
  unfold dn_123, analysis, table, kv, Samples.cell. shape.
Qed.

(** The end-to-end example of the specification: the number of the
    delivery note, and two items whose [sr_no] is read from the column
    "Sr No". *)
Example dn_123_parsed :
  exists doc',
    parse_azure_response float_of_digits (note false IMAGE_RECEIVED []) dn_123
      = Ok doc' /\
    doc_get doc' "delivery_note_no" = PStr "DN-123" /\
    items doc' =
      [ {| sr_no := 1; item_id := Some ""; flexi_code := Some "";
           item_name := Some "Widget"; item_name_short := None;
           unit := Some ""; qty := FFin 2 0; cartons := FFin 0 0 |};
        {| sr_no := 2; item_id := Some ""; flexi_code := Some "";
           item_name := Some "Gadget"; item_name_short := None;
           unit := Some ""; qty := FFin 5 0; cartons := FFin 0 0 |} ].
Proof.
  eexists. split; [vm_compute; reflexivity | ]. split; vm_compute; reflexivity.
Qed.

Lemma shaped_result_parses_witness :
  result_shaped float_of_digits dn_123 /\
  exists doc',
    parse_azure_response float_of_digits (note false IMAGE_RECEIVED []) dn_123
      = Ok doc'.
Proof.
  split; [exact dn_123_shaped | ].
  apply (shaped_result_parses float_of_digits (note false IMAGE_RECEIVED []) dn_123).
  exact dn_123_shaped.
Defined.

Lemma unclassified_columns_default_witness :
  let doc' :=
    note false IMAGE_RECEIVED
      [ {| sr_no := 1; item_id := Some ""; flexi_code := Some "";
           item_name := Some "Widget"; item_name_short := None;
           unit := Some ""; qty := FFin 0 0; cartons := FFin 0 0 |} ] in
  parse_items_table float_of_digits (note false IMAGE_RECEIVED []) code_table
    = Ok doc' /\
  exists row_count column_count cells,
    py_get code_table "rowCount" (PInt 0) = Ok row_count /\
    py_get code_table "columnCount" (PInt 0) = Ok column_count /\
    py_get code_table "cells" (PList []) = Ok cells /\
    if py_eq row_count (PInt 0) || py_eq column_count (PInt 0)
    then items doc' = []
    else
      exists grid header_row n,
        build_grid row_count column_count cells = Ok grid /\
        grid !! 0 = Some header_row /\
        as_index row_count = Ok n /\
        let headers := header_text <$> header_row in
        let col_map := map_columns 0 headers ∅ in
        let data_rows := seq 1 (Z.to_nat n - 1) in
        items doc' = omap (row_item float_of_digits grid col_map) data_rows /\
        forall row_idx, In row_idx data_rows ->
          exists row,
            grid !! row_idx = Some row /\
            if existsb opt_truthy row then
              exists it,
                build_item float_of_digits col_map row (Z.of_nat row_idx) = Ok it /\
                defaults_when_unclassified headers row_idx it /\
                row_item float_of_digits grid col_map row_idx
                = if opt_truthy (item_name it) || opt_truthy (item_id it)
                  then Some it else None
            else row_item float_of_digits grid col_map row_idx = None.
Proof.
  intros doc'. split; [reflexivity | ].
  apply (unclassified_columns_default float_of_digits
           (note false IMAGE_RECEIVED []) code_table doc').
  reflexivity.
Defined.

Lemma status_change_checked_witness :
  let store := store_with IMAGE_RECEIVED [widget] in
  let doc := note false AWAITING [widget] in
  let st := {| db := store; self := with_status CONFIRMED doc |} in
  is_local doc = false /\
  store !! name doc = Some (note false IMAGE_RECEIVED [widget]) /\
  CONFIRMED <> IMAGE_RECEIVED /\
  ~ In (IMAGE_RECEIVED, CONFIRMED) transition_graph /\
  save st = (st, Raise (InvalidTransition IMAGE_RECEIVED CONFIRMED)).
Proof.
  intros store doc st.
  assert (Hnot : ~ In (IMAGE_RECEIVED, CONFIRMED) transition_graph).
  { cbn. intros H. repeat (destruct H as [H | H]; [discriminate H | ]). exact H. }
  split; [reflexivity | split; [reflexivity | split; [discriminate | split]]].
  - exact Hnot.
  - apply (status_change_checked store doc (note false IMAGE_RECEIVED [widget])
             CONFIRMED eq_refl eq_refl ltac:(discriminate)).
    exact Hnot.
Defined.

Lemma new_record_skips_status_flow_witness :
  let doc := note true DELIVERED_CASH [widget] in
  is_local doc = true /\
  validate_status_flow doc None = Ok tt /\
  (forall from to, validate doc None <> Raise (InvalidTransition from to)) /\
  (validate_items_for_confirmation doc = Ok tt ->
   exists doc',
     validate doc None = Ok doc' /\ status doc' = status doc /\
     forall store,
       save {| db := store; self := doc |} =
       ({| db := <[name doc := with_is_local false doc']> store;
           self := with_is_local false doc' |}, Ok tt)).
Proof.
  intros doc. split; [reflexivity | ].
  exact (new_record_skips_status_flow doc None eq_refl).
Defined.

Lemma no_items_refused_witness :
  let st := loaded AWAITING AWAITING [] in
  let now := "2025-01-15 10:30:00" in
  items (self st) = [] /\
  (set_driver_confirmed now st).2 = Raise NoItemsToConfirm.
Proof.
  intros st now. split; [reflexivity | ].
  rewrite (proj2 (no_items_refused st eq_refl) now). reflexivity.
Defined.

Lemma labels_match_exactly_witness :
  let pairs : gmap string pyval := {[ "dn no" := PStr "DN-123" ]} in
  let doc := note false IMAGE_RECEIVED [] in
  doc_get (update_header_fields pairs doc).1 "delivery_note_no" = PStr "DN-123".
Proof.
  intros pairs doc.
  apply (proj2 (labels_match_exactly pairs doc)
           [("delivery note number", "delivery_note_no");
            ("delivery note no", "delivery_note_no")]
           "dn no" "delivery_note_no"
           (drop 3 field_mapping) (PStr "DN-123")).
  - reflexivity.
  - reflexivity.
  - reflexivity.
  - reflexivity.
  - intros k' [[= <-] | [[= <-] | []]]; reflexivity.
Defined.

Lemma set_delivered_spec_witness :
  let now := "2025-01-15 11:00:00" in
  let st := loaded CONFIRMED CONFIRMED [widget] in
  (set_delivered "Cash" now st).2 = Ok tt /\
  status (self (set_delivered "Cash" now st).1) = DELIVERED_CASH /\
  set_delivered "Bogus" now st = (st, Raise (InvalidPaymentType "Bogus")).
Proof.
  intros now st.
  destruct (set_delivered_spec now st) as [Hok Hbad].
  destruct (Hok "Cash" DELIVERED_CASH (or_introl eq_refl)) as (Hs & _ & _ & _ & Hret).
  split; [ | split].
  - apply (Hret (note false CONFIRMED [widget])); [reflexivity | reflexivity | reflexivity | discriminate].
  - exact Hs.
  - apply Hbad; discriminate.
Defined.

Lemma first_write_wins_witness :
  let pairs : gmap string pyval :=
    {[ "delivery note number" := PStr "DN-1"; "dn no" := PStr "DN-2" ]} in
  let out := update_header_fields pairs (note false IMAGE_RECEIVED []) in
  out.2 = [("delivery_note_no", PStr "DN-1")] /\
  doc_get out.1 "delivery_note_no" = PStr "DN-1".
Proof.
  intros pairs out.
  assert (Hsets : out.2 = [("delivery_note_no", PStr "DN-1")]) by (vm_compute; reflexivity).
  split; [exact Hsets | ].
  destruct (first_write_wins pairs (note false IMAGE_RECEIVED []))
    as (_ & _ & Hset & _).
  apply (Hset "delivery_note_no" (PStr "DN-1")). fold out. rewrite Hsets. now left.
Defined.

Lemma payment_type_follows_saved_status_witness :
  let st := {| db := ∅; self := note true DELIVERED_CASH [widget] |} in
  exists d, db (save st).1 !! "LDEL-0001" = Some d /\
            status d = DELIVERED_CASH /\ payment_type d = Some "Cash".
Proof.
  intros st.
  assert (Hreach : reachable (db (save st).1)).
  { apply (reach_save st (save st).1); [apply reach_empty | vm_compute; reflexivity]. }
  destruct (db (save st).1 !! "LDEL-0001") as [d | ] eqn:Hd; [ | vm_compute in Hd; discriminate].
  exists d. split; [reflexivity | ].
  assert (Hs : status d = DELIVERED_CASH).
  { vm_compute in Hd. injection Hd as <-. reflexivity. }
  split; [exact Hs | ].
  apply (proj1 payment_type_follows_saved_status _ Hreach "LDEL-0001" d Hd). exact Hs.
Defined.

Lemma retained_items_named_witness :
  let doc' :=
    note false IMAGE_RECEIVED
      [ {| sr_no := 1; item_id := Some ""; flexi_code := Some "";
           item_name := Some "Widget"; item_name_short := None;
           unit := Some ""; qty := FFin 0 0; cartons := FFin 0 0 |} ] in
  parse_items_table float_of_digits (note false IMAGE_RECEIVED []) code_table
    = Ok doc' /\
  Forall (fun it => opt_truthy (item_name it) || opt_truthy (item_id it) = true)
         (items doc').
Proof.
  intros doc'. split; [reflexivity | ].
  apply (retained_items_named float_of_digits
           (note false IMAGE_RECEIVED []) code_table doc').
  reflexivity.
Defined.

Lemma cell_placed_or_dropped_witness :
  let grid : grid_t := [[None; None]; [None; None]] in
  let content := " " ++ no_break_space ++ "X" ++ no_break_space ++ " " in
  place_cell (PInt 2) (PInt 2) grid (cell 1 1 (PStr content)) =
    Ok [[None; None]; [None; Some "X"]] /\
  place_cell (PInt 2) (PInt 2) grid (cell 2 0 (PStr "X")) = Ok grid.
Proof.
  intros grid content.
  assert (Hrows : Forall (fun row : list (option string) => length row = Z.to_nat 2) grid).
  { repeat constructor. }
  split.
  - rewrite (cell_placed_or_dropped 2 2 grid 1 1 content eq_refl Hrows);
      [reflexivity | lia | lia].
  - rewrite (cell_placed_or_dropped 2 2 grid 2 0 "X" eq_refl Hrows); [reflexivity | lia | lia].
Defined.

End Witnesses.

(** ** Properties of the phone number *)
Section Phone.

Lemma prefix_nil (s : string) : String.prefix "" s = true.
Proof. now destruct s. Qed.

Lemma prefix_app (p s : string) :
  String.prefix p s = true <-> exists r, s = p ++ r.
Proof.
  revert s. induction p as [ | a p IH]; intros s.
  - rewrite prefix_nil. split; [intros _; now exists s | reflexivity].
  - destruct s as [ | b s]; cbn.
    + split; [discriminate | intros [r [=]]].
    + destruct (ascii_dec a b) as [<- | Hne].
      * rewrite IH. split; intros [r Hr]; exists r; [now rewrite Hr | now injection Hr].
      * split; [discriminate | intros [r Hr]; injection Hr; congruence].
Qed.

Lemma chars_app (s1 s2 : string) :
  list_ascii_of_string (s1 ++ s2) =
  (list_ascii_of_string s1 ++ list_ascii_of_string s2)%list.
Proof.
  induction s1 as [ | a s1 IH]; [reflexivity | ].
  change (String a s1 ++ s2) with (String a (s1 ++ s2)). cbn. now rewrite IH.
Qed.

Lemma remove_char_not_in (c : ascii) (s : string) :
  ~ In c (list_ascii_of_string (remove_char c s)).
Proof.
  induction s as [ | a s IH]; cbn; [tauto | ].
  destruct (Ascii.eqb_spec a c) as [-> | Hne]; [exact IH | ].
  cbn. intros [H | H]; [contradiction | now apply IH].
Qed.

Lemma remove_char_subset (c d : ascii) (s : string) :
  In d (list_ascii_of_string (remove_char c s)) -> In d (list_ascii_of_string s).
Proof.
  induction s as [ | a s IH]; cbn; [tauto | ].
  destruct (Ascii.eqb a c); cbn; tauto.
Qed.

Lemma remove_char_absent (c : ascii) (s : string) :
  ~ In c (list_ascii_of_string s) -> remove_char c s = s.
Proof.
  induction s as [ | a s IH]; cbn; [reflexivity | ].
  intros Hnot. destruct (Ascii.eqb_spec a c) as [-> | Hne]; [tauto | ].
  rewrite IH; [reflexivity | tauto].
Qed.

Lemma remove_separators_free (s : string) (c : ascii) :
  In c separators -> ~ In c (list_ascii_of_string (remove_separators s)).
Proof.
  unfold remove_separators, separators.
  intros [<- | [<- | [<- | [<- | []]]]] Hin.
  - do 3 apply remove_char_subset in Hin. now apply remove_char_not_in in Hin.
  - do 2 apply remove_char_subset in Hin. now apply remove_char_not_in in Hin.
  - apply remove_char_subset in Hin. now apply remove_char_not_in in Hin.
  - now apply remove_char_not_in in Hin.
Qed.

Lemma remove_separators_absent (s : string) :
  (forall c, In c separators -> ~ In c (list_ascii_of_string s)) ->
  remove_separators s = s.
Proof.
  intros Hfree. unfold remove_separators.
  rewrite (remove_char_absent " " s) by (apply Hfree; cbn; tauto).
  rewrite (remove_char_absent "-" s) by (apply Hfree; cbn; tauto).
  rewrite (remove_char_absent "(" s) by (apply Hfree; cbn; tauto).
  apply remove_char_absent. apply Hfree. cbn. tauto.
Qed.

Lemma drop_first_subset (c : ascii) (s : string) :
  In c (list_ascii_of_string (drop_first s)) -> In c (list_ascii_of_string s).
Proof.
  destruct s; cbn; tauto.
Qed.

(** What [_clean_phone_number] returns on a string that is not empty, in
    terms of the text [p] left when the separators are removed. *)
Lemma clean_cases (phone : string) :
  phone <> "" ->
  let p := remove_separators phone in
  _clean_phone_number (PStr phone) =
    Ok (if String.prefix "+" p then drop_first p
        else if String.prefix "971" p then p
        else if String.prefix "0" p then "971" ++ drop_first p
        else "971" ++ p).
Proof.
  intros Hne p. unfold _clean_phone_number. cbn [truthy].
  apply String.eqb_neq in Hne. rewrite Hne. cbn [negb as_str bind]. cbv zeta.
  fold p. clearbody p.
  assert (Hcons : forall s, String.prefix "+" (String "+" s) = true).
  { intros s. cbn. apply prefix_nil. }
  destruct (String.prefix "+" p) eqn:Hplus; cbn [negb]; [now rewrite Hplus | ].
  destruct (String.prefix "971" p).
  { change ("+" ++ p) with (String "+" p). now rewrite Hcons. }
  destruct (String.prefix "0" p).
  - change ("+971" ++ drop_first p) with (String "+" ("971" ++ drop_first p)).
    now rewrite Hcons.
  - change ("+971" ++ p) with (String "+" ("971" ++ p)). now rewrite Hcons.
Qed.

Lemma clean_result_free (phone : string) (text : string) (c : ascii) :
  _clean_phone_number (PStr phone) = Ok text ->
  In c separators -> ~ In c (list_ascii_of_string text).
Proof.
  intros Hclean Hc.
  destruct (String.eqb_spec phone "") as [-> | Hne].
  { injection Hclean as <-. cbn. tauto. }
  rewrite (clean_cases phone Hne) in Hclean. injection Hclean as <-.
  pose proof (remove_separators_free phone c Hc) as Hfree.
  assert (Hlit : ~ In c (list_ascii_of_string "971")).
  { unfold separators in Hc. cbn.
    destruct Hc as [<- | [<- | [<- | [<- | []]]]]; intros [H | [H | [H | []]]]; discriminate H. }
  repeat match goal with |- context [if ?b then _ else _] => destruct b end;
    rewrite ?chars_app; rewrite ?in_app_iff;
    intros H; repeat (destruct H as [H | H]);
    try (apply drop_first_subset in H); try tauto; apply Hlit; cbn; tauto.
Qed.

(** The cleaned number holds no space, hyphen or parenthesis, and the
    cleaning of a value that is not a string and does not count as false
    raises. *)
Theorem clean_phone_number_no_separator (phone : pyval) :
  (forall text, _clean_phone_number phone = Ok text ->
     forall c, In c separators -> ~ In c (list_ascii_of_string text)) /\
  (truthy phone = true -> (forall s, phone <> PStr s) ->
   _clean_phone_number phone = Raise AttributeError).
Proof.
  split.
  - intros text Hclean c Hc. unfold _clean_phone_number in Hclean.
    destruct (truthy phone) eqn:Ht; cbn [negb] in Hclean.
    + destruct phone; try discriminate Hclean.
      apply (clean_result_free s text c); [ | exact Hc].
      unfold _clean_phone_number. now rewrite Ht.
    + injection Hclean as <-. cbn. tauto.
  - intros Ht Hns. unfold _clean_phone_number. rewrite Ht. cbn [negb].
    destruct phone; try reflexivity. now destruct (Hns s).
Qed.

(** A number of the Emirates is cleaned to the same text whether it is
    written with a leading 0, with 971 or with +971. *)
Theorem clean_phone_number_uae (rest : string) :
  let digits := "971" ++ remove_separators rest in
  _clean_phone_number (PStr ("0" ++ rest)) = Ok digits /\
  _clean_phone_number (PStr ("971" ++ rest)) = Ok digits /\
  _clean_phone_number (PStr ("+971" ++ rest)) = Ok digits.
Proof.
  set (r := remove_separators rest).
  assert (H0 : remove_separators ("0" ++ rest) = String "0" r) by reflexivity.
  assert (H9 : remove_separators ("971" ++ rest)
               = String "9" (String "7" (String "1" r))) by reflexivity.
  assert (Hp : remove_separators ("+971" ++ rest)
               = String "+" (String "9" (String "7" (String "1" r)))) by reflexivity.
  cbn zeta.
  split; [ | split]; rewrite clean_cases by discriminate; cbn zeta;
    rewrite ?H0, ?H9, ?Hp; cbn; now rewrite ?prefix_nil.
Qed.

(** Cleaning a cleaned number changes nothing exactly when the cleaned
    number is empty or starts with 971; it starts with 971 whenever the
    text of a number that is not empty does not start with "+". *)
Theorem clean_phone_number_twice (phone : string) (text : string) :
  _clean_phone_number (PStr phone) = Ok text ->
  (_clean_phone_number (PStr text) = Ok text <->
   text = "" \/ String.prefix "971" text = true) /\
  (phone <> "" -> String.prefix "+" (remove_separators phone) = false ->
   String.prefix "971" text = true).
Proof.
  intros Hclean.
  assert (Hfree : forall c, In c separators -> ~ In c (list_ascii_of_string text)).
  { intros c Hc. exact (clean_result_free phone text c Hclean Hc). }
  split.
  - destruct (String.eqb_spec text "") as [-> | Hne]; [split; [now left | reflexivity] | ].
    rewrite (clean_cases text Hne). cbn zeta.
    rewrite (remove_separators_absent text Hfree).
    destruct (String.prefix "+" text) eqn:Hplus.
    { split.
      - intros [= Heq]. exfalso. apply prefix_app in Hplus as [r ->].
        change ("+" ++ r) with (String "+" r) in Heq. cbn [drop_first] in Heq.
        apply (f_equal String.length) in Heq. cbn [String.length] in Heq. lia.
      - intros [-> | H971]; [contradiction | ].
        apply prefix_app in Hplus as [r ->].
        change ("+" ++ r) with (String "+" r) in H971. discriminate H971. }
    destruct (String.prefix "971" text) eqn:H971; [split; [now right | reflexivity] | ].
    split; [ | intros [-> | [=]]; contradiction].
    destruct (String.prefix "0" text) eqn:H0; intros [= Heq]; exfalso.
    + apply prefix_app in H0 as [r ->].
      change ("0" ++ r) with (String "0" r) in Heq. discriminate Heq.
    + apply (f_equal String.length) in Heq. revert Heq.
      change ("971" ++ text) with (String "9" (String "7" (String "1" text))).
      cbn [String.length]. lia.
  - intros Hne Hplus. rewrite (clean_cases phone Hne) in Hclean. cbn zeta in Hclean.
    rewrite Hplus in Hclean. injection Hclean as <-.
    destruct (String.prefix "971" (remove_separators phone)) eqn:H971; [exact H971 | ].
    destruct (String.prefix "0" (remove_separators phone));
      apply prefix_app; eexists; reflexivity.
Qed.

End Phone.

(** ** How the steps of the extraction compose *)
Section Extraction.

Variable float_of_str : string -> option pyfloat.


(** A loop keeps what each of its turns keeps. *)
Lemma foldM_preserves {E A B} (I : A -> Prop) (f : A -> B -> result E A)
    (l : list B) (acc r : A) :
  (forall a x a', f a x = Ok a' -> I a -> I a') ->
  foldM f l acc = Ok r -> I acc -> I r.
Proof.
  intros Hstep. revert acc. induction l as [ | x l IH]; intros acc H Hacc; cbn in H.
  - now injection H as <-.
  - apply bind_ok_inv in H as (a & Ha & H). eapply IH; [exact H | ].
    eapply Hstep; [exact Ha | exact Hacc].
Qed.

Lemma field_mapping_key (k f : string) : In (k, f) field_mapping -> k <> "".
Proof.
  cbn. intros H.
  repeat (destruct H as [[= <- <-] | H]; [discriminate | ]). destruct H.
Qed.








Lemma header_loop_idle (pairs : gmap string pyval) (l : list (string * string))
    (st : LandmarkDeliveryNote * list (string * pyval)) :
  (forall k f, In (k, f) l ->
     truthy (pairs_get pairs (lower k)) = true -> truthy (doc_get st.1 f) = true) ->
  fold_left (header_step pairs) l st = st.
Proof.
  induction l as [ | [k f] l IH]; intros Hall; [reflexivity | ].
  cbn [fold_left]. destruct st as [doc sets].
  destruct (header_step_cases pairs doc sets k f) as [(Hv & Hf & _) | (_ & ->)].
  - pose proof (Hall k f (or_introl eq_refl) Hv) as Hset. cbn [fst] in Hset.
    congruence.
  - apply IH. intros k' f' Hin. apply Hall. now right.
Qed.

(** Parsing a result again into the document that its parse returned
    gives the same document: the items are replaced, not appended, and
    no header field changes. *)
Theorem parse_twice (doc doc1 : LandmarkDeliveryNote) (azure_result : pyval) :
  parse_azure_response float_of_str doc azure_result = Ok doc1 ->
  parse_azure_response float_of_str doc1 azure_result = Ok doc1.
Proof.
  unfold parse_azure_response.
  destruct (parse_body float_of_str doc azure_result) as [d | e] eqn:Hbody;
    [ | discriminate].
  intros [= ->].
  pose proof Hbody as Hframe. apply parse_body_frame in Hframe as (f1 & l1 & Hshape).
  unfold parse_body in *.
  apply bind_ok_inv in Hbody as (ar & -> & Hbody). cbn [bind].
  apply bind_ok_inv in Hbody as (pairs & -> & Hbody). cbn [bind].
  apply bind_ok_inv in Hbody as (tables & -> & Hbody). cbn [bind].
  set (docA := (update_header_fields pairs doc).1) in *.
  assert (HfieldsA : forall f, doc_get doc1 f = doc_get docA f).
  { intros f. destruct (truthy tables).
    - apply bind_ok_inv in Hbody as (table & _ & Hbody).
      unfold parse_items_table in Hbody.
      apply bind_ok_inv in Hbody as (rc & _ & Hbody).
      apply bind_ok_inv in Hbody as (cc & _ & Hbody).
      apply bind_ok_inv in Hbody as (cells & _ & Hbody).
      destruct (_ || _).
      + now injection Hbody as <-.
      + apply bind_ok_inv in Hbody as (grid & _ & Hbody).
        apply bind_ok_inv in Hbody as (header_row & _ & Hbody).
        apply bind_ok_inv in Hbody as (n & _ & Hbody).
        apply row_loop_items in Hbody as (new & -> & _). reflexivity.
    - now injection Hbody as <-. }
  assert (Hidle : (update_header_fields pairs doc1).1 = doc1).
  { unfold update_header_fields. rewrite header_loop_idle; [reflexivity | ].
    intros k f Hin Hv. cbn [fst]. rewrite HfieldsA.
    now apply header_loop_fills with (k := k). }
  rewrite Hidle. destruct (truthy tables); [ | reflexivity].
  apply bind_ok_inv in Hbody as (table & -> & Hbody). cbn [bind].
  assert (Hsame : with_items [] doc1 = with_items [] docA).
  { unfold parse_items_table in Hbody.
    apply bind_ok_inv in Hbody as (rc & _ & Hbody).
    apply bind_ok_inv in Hbody as (cc & _ & Hbody).
    apply bind_ok_inv in Hbody as (cells & _ & Hbody).
    destruct (_ || _).
    + now injection Hbody as <-.
    + apply bind_ok_inv in Hbody as (grid & _ & Hbody).
      apply bind_ok_inv in Hbody as (header_row & _ & Hbody).
      apply bind_ok_inv in Hbody as (n & _ & Hbody).
      apply row_loop_items in Hbody as (new & -> & _). reflexivity. }
  unfold parse_items_table in *. rewrite Hsame, Hbody. reflexivity.
Qed.

(** When several headers are classified as the same column, the
    rightmost of them is the column that is read: a header that is
    classified as a column, with no header to its right that is, gives
    the column its index. *)
Theorem rightmost_header_wins (before : list string) (h : string)
    (after : list string) (key : string) :
  classify h = Some key ->
  unclassified after key ->
  map_columns 0 (before ++ h :: after) ∅ !! key = Some (Z.of_nat (length before)).
Proof.
  intros Hh Hafter.
  assert (Hrest : forall idx m, map_columns idx after m !! key = m !! key).
  { unfold unclassified in Hafter.
    induction after as [ | a after IH]; intros idx m; [reflexivity | ].
    apply Forall_cons in Hafter as [Ha Hafter]. cbn [map_columns].
    rewrite (IH Hafter). destruct (classify a) as [k | ]; [ | reflexivity].
    apply lookup_insert_ne. congruence. }
  assert (Hgen : forall idx m,
            map_columns idx (before ++ h :: after) m !! key
            = Some (idx + Z.of_nat (length before))%Z).
  { induction before as [ | b before IH]; intros idx m.
    - cbn [app map_columns length]. rewrite Hh, Hrest, lookup_insert_eq.
      f_equal. lia.
    - cbn [app map_columns length]. rewrite IH. f_equal. lia. }
  rewrite Hgen. f_equal.
Qed.


(** The grid has as many rows as [rowCount] says and every row has
    [columnCount] cells, whatever the cells of the table are: a cell is
    written into an existing position or not at all. *)
Theorem grid_is_dense (row_count column_count cells : pyval) (grid : grid_t) (n : Z) :
  build_grid row_count column_count cells = Ok grid ->
  as_index row_count = Ok n -> (0 < n)%Z ->
  exists c, as_index column_count = Ok c /\
    length grid = Z.to_nat n /\
    Forall (fun row => length row = Z.to_nat c) grid.
Proof.
  unfold build_grid, make_grid. intros H Hn Hpos. rewrite Hn in H. cbn [bind] in H.
  destruct (Z.leb_spec n 0); [lia | ].
  apply bind_ok_inv in H as (g0 & Hg0 & H).
  apply bind_ok_inv in Hg0 as (c & Hc & [= <-]).
  apply bind_ok_inv in H as (l & _ & H).
  exists c. split; [exact Hc | ].
  refine (foldM_preserves
            (fun g : grid_t => length g = Z.to_nat n /\
                               Forall (fun row => length row = Z.to_nat c) g)
            _ _ _ _ _ H _).
  2: { split; [apply length_replicate | ].
       apply Forall_replicate, length_replicate. }
  clear. intros g cell g' Hplace [Hlen Hrows]. unfold place_cell in Hplace.
  apply bind_ok_inv in Hplace as (ri & _ & Hplace).
  apply bind_ok_inv in Hplace as (ci & _ & Hplace).
  apply bind_ok_inv in Hplace as (content & _ & Hplace).
  apply bind_ok_inv in Hplace as (text & _ & Hplace).
  apply bind_ok_inv in Hplace as ([ | ] & _ & Hplace); [ | now injection Hplace as <-].
  apply bind_ok_inv in Hplace as ([ | ] & _ & Hplace); [ | now injection Hplace as <-].
  unfold grid_set in Hplace.
  apply bind_ok_inv in Hplace as (i & _ & Hplace).
  apply bind_ok_inv in Hplace as (r & Hr & Hplace).
  apply bind_ok_inv in Hplace as (j & _ & Hplace).
  apply bind_ok_inv in Hplace as (k & _ & [= <-]).
  split; [now rewrite length_insert | ].
  unfold list_pos in Hr.
  destruct (_ && _) eqn:Hin in Hr; [ | discriminate]. injection Hr as <-.
  apply Forall_insert; [exact Hrows | ]. rewrite length_insert.
  destruct (g !! _) as [row | ] eqn:Hrow; cbn.
  - exact (proj1 (Forall_lookup _ _) Hrows _ _ Hrow).
  - apply lookup_ge_None in Hrow. apply andb_prop in Hin as [H0 Hlt].
    apply Z.ltb_lt in Hlt. apply Z.leb_le in H0. lia.
Qed.

End Extraction.

(** ** How the operations of the lifecycle compose *)
Section Composition.

Lemma validate_inv (d d' : LandmarkDeliveryNote) old :
  validate d old = Ok d' <->
  validate_status_flow d old = Ok tt /\
  validate_items_for_confirmation d = Ok tt /\
  d' = generate_short_item_names (validate_payment_type d).
Proof.
  unfold validate, bind.
  destruct (validate_status_flow d old) as [[] | e].
  - destruct (validate_items_for_confirmation d) as [[] | e].
    + split; [now intros [= <-] | now intros (_ & _ & ->)].
    + split; [discriminate | now intros (_ & [=] & _)].
  - split; [discriminate | now intros ([=] & _)].
Qed.

Lemma status_flow_saved (d old : LandmarkDeliveryNote) :
  is_local d = false ->
  validate_status_flow d (Some old) =
    if String.eqb (status old) (status d) then Ok tt
    else if str_in (status d) (default [] (assoc (status old) valid_status_flow))
         then Ok tt
         else Raise (InvalidTransition (status old) (status d)).
Proof.
  intros Hnew. unfold validate_status_flow. rewrite Hnew.
  destruct (String.eqb (status old) (status d)); [reflexivity | ].
  cbn [negb]. now destruct (str_in _ _).
Qed.

Lemma items_check (d : LandmarkDeliveryNote) :
  validate_items_for_confirmation d = Ok tt <->
  (str_in (status d) confirmation_statuses = true -> items d <> []).
Proof.
  unfold validate_items_for_confirmation.
  destruct (str_in (status d) confirmation_statuses); destruct (items d); cbn;
    split; try discriminate; try reflexivity; try congruence.
  intros H. now destruct (H eq_refl).
Qed.

Lemma short_item_name_idem (it : LineItem) :
  short_item_name (short_item_name it) = short_item_name it.
Proof.
  unfold short_item_name.
  destruct (item_name it) as [n | ] eqn:Hn; [ | now rewrite Hn].
  destruct (negb (String.eqb n "") && negb (opt_truthy (item_name_short it))) eqn:Hc;
    [ | now rewrite Hn, Hc].
  cbn [item_name item_name_short].
  apply andb_prop in Hc as [Hne _]. rewrite Hne. cbn [andb].
  destruct n as [ | a n]; [discriminate | ].
  match goal with |- context [opt_truthy (Some ?x)] =>
    assert (Hshort : opt_truthy (Some x) = true) end.
  { destruct (40 <? py_len (String a n))%nat; cbn [take_prefix];
      destruct (continuation a); reflexivity. }
  now rewrite Hshort.
Qed.

Lemma short_item_name_named (it : LineItem) :
  opt_truthy (item_name it) = true ->
  opt_truthy (item_name_short (short_item_name it)) = true.
Proof.
  unfold short_item_name. destruct (item_name it) as [n | ] eqn:Hn; [ | discriminate].
  cbn [opt_truthy]. intros Hne. rewrite Hne. cbn [andb].
  destruct (opt_truthy (item_name_short it)) eqn:Hs; cbn [negb]; [exact Hs | ].
  cbn [item_name_short]. destruct n as [ | a n]; [discriminate | ].
  destruct (40 <? py_len (String a n))%nat; cbn [take_prefix];
    destruct (continuation a); reflexivity.
Qed.

Lemma validate_payment_type_idem (d : LandmarkDeliveryNote) :
  validate_payment_type (validate_payment_type d) = validate_payment_type d.
Proof.
  unfold validate_payment_type, payment_type_differs.
  destruct (str_in (status d) [DELIVERED_CASH; DELIVERED_CREDIT]) eqn:Hin;
    [ | now rewrite Hin].
  destruct (String.eqb_spec (status d) DELIVERED_CASH) as [Hc | Hc];
    destruct (String.eqb_spec (status d) DELIVERED_CREDIT) as [Hk | Hk];
    try (rewrite Hc in Hk; discriminate);
    destruct (payment_type d) as [q | ] eqn:Hq; cbn;
    try destruct (String.eqb_spec q "Cash");
    try destruct (String.eqb_spec q "Credit");
    subst; cbn; rewrite ?Hin, ?Hc, ?Hk, ?Hq; cbn;
    rewrite ?String.eqb_refl; cbn; try reflexivity;
    repeat match goal with
           | |- context [String.eqb ?a ?b] => destruct (String.eqb_spec a b); cbn
           end; try reflexivity; try congruence.
Qed.

Lemma validate_payment_type_frame (d : LandmarkDeliveryNote) :
  status (validate_payment_type d) = status d /\
  items (validate_payment_type d) = items d /\
  name (validate_payment_type d) = name d.
Proof.
  unfold validate_payment_type.
  repeat match goal with |- context [if ?b then _ else _] => destruct b end;
    repeat split.
Qed.

(** What [save] stores: the in-memory and the stored document are the
    same, and nothing else in the store changes. *)
Lemma save_ok_inv (st st' : state) :
  save st = (st', Ok tt) ->
  exists d', validate (self st) (get_doc_before_save st) = Ok d' /\
    st' = {| db := <[name d' := with_is_local false d']> (db st);
             self := with_is_local false d' |}.
Proof.
  unfold save.
  destruct (validate (self st) (get_doc_before_save st)) as [d' | e]; [ | discriminate].
  intros [= <-]. now exists d'.
Qed.

Lemma save_raise_inv (st : state) (e : thrown) :
  (save st).2 = Raise e -> save st = (st, Raise e).
Proof.
  unfold save.
  destruct (validate (self st) (get_doc_before_save st)) as [d' | e']; [discriminate | ].
  now intros [= ->].
Qed.

(** In every store that saving builds, a record is stored under its own
    name and is not new, a record in one of the three confirmation
    statuses has at least one item, and every item that has a name has
    a short name. *)
Theorem saved_records_invariant (store : gmap string LandmarkDeliveryNote) :
  reachable store ->
  forall n d, store !! n = Some d ->
    name d = n /\ is_local d = false /\
    (str_in (status d) confirmation_statuses = true -> items d <> []) /\
    Forall (fun it => opt_truthy (item_name it) = true ->
                      opt_truthy (item_name_short it) = true) (items d).
Proof.
  intros Hreach. induction Hreach as [ | st st' _ IH Hsave]; intros n d Hd.
  - now rewrite lookup_empty in Hd.
  - apply save_ok_inv in Hsave as (d' & Hv & ->). cbn in Hd.
    destruct (decide (name d' = n)) as [<- | Hne].
    2: { rewrite lookup_insert_ne in Hd by assumption. now apply IH. }
    rewrite lookup_insert_eq in Hd. injection Hd as <-.
    apply validate_inv in Hv as (_ & Hitems & ->).
    pose proof (proj1 (items_check _) Hitems) as Hhas.
    split; [reflexivity | split; [reflexivity | split]].
    + destruct (validate_payment_type_frame (self st)) as (Hs & Hi & _).
      cbn. rewrite Hs, Hi. intros Hin Hnil. apply fmap_nil_inv in Hnil.
      now apply Hhas.
    + cbn. apply Forall_fmap, Forall_true. intros it. cbn.
      intros Hn. apply short_item_name_named. revert Hn.
      unfold short_item_name. destruct (item_name it) as [nm | ] eqn:Hnm;
        [ | now rewrite Hnm].
      match goal with |- context [if ?b then _ else _] => destruct b end;
        cbn [item_name]; now rewrite ?Hnm.
Qed.

(** Saving a document that has just been saved returns and changes
    neither the document nor the store. *)
Theorem save_twice (st st' : state) :
  save st = (st', Ok tt) -> save st' = (st', Ok tt).
Proof.
  intros Hsave. apply save_ok_inv in Hsave as (d' & Hv & ->).
  apply validate_inv in Hv as (_ & Hitems & ->).
  set (d1 := with_is_local false
               (generate_short_item_names (validate_payment_type (self st)))).
  assert (Hv1 : validate d1 (Some d1) = Ok d1).
  { apply validate_inv. split; [ | split].
    - rewrite status_flow_saved by reflexivity. now rewrite String.eqb_refl.
    - apply items_check. pose proof (proj1 (items_check _) Hitems) as Hhas.
      subst d1. destruct (validate_payment_type_frame (self st)) as (Hs & Hi & _).
      cbn. rewrite Hs, Hi. intros Hin Hnil. apply fmap_nil_inv in Hnil.
      now apply Hhas.
    - subst d1. unfold generate_short_item_names.
      assert (Hpt : validate_payment_type
                (with_is_local false
                   (with_items (short_item_name <$> items (validate_payment_type (self st)))
                      (validate_payment_type (self st))))
              = with_is_local false
                  (with_items (short_item_name <$> items (validate_payment_type (self st)))
                     (validate_payment_type (self st)))).
      { pose proof (validate_payment_type_idem (self st)) as Hid.
        revert Hid. unfold validate_payment_type, payment_type_differs. cbn.
        repeat match goal with |- context [if ?b then _ else _] => destruct b eqn:? end;
          cbn; intros Hid; try reflexivity;
          apply (f_equal payment_type) in Hid; cbn in Hid; congruence. }
      rewrite Hpt. cbn. unfold with_is_local, with_items. cbn. f_equal.
      rewrite <- list_fmap_compose. apply list_fmap_ext.
      intros i it _. cbn. now rewrite short_item_name_idem. }
  unfold save, get_doc_before_save. cbn [self db].
  change (name (generate_short_item_names (validate_payment_type (self st))))
    with (name d1).
  fold d1. rewrite lookup_insert_eq, Hv1.
  change (with_is_local false d1) with d1.
  now rewrite insert_insert_eq.
Qed.

Lemma classic_flow (d old : LandmarkDeliveryNote) :
  (status old = status d \/ In (status old, status d) transition_graph) \/
  ~ (status old = status d \/ In (status old, status d) transition_graph).
Proof.
  destruct (String.eqb_spec (status old) (status d)) as [Heq | Hne];
    [now left; left | ].
  destruct (str_in (status d) (default [] (assoc (status old) valid_status_flow)))
    eqn:Hin.
  - left; right. now apply flow_allows_iff.
  - right. intros [Heq | Hedge]; [contradiction | ].
    apply flow_allows_iff in Hedge. congruence.
Qed.

(** The status check on a saved record, by the transition graph. *)
Lemma status_flow_checked (d old : LandmarkDeliveryNote) :
  is_local d = false ->
  (status old = status d \/ In (status old, status d) transition_graph ->
   validate_status_flow d (Some old) = Ok tt) /\
  (~ (status old = status d \/ In (status old, status d) transition_graph) ->
   validate_status_flow d (Some old) =
     Raise (InvalidTransition (status old) (status d))).
Proof.
  intros Hnew. unfold validate_status_flow. rewrite Hnew.
  destruct (String.eqb_spec (status old) (status d)) as [Heq | Hne];
    cbn [negb].
  - split; [reflexivity | intros H; destruct H; now left].
  - destruct (str_in (status d) (default [] (assoc (status old) valid_status_flow)))
      eqn:Hin; cbn [negb].
    + split; [reflexivity | ]. intros H. destruct H. right.
      now apply flow_allows_iff.
    + split; [ | reflexivity]. intros [Heq | Hedge]; [contradiction | ].
      apply flow_allows_iff in Hedge. congruence.
Qed.

(** [save] returns exactly when the two checks of [validate] pass, and
    leaves the state as it was when one of them raises. *)
Lemma save_returns (st : state) :
  ((save st).2 = Ok tt <->
   validate_status_flow (self st) (get_doc_before_save st) = Ok tt /\
   validate_items_for_confirmation (self st) = Ok tt) /\
  ((save st).2 <> Ok tt -> (save st).1 = st).
Proof.
  unfold save, validate, bind.
  destruct (validate_status_flow (self st) (get_doc_before_save st)) as [[] | e].
  - destruct (validate_items_for_confirmation (self st)) as [[] | e]; cbn.
    + split; [tauto | congruence].
    + split; [ | reflexivity]. split; [discriminate | now intros [_ [=]]].
  - cbn. split; [ | reflexivity]. split; [discriminate | now intros [[=] _]].
Qed.

(** What a [save] that returns stores under the document's name. *)
Lemma save_stores (st : state) :
  (save st).2 = Ok tt ->
  exists d, db (save st).1 !! name (self st) = Some d /\
    self (save st).1 = d /\
    status d = status (self st) /\
    driver_confirmed_at d = driver_confirmed_at (self st) /\
    delivered_at d = delivered_at (self st).
Proof.
  unfold save.
  destruct (validate (self st) (get_doc_before_save st)) as [d' | e] eqn:Hv;
    [ | discriminate].
  intros _. apply validate_inv in Hv as (_ & _ & ->).
  destruct (validate_payment_type_frame (self st)) as (Hs & _ & Hn).
  eexists. cbn. rewrite Hn, lookup_insert_eq. split; [reflexivity | ].
  split; [reflexivity | ]. split; [exact Hs | ].
  unfold validate_payment_type.
  repeat match goal with |- context [if ?b then _ else _] => destruct b end;
    now split.
Qed.

(** [set_driver_confirmed] on a saved record returns exactly when the
    record was last saved as awaiting the driver's confirmation or as
    already confirmed, and has an item.  When it returns, the record is
    stored as confirmed with the time of this call, also when it had
    been confirmed before; when it raises, the store is as it was. *)
Theorem confirm_returns_iff (now : string) (st : state)
    (old : LandmarkDeliveryNote) :
  is_local (self st) = false ->
  db st !! name (self st) = Some old ->
  let out := set_driver_confirmed now st in
  (out.2 = Ok tt <->
   (status old = AWAITING \/ status old = CONFIRMED) /\ items (self st) <> []) /\
  (out.2 = Ok tt ->
   exists d, db out.1 !! name (self st) = Some d /\
     status d = CONFIRMED /\ driver_confirmed_at d = Some now) /\
  (out.2 <> Ok tt -> db out.1 = db st).
Proof.
  intros Hnew Hold out. subst out. unfold set_driver_confirmed.
  set (st1 := {| db := db st;
                 self := with_driver_confirmed_at (Some now)
                           (with_status CONFIRMED (self st)) |}).
  destruct (save_returns st1) as [Hiff Hfail].
  destruct (status_flow_checked (self st1) old Hnew) as [Hpass Hrefuse].
  assert (Hbefore : get_doc_before_save st1 = Some old) by exact Hold.
  assert (Hedge : status old = CONFIRMED \/
                  In (status old, CONFIRMED) transition_graph <->
                  status old = AWAITING \/ status old = CONFIRMED).
  { cbn. split.
    - intros [H | H]; [now right | ].
      repeat (destruct H as [H | H];
              [apply pair_equal_spec in H as [H1 H2];
               first [discriminate H2 | now left] | ]).
      destruct H.
    - intros [H | H]; [right | now left]. rewrite H. cbn. tauto. }
  split; [ | split].
  - rewrite Hiff, Hbefore, items_check.
    change (status (self st1)) with CONFIRMED in *.
    change (items (self st1)) with (items (self st)).
    split.
    + intros [Hflow Hitems]. split; [ | now apply Hitems].
      apply Hedge. destruct (classic_flow (self st1) old) as [H | H]; [exact H | ].
      rewrite (Hrefuse H) in Hflow. discriminate Hflow.
    + intros [Hst Hitems]. split; [ | now intros _].
      apply Hpass, Hedge, Hst.
  - intros Hok. destruct (save_stores st1 Hok) as (d & Hd & _ & Hs & Hc & _).
    exists d. split; [exact Hd | split; [exact Hs | exact Hc]].
  - intros Hno. now rewrite (Hfail Hno).
Qed.

(** [set_delivered] with one of the two payment types, on a saved
    record, returns exactly when the record was last saved as confirmed
    by the driver or as delivered with this same payment type, and has
    an item: a delivered record can be delivered again with the payment
    type it has, and not with the other one.  When it raises, the store
    is as it was. *)
Theorem deliver_returns_iff (now : string) (st : state)
    (old : LandmarkDeliveryNote) (p terminal : string) :
  is_local (self st) = false ->
  db st !! name (self st) = Some old ->
  (p, terminal) = ("Cash", DELIVERED_CASH) \/
  (p, terminal) = ("Credit", DELIVERED_CREDIT) ->
  let out := set_delivered p now st in
  (out.2 = Ok tt <->
   (status old = CONFIRMED \/ status old = terminal) /\ items (self st) <> []) /\
  (out.2 <> Ok tt -> db out.1 = db st).
Proof.
  intros Hnew Hold Hp out.
  set (st1 := {| db := db st;
                 self := with_delivered_at (Some now)
                           (with_payment_type (Some p)
                              (with_status terminal (self st))) |}).
  assert (Hout : out = save st1).
  { subst out st1. unfold set_delivered.
    destruct Hp as [[= -> ->] | [= -> ->]]; reflexivity. }
  rewrite Hout. clear Hout out.
  destruct (save_returns st1) as [Hiff Hfail].
  destruct (status_flow_checked (self st1) old Hnew) as [Hpass Hrefuse].
  assert (Hbefore : get_doc_before_save st1 = Some old) by exact Hold.
  change (status (self st1)) with terminal in *.
  assert (Hedge : status old = terminal \/
                  In (status old, terminal) transition_graph <->
                  status old = CONFIRMED \/ status old = terminal).
  { destruct Hp as [[= _ ->] | [= _ ->]]; cbn; (split;
      [ intros [H | H]; [now right | ];
        repeat (destruct H as [H | H];
                [apply pair_equal_spec in H as [H1 H2];
                 first [discriminate H2 | now left] | ]);
        destruct H
      | intros [H | H]; [right | now left]; rewrite H; cbn; tauto ]). }
  split.
  - rewrite Hiff, Hbefore, items_check.
    change (status (self st1)) with terminal.
    change (items (self st1)) with (items (self st)).
    split.
    + intros [Hflow Hitems]. split.
      * apply Hedge. destruct (classic_flow (self st1) old) as [H | H]; [exact H | ].
        rewrite (Hrefuse H) in Hflow. discriminate Hflow.
      * apply Hitems. destruct Hp as [[= _ ->] | [= _ ->]]; reflexivity.
    + intros [Hst Hitems]. split; [ | now intros _].
      apply Hpass, Hedge, Hst.
  - intros Hno. now rewrite (Hfail Hno).
Qed.

(** A record stored in one of the two delivered statuses keeps that
    status: whatever document that is not new is saved, under this name
    or another, the record is afterwards stored with the same status. *)
Theorem delivered_status_is_final (st st' : state) (n : string)
    (old : LandmarkDeliveryNote) :
  save st = (st', Ok tt) ->
  is_local (self st) = false ->
  db st !! n = Some old ->
  status old = DELIVERED_CASH \/ status old = DELIVERED_CREDIT ->
  exists d, db st' !! n = Some d /\ status d = status old.
Proof.
  intros Hsave Hnew Hold Hterm.
  apply save_ok_inv in Hsave as (d' & Hv & ->).
  apply validate_inv in Hv as (Hflow & _ & ->).
  destruct (validate_payment_type_frame (self st)) as (Hs & _ & Hn).
  cbn. rewrite Hn.
  destruct (decide (name (self st) = n)) as [Heq | Hne].
  2: { rewrite lookup_insert_ne by assumption. now exists old. }
  subst n. rewrite lookup_insert_eq. eexists. split; [reflexivity | ].
  cbn. rewrite Hs. unfold get_doc_before_save in Hflow. rewrite Hold in Hflow.
  destruct (status_flow_checked (self st) old Hnew) as [_ Hrefuse].
  destruct (classic_flow (self st) old) as [[Heq | Hedge] | H].
  - now symmetry.
  - exfalso. revert Hedge. cbn.
    destruct Hterm as [-> | ->]; intros H;
      repeat (destruct H as [H | H];
              [apply pair_equal_spec in H as [H1 _]; discriminate H1 | ]);
      destruct H.
  - rewrite (Hrefuse H) in Hflow. discriminate Hflow.
Qed.

End Composition.

(** * The further properties on the samples *)
Section FurtherWitnesses.

Local Open Scope string_scope.

Lemma short_item_name_once_witness :
  let it :=
    {| sr_no := 1; item_id := Some "A-100"; flexi_code := Some "";
       item_name := Some long_bytes_name; item_name_short := None;
       unit := Some "pcs"; qty := FFin 2 0; cartons := FFin 0 0 |} in
  String.length long_bytes_name = 48 /\
  item_name_short (short_item_name it) = Some long_bytes_name.
Proof.
  intros it. split; [reflexivity | ].
  destruct (short_item_name_once it) as (_ & _ & H).
  destruct (H long_bytes_name eq_refl ltac:(discriminate) eq_refl)
    as (short & -> & Hfits & _).
  f_equal. apply Hfits. vm_compute. repeat constructor.
Defined.

Lemma clean_phone_number_twice_witness :
  let phone := "050 123-4567" in
  let text := "971501234567" in
  _clean_phone_number (PStr phone) = Ok text /\
  (_clean_phone_number (PStr text) = Ok text <->
   text = "" \/ String.prefix "971" text = true) /\
  (phone <> "" -> String.prefix "+" (remove_separators phone) = false ->
   String.prefix "971" text = true).
Proof.
  intros phone text. split; [reflexivity | ].
  apply (clean_phone_number_twice phone text). reflexivity.
Defined.



Lemma parse_twice_witness :
  let doc := note false IMAGE_RECEIVED [] in
  exists doc1,
    parse_azure_response float_of_digits doc dn_123 = Ok doc1 /\
    parse_azure_response float_of_digits doc1 dn_123 = Ok doc1.
Proof.
  intros doc. eexists. split; [vm_compute; reflexivity | ].
  apply (parse_twice float_of_digits doc). vm_compute. reflexivity.
Defined.

Lemma rightmost_header_wins_witness :
  String.length "no. رقم" = 10 /\
  map_columns 0 ["sr"; "no. رقم"; "item name"] ∅ !! "sr_no" = Some 1%Z.
Proof.
  split; [reflexivity | ].
  apply (rightmost_header_wins ["sr"] "no. رقم" ["item name"] "sr_no").
  - reflexivity.
  - repeat constructor. vm_compute. discriminate.
Defined.

Lemma grid_is_dense_witness :
  let cells := PList [cell 1 1 (PStr "X"); cell 5 5 (PStr "Y")] in
  let grid : grid_t := [[None; None]; [None; Some "X"]] in
  build_grid (PInt 2) (PInt 2) cells = Ok grid /\
  exists c, as_index (PInt 2) = Ok c /\
    length grid = Z.to_nat 2 /\
    Forall (fun row => length row = Z.to_nat c) grid.
Proof.
  intros cells grid. split; [reflexivity | ].
  apply (grid_is_dense (PInt 2) (PInt 2) cells grid 2); [reflexivity | reflexivity | lia].
Defined.

Lemma saved_records_invariant_witness :
  let st := {| db := ∅; self := note true CONFIRMED [widget] |} in
  exists d, db (save st).1 !! "LDEL-0001" = Some d /\
    name d = "LDEL-0001" /\ is_local d = false /\
    (str_in (status d) confirmation_statuses = true -> items d <> []) /\
    Forall (fun it => opt_truthy (item_name it) = true ->
                      opt_truthy (item_name_short it) = true) (items d).
Proof.
  intros st.
  assert (Hreach : reachable (db (save st).1)).
  { apply (reach_save st (save st).1); [apply reach_empty | vm_compute; reflexivity]. }
  destruct (db (save st).1 !! "LDEL-0001") as [d | ] eqn:Hd;
    [ | vm_compute in Hd; discriminate].
  exists d. split; [reflexivity | ].
  exact (saved_records_invariant _ Hreach "LDEL-0001" d Hd).
Defined.

Lemma save_twice_witness :
  let st := {| db := ∅; self := note true CONFIRMED [widget] |} in
  save (save st).1 = ((save st).1, Ok tt).
Proof.
  intros st. apply (save_twice st (save st).1). vm_compute. reflexivity.
Defined.

Lemma confirm_returns_iff_witness :
  let st := loaded AWAITING AWAITING [widget] in
  let old := note false AWAITING [widget] in
  let out := set_driver_confirmed "2025-01-15 10:30:00" st in
  (out.2 = Ok tt <->
   (status old = AWAITING \/ status old = CONFIRMED) /\ items (self st) <> []) /\
  (out.2 = Ok tt ->
   exists d, db out.1 !! name (self st) = Some d /\
     status d = CONFIRMED /\ driver_confirmed_at d = Some "2025-01-15 10:30:00") /\
  (out.2 <> Ok tt -> db out.1 = db st).
Proof.
  intros st old.
  apply (confirm_returns_iff "2025-01-15 10:30:00" st old); reflexivity.
Defined.

Lemma deliver_returns_iff_witness :
  let st := loaded DELIVERED_CASH DELIVERED_CASH [widget] in
  let old := note false DELIVERED_CASH [widget] in
  let out := set_delivered "Cash" "2025-01-15 11:00:00" st in
  (out.2 = Ok tt <->
   (status old = CONFIRMED \/ status old = DELIVERED_CASH) /\
   items (self st) <> []) /\
  (out.2 <> Ok tt -> db out.1 = db st).
Proof.
  intros st old.
  apply (deliver_returns_iff "2025-01-15 11:00:00" st old "Cash" DELIVERED_CASH);
    [reflexivity | reflexivity | now left].
Defined.

Lemma delivered_status_is_final_witness :
  let st := loaded DELIVERED_CREDIT DELIVERED_CREDIT [widget] in
  exists d, db (save st).1 !! "LDEL-0001" = Some d /\ status d = DELIVERED_CREDIT.
Proof.
  intros st.
  apply (delivered_status_is_final st (save st).1 "LDEL-0001"
           (note false DELIVERED_CREDIT [widget]));
    [vm_compute; reflexivity | reflexivity | reflexivity | now right].
Defined.

End FurtherWitnesses.

(** ** Properties of the call of the analysis service *)
Section Submission.

Variable env : Environment.

Local Open Scope Z_scope.





Lemma submit_docs (rq : request) (max_retries : Z) (attempts : list Z) (w : world) :
  docs (submit env rq max_retries attempts w).1 = docs w.
Proof.
  revert w. induction attempts as [ | a attempts IH]; intros w; [reflexivity | ].
  cbn [submit]. unfold send. destruct (http env (sent w) rq) as [r | text rt];
    [reflexivity | ].
  destruct (a =? max_retries - 1); [reflexivity | ].
  unfold mbind, sleep. cbn. now rewrite IH.
Qed.

(** One turn on a decoded body: the result is returned, and its status
    is "succeeded"; or two seconds are slept; or the turn raises. *)
Lemma poll_step_cases (result : pyval) (w : world) :
  (poll_step result w = (w, Ok (Some result)) /\ analysis_succeeded result = true) \/
  poll_step result w = ((sleep 2 w).1, Ok None) \/
  (exists e, poll_step result w = (w, Raise e) /\ forall t, e <> TimedOut t).
Proof.
  unfold poll_step, analysis_succeeded, mbind, py, ret, raise.
  destruct (py_get result "status" (PStr "")) as [status | e];
    [ | right; right; eexists; split; [reflexivity | discriminate]].
  destruct status as [ | | | | s | | ]; cbn [as_str throw];
    try (right; right; eexists; split; [reflexivity | discriminate]).
  destruct (String.eqb (lower s) "succeeded"); [now left | ].
  destruct (String.eqb (lower s) "failed").
  - right; right.
    destruct (py_get result "error" (PDict [])) as [error | e];
      [ | eexists; split; [reflexivity | discriminate]].
    destruct (py_get error "message" (PStr "Unknown error")) as [m | e];
      eexists; (split; [reflexivity | discriminate]).
  - destruct (str_in (lower s) ["running"; "notstarted"]).
    + right; left. reflexivity.
    + right; right. eexists; split; [reflexivity | discriminate].
Qed.

Lemma poll_loop_spec (rq : request) (timeout : Z) (budget : nat) (w : world) :
  let out := poll_loop env rq timeout budget w in
  exists k j : nat, (j <= k <= budget)%nat /\
    sent out.1 = (sent w ++ replicate k rq)%list /\
    slept out.1 = (slept w ++ replicate j 2)%list /\
    docs out.1 = docs w /\
    (forall result, out.2 = Ok result -> analysis_succeeded result = true) /\
    (forall t, out.2 = Raise (TimedOut t) ->
       k = budget /\ j = budget /\ t = timeout).
Proof.
  revert w. induction budget as [ | budget IH]; intros w.
  - exists 0%nat, 0%nat. cbn. rewrite !app_nil_r.
    split; [lia | ]. do 3 (split; [reflexivity | ]). split; [discriminate | ].
    intros t [= <-]. auto.
  - assert (Hagain : forall w1 : world,
              sent w1 = (sent w ++ [rq])%list -> slept w1 = (slept w ++ [2])%list ->
              docs w1 = docs w ->
              let out := poll_loop env rq timeout budget w1 in
              exists k j : nat, (j <= k <= S budget)%nat /\
                sent out.1 = (sent w ++ replicate k rq)%list /\
                slept out.1 = (slept w ++ replicate j 2)%list /\
                docs out.1 = docs w /\
                (forall result, out.2 = Ok result -> analysis_succeeded result = true) /\
                (forall t, out.2 = Raise (TimedOut t) ->
                   k = S budget /\ j = S budget /\ t = timeout)).
    { intros w1 Hs Hz Hd.
      destruct (IH w1) as (k & j & Hkj & Hsent & Hslept & Hdocs & Hok & Hout).
      exists (S k), (S j). cbn zeta. rewrite Hsent, Hslept, Hdocs, Hs, Hz, Hd.
      rewrite <- !app_assoc. cbn [app replicate].
      split; [lia | ]. do 3 (split; [reflexivity | ]). split; [exact Hok | ].
      intros t Ht. destruct (Hout t Ht) as (-> & -> & ->). auto. }
    assert (Hstop : forall (w1 : world) (r : result failure pyval),
              sent w1 = (sent w ++ [rq])%list -> slept w1 = slept w ->
              docs w1 = docs w ->
              (forall result, r = Ok result -> analysis_succeeded result = true) ->
              (forall t, r <> Raise (TimedOut t)) ->
              exists k j : nat, (j <= k <= S budget)%nat /\
                sent w1 = (sent w ++ replicate k rq)%list /\
                slept w1 = (slept w ++ replicate j 2)%list /\
                docs w1 = docs w /\
                (forall result, r = Ok result -> analysis_succeeded result = true) /\
                (forall t, r = Raise (TimedOut t) ->
                   k = S budget /\ j = S budget /\ t = timeout)).
    { intros w1 r Hs Hz Hd Hok Hno. exists 1%nat, 0%nat. cbn [replicate].
      rewrite app_nil_r. split; [lia | ]. do 3 (split; [assumption | ]).
      split; [exact Hok | ]. intros t Ht. now destruct (Hno t). }
    cbn [poll_loop]. cbv zeta. unfold send.
    destruct (http env (sent w) rq) as [r | text rt].
    + destruct (json r) as [result | text].
      * unfold mbind.
        destruct (poll_step_cases result (with_sent (sent w ++ [rq]) w))
          as [[-> Hs] | [-> | (e & -> & He)]].
        -- apply Hstop; try reflexivity; [now intros ? [= <-] | discriminate].
        -- apply Hagain; reflexivity.
        -- apply Hstop; try reflexivity; [discriminate | ].
           intros t [= ->]. now destruct (He t).
      * destruct (json_error_is_request_exception env).
        -- unfold mbind, log_error, sleep. apply Hagain; reflexivity.
        -- apply Hstop; try reflexivity; discriminate.
    + unfold mbind, log_error, sleep. apply Hagain; reflexivity.
Qed.

(** Polling sends the same request at most as often as the condition
    of its loop holds, and sleeps two seconds at a time, at most once
    for each request.  What it returns is a result whose status is
    "succeeded", in upper or lower case; when it raises because the
    time is out, it has polled and slept each time the condition held.
    The stored documents are as they were. *)
Theorem poll_bounded (operation_location api_key : string) (timeout : Z)
    (w : world) :
  let out := poll_for_results env operation_location api_key timeout w in
  let rq := {| rq_verb := GET; rq_url := operation_location;
               rq_headers := [("Ocp-Apim-Subscription-Key", api_key)];
               rq_json := None; rq_timeout := 30 |} in
  let budget := polls_in_time env (sent w) in
  exists k j : nat, (j <= k <= budget)%nat /\
    sent out.1 = (sent w ++ replicate k rq)%list /\
    slept out.1 = (slept w ++ replicate j 2)%list /\
    total (replicate j 2) = 2 * Z.of_nat j /\
    docs out.1 = docs w /\
    (forall result, out.2 = Ok result -> analysis_succeeded result = true) /\
    (forall t, out.2 = Raise (TimedOut t) ->
       k = budget /\ j = budget /\ t = timeout).
Proof.
  intros out rq budget.
  destruct (poll_loop_spec rq timeout budget w)
    as (k & j & Hkj & Hsent & Hslept & Hdocs & Hok & Hout).
  exists k, j. split; [exact Hkj | ]. split; [exact Hsent | ].
  split; [exact Hslept | ]. split; [ | now split].
  clear. induction j as [ | j IH]; [reflexivity | ].
  cbn [replicate]. change (total (2 :: replicate j 2)) with (2 + total (replicate j 2)).
  rewrite IH. lia.
Qed.

Lemma assoc_dict_set (k k' : string) (v : pyval) (d : list (string * pyval)) :
  assoc k' (dict_set k v d) = if String.eqb k' k then Some v else assoc k' d.
Proof.
  induction d as [ | [k0 v0] d IH]; cbn [dict_set assoc].
  - destruct (String.eqb k' k); reflexivity.
  - destruct (String.eqb_spec k k0) as [-> | Hne]; cbn [assoc].
    + destruct (String.eqb k' k0); reflexivity.
    + rewrite IH. destruct (String.eqb_spec k' k0) as [-> | Hne'];
        [ | reflexivity].
      destruct (String.eqb_spec k0 k) as [-> | _]; [contradiction | reflexivity].
Qed.

(** The second read of the header [apim-request-id] changes nothing:
    the operation location is the header [Operation-Location] or, when
    that is missing or empty, the header [apim-request-id]. *)
Lemma operation_location_read (r : response) :
  operation_location_of r
  = opt_or (header r "Operation-Location") (header r "apim-request-id").
Proof.
  unfold operation_location_of, opt_or.
  destruct (header r "Operation-Location") as [s | ].
  - now rewrite andb_false_r.
  - cbn [opt_truthy]. now destruct (opt_truthy (header r "apim-request-id")).
Qed.

(** What the call of the service returns, where [r] is the response to
    the submission and the operation location is its header
    [Operation-Location] or, when that is missing or empty, its header
    [apim-request-id].  When the location is not empty, the location is
    polled and what the call returns is the polled result, whose status
    reads "succeeded", with the location put under [operation_id]; when
    it is empty, nothing more is sent and what the call returns is the
    body of [r] with the empty string put under [operation_id].  With
    [max_retries] at most 0 nothing is sent and the read of the
    response that was never bound raises.  The stored documents are as
    they were. *)
Theorem analysed_result (endpoint api_key model_id document_url : string)
    (timeout max_retries : Z) (w : world) :
  let rq :=
    {| rq_verb := POST;
       rq_url := rstrip_char "/" endpoint ++ "/formrecognizer/documentModels/"
                 ++ model_id ++ ":analyze?api-version=2023-07-31";
       rq_headers := [("Ocp-Apim-Subscription-Key", api_key);
                      ("Content-Type", "application/json")];
       rq_json := Some (PDict [("urlSource", PStr document_url)]);
       rq_timeout := 30 |} in
  let submitted :=
    submit env rq max_retries (Z.of_nat <$> seq 0 (Z.to_nat max_retries)) w in
  let out :=
    call_azure_document_intelligence env endpoint api_key model_id document_url
      timeout max_retries w in
  docs out.1 = docs w /\
  (forall result, out.2 = Ok result ->
     exists r d,
       submitted.2 = Ok (Some r) /\
       let location :=
         opt_or (header r "Operation-Location") (header r "apim-request-id") in
       if opt_truthy location then
         exists l, location = Some l /\
           poll_for_results env l api_key timeout submitted.1 = (out.1, Ok (PDict d)) /\
           result = PDict (dict_set "operation_id" (PStr l) d) /\
           analysis_succeeded result = true
       else
         json r = Ok (PDict d) /\ out.1 = submitted.1 /\
         result = PDict (dict_set "operation_id" (PStr "") d)) /\
  (max_retries <= 0 -> out = (w, Raise UnboundLocalError)).
Proof.
  intros rq submitted out. subst out submitted.
  unfold call_azure_document_intelligence. fold rq.
  set (attempts := Z.of_nat <$> seq 0 (Z.to_nat max_retries)).
  unfold mbind.
  pose proof (submit_docs rq max_retries attempts w) as Hdocs.
  split; [ | split].
  - destruct (submit env rq max_retries attempts w) as [w1 [[r | ] | e]];
      cbn [fst] in Hdocs; try exact Hdocs.
    destruct (opt_truthy (operation_location_of r)).
    + pose proof (poll_loop_spec
                    {| rq_verb := GET; rq_url := default "" (operation_location_of r);
                       rq_headers := [("Ocp-Apim-Subscription-Key", api_key)];
                       rq_json := None; rq_timeout := 30 |}
                    timeout (polls_in_time env (sent w1)) w1)
        as (k & j & _ & _ & _ & Hd & _).
      unfold poll_for_results.
      destruct (poll_loop env _ timeout (polls_in_time env (sent w1)) w1)
        as [w2 [result | e]]; cbn [fst] in Hd; unfold py; cbn [fst]; congruence.
    + destruct (json r) as [result | text]; unfold ret, raise, py; cbn [fst];
        exact Hdocs.
  - intros result. clear Hdocs.
    destruct (submit env rq max_retries attempts w) as [w1 [[r | ] | e]];
      try (cbn; discriminate).
    rewrite operation_location_read. cbv zeta.
    intros Hout. exists r.
    destruct (opt_truthy (opt_or (header r "Operation-Location")
                            (header r "apim-request-id"))) eqn:Hloc.
    + destruct (opt_or (header r "Operation-Location") (header r "apim-request-id"))
        as [l | ]; [ | discriminate Hloc].
      unfold opt_or_str in *. rewrite Hloc in *.
      cbn [default from_option id] in *.
      pose proof (poll_loop_spec
                    {| rq_verb := GET; rq_url := l;
                       rq_headers := [("Ocp-Apim-Subscription-Key", api_key)];
                       rq_json := None; rq_timeout := 30 |}
                    timeout (polls_in_time env (sent w1)) w1)
        as (k & j & _ & _ & _ & _ & Hok & _).
      unfold poll_for_results in *.
      destruct (poll_loop env _ timeout (polls_in_time env (sent w1)) w1)
        as [w2 [polled | e]] eqn:Hpoll; [ | cbn in Hout; discriminate].
      specialize (Hok polled eq_refl). unfold py in *. cbn [fst snd] in *.
      destruct polled as [ | | | | | | d]; try discriminate.
      cbn [set_item] in Hout. injection Hout as <-.
      exists d. split; [reflexivity | ]. exists l.
      split; [reflexivity | ]. split; [exact Hpoll | ]. split; [reflexivity | ].
      revert Hok. unfold analysis_succeeded, py_get. now rewrite assoc_dict_set.
    + unfold opt_or_str in *. rewrite Hloc in *.
      destruct (json r) as [body | text] eqn:Hbody; unfold ret, raise, py in *;
        cbn [fst snd] in *; [ | discriminate].
      destruct body as [ | | | | | | d]; try discriminate.
      cbn [set_item] in Hout. injection Hout as <-.
      exists d. now repeat split.
  - intros Hle. subst attempts.
    replace (Z.to_nat max_retries) with 0%nat by lia.
    reflexivity.
Qed.

End Submission.

(** ** Saving a stored document *)
Section Saving.

(** What [save] comes to on a document that is stored as [old]: the
    change of status has to be an edge of the graph, and then the items
    have to be there. *)
Lemma save_outcome (st : state) (old : LandmarkDeliveryNote) :
  is_local (self st) = false ->
  db st !! name (self st) = Some old ->
  let edge := status old = status (self st) \/
              In (status old, status (self st)) transition_graph in
  (~ edge ->
   save st = (st, Raise (InvalidTransition (status old) (status (self st))))) /\
  (edge -> forall e, validate_items_for_confirmation (self st) = Raise e ->
   save st = (st, Raise e)) /\
  (edge -> validate_items_for_confirmation (self st) = Ok tt ->
   (save st).2 = Ok tt /\
   exists d, db (save st).1 = <[name (self st) := d]> (db st) /\
     self (save st).1 = d /\ name d = name (self st) /\
     status d = status (self st) /\
     driver_confirmed_at d = driver_confirmed_at (self st) /\
     delivered_at d = delivered_at (self st) /\
     length (items d) = length (items (self st)) /\
     d = with_is_local false
           (generate_short_item_names (validate_payment_type (self st)))).
Proof.
  intros Hnew Hold edge.
  destruct (status_flow_checked (self st) old Hnew) as [Hpass Hrefuse].
  fold edge in Hpass, Hrefuse.
  unfold save, get_doc_before_save, validate, bind. rewrite Hold.
  split; [ | split].
  - intros Hno. now rewrite (Hrefuse Hno).
  - intros Hedge e He. now rewrite (Hpass Hedge), He.
  - intros Hedge Hitems. rewrite (Hpass Hedge), Hitems. cbn [fst snd].
    split; [reflexivity | ].
    destruct (validate_payment_type_frame (self st)) as (Hs & Hi & Hn).
    eexists. split; [ | split; [reflexivity | ]].
    + cbn [name with_is_local generate_short_item_names with_items].
      now rewrite Hn.
    + cbn. rewrite Hn, Hs, Hi, length_fmap.
      repeat split; try reflexivity; unfold validate_payment_type;
        repeat match goal with |- context [if ?b then _ else _] => destruct b end;
        reflexivity.
Qed.

End Saving.

(** ** Properties of the messages to the driver *)
Section WhatsApp.

Variable env : Environment.

Lemma prepare_pure (to_number : pyval) (w : world) :
  (prepare env to_number w).1 = w.
Proof.
  unfold prepare, mbind, py, password, raise, ret.
  destruct (_ || _); [reflexivity | ].
  destruct (_clean_phone_number to_number) as [t | e]; [ | reflexivity].
  destruct (negb _); [reflexivity | ].
  destruct (get_password env "whatsapp_api_token"); reflexivity.
Qed.

Lemma prepare_ok (to_number : pyval) (w : world) url hs t :
  (prepare env to_number w).2 = Ok (url, hs, t) ->
  _clean_phone_number to_number = Ok t.
Proof.
  unfold prepare, mbind, py, password, raise, ret.
  destruct (_ || _); [discriminate | ].
  destruct (_clean_phone_number to_number) as [t' | e]; [ | discriminate].
  destruct (negb _); [discriminate | ].
  destruct (get_password env "whatsapp_api_token"); [ | discriminate].
  now intros [= _ _ ->].
Qed.

Lemma prepare_configured (to_number : pyval) (w : world) (t : string) :
  whatsapp_configured env ->
  _clean_phone_number to_number = Ok t ->
  exists url hs, prepare env to_number w = (w, Ok (url, hs, t)).
Proof.
  intros (Hb & Ht & Hi & [p Hp]) Hclean.
  unfold prepare, mbind, py, password, raise, ret.
  rewrite Hb, Ht, Hclean, Hi, Hp. cbn. eauto.
Qed.

Lemma prepare_raises (to_number : pyval) (w : world) (e : failure) :
  (prepare env to_number w).2 = Raise e ->
  e = WhatsAppNotConfigured \/ e = PhoneNumberIdNotConfigured \/
  e = PasswordNotFound "whatsapp_api_token" \/ exists x, e = Python x.
Proof.
  unfold prepare, mbind, py, password, raise, ret.
  destruct (_ || _); [intros [= <-]; tauto | ].
  destruct (_clean_phone_number to_number) as [t' | x]; [ | intros [= <-]; eauto].
  destruct (negb _); [intros [= <-]; tauto | ].
  destruct (get_password env "whatsapp_api_token"); [discriminate | ].
  intros [= <-]. tauto.
Qed.

(** The [try] of the two senders: one request is sent, with the payload
    given, and nothing else changes but the error log. *)
Lemma post_json_spec (url : string) (hs : list (string * string)) (payload : pyval)
    (title : string) (failed : string -> failure) (w : world) :
  let out := post_json env url hs payload title failed w in
  let rq := {| rq_verb := POST; rq_url := url; rq_headers := hs;
               rq_json := Some payload; rq_timeout := 30 |} in
  sent out.1 = (sent w ++ [rq])%list /\ docs out.1 = docs w /\
  ((exists v, out.2 = Ok v) \/ (exists text, out.2 = Raise (failed text)) \/
   (exists text, out.2 = Raise (NotJson text))).
Proof.
  cbv zeta. unfold post_json, send, mbind, log_error, raise.
  destruct (http env (sent w) _) as [r | text rt]; cbn.
  - destruct (json r) as [v | text]; cbn; [eauto 6 | ].
    destruct (json_error_is_request_exception env); cbn; eauto 6.
  - eauto 6.
Qed.

Lemma send_whatsapp_message_spec (to_number : pyval) (message message_type : string)
    (w : world) :
  sender_spec to_number w (send_whatsapp_message env to_number message message_type w)
    MessageFailed None.
Proof.
  unfold sender_spec, send_whatsapp_message, mbind.
  pose proof (prepare_pure to_number w) as Hpure.
  pose proof (prepare_ok to_number w) as Hok.
  pose proof (prepare_raises to_number w) as Hraise.
  destruct (prepare env to_number w) as [w1 [[[url hs] t] | e]]; cbn [fst snd] in *;
    subst w1.
  - match goal with
    | |- context [post_json env url hs ?p ?title ?f w] =>
        destruct (post_json_spec url hs p title f w) as (Hsent & Hdocs & Hres)
    end.
    split; [exact Hdocs | ]. right. eexists _, t.
    split; [exact Hsent | ]. split; [reflexivity | ]. split; [reflexivity | ].
    split; [reflexivity | ]. split; [now apply (Hok url hs) | exact Hres].
  - split; [reflexivity | ]. left. split; [reflexivity | ].
    exists e. split; [reflexivity | now apply Hraise].
Qed.

Lemma send_whatsapp_buttons_spec (to_number : pyval) (message : string)
    (buttons : list pyval) (w : world) :
  sender_spec to_number w (send_whatsapp_buttons env to_number message buttons w)
    ButtonsFailed (Some (PList (take 3 buttons))).
Proof.
  unfold sender_spec, send_whatsapp_buttons, mbind.
  pose proof (prepare_pure to_number w) as Hpure.
  pose proof (prepare_ok to_number w) as Hok.
  pose proof (prepare_raises to_number w) as Hraise.
  destruct (prepare env to_number w) as [w1 [[[url hs] t] | e]]; cbn [fst snd] in *;
    subst w1.
  - match goal with
    | |- context [post_json env url hs ?p ?title ?f w] =>
        destruct (post_json_spec url hs p title f w) as (Hsent & Hdocs & Hres)
    end.
    split; [exact Hdocs | ]. right. eexists _, t.
    split; [exact Hsent | ]. split; [reflexivity | ]. split; [reflexivity | ].
    split; [reflexivity | ]. split; [now apply (Hok url hs) | exact Hres].
  - split; [reflexivity | ]. left. split; [reflexivity | ].
    exists e. split; [reflexivity | now apply Hraise].
Qed.

Lemma clean_free (to_number : pyval) (t : string) (c : ascii) :
  _clean_phone_number to_number = Ok t ->
  In c separators -> ~ In c (list_ascii_of_string t).
Proof.
  intros Hclean Hc. destruct to_number as [ | b | z | f | s | l | d];
    try (revert Hclean; unfold _clean_phone_number; cbn;
         repeat match goal with |- context [if ?b then _ else _] => destruct b end;
         cbn; intros [= <-]; cbn; tauto);
    try (revert Hclean; unfold _clean_phone_number; cbn; intros [= <-]; cbn; tauto).
  now apply (clean_result_free s t c).
Qed.

(** Each of the two senders sends at most one request, a POST, and a
    value is returned only after one was sent.  The recipient that the
    request names is what [_clean_phone_number] returns for the number
    given, which holds no space, hyphen or parenthesis; a request for
    buttons carries the first three of the buttons given, and no more.
    The stored documents are as they were. *)
Theorem at_most_one_request (to_number : pyval) (message message_type : string)
    (buttons : list pyval) (w : world) :
  let message_out := send_whatsapp_message env to_number message message_type w in
  let buttons_out := send_whatsapp_buttons env to_number message buttons w in
  (forall out, out = message_out \/ out = buttons_out ->
     docs out.1 = docs w /\
     (sent out.1 = sent w \/
      exists rq t,
        sent out.1 = (sent w ++ [rq])%list /\ rq_verb rq = POST /\
        _clean_phone_number to_number = Ok t /\
        recipient rq = Some (PStr t) /\
        forall c, In c separators -> ~ In c (list_ascii_of_string t)) /\
     (forall v, out.2 = Ok v -> length (sent out.1) = S (length (sent w)))) /\
  (forall rq, sent buttons_out.1 = (sent w ++ [rq])%list ->
     exists sent_buttons,
       buttons_of rq = Some (PList sent_buttons) /\
       (length sent_buttons <= 3)%nat /\ sent_buttons `prefix_of` buttons).
Proof.
  intros message_out buttons_out.
  pose proof (send_whatsapp_message_spec to_number message message_type w) as Hm.
  pose proof (send_whatsapp_buttons_spec to_number message buttons w) as Hb.
  fold message_out in Hm. fold buttons_out in Hb.
  assert (Hgen : forall out failed bs,
            sender_spec to_number w out failed bs ->
            docs out.1 = docs w /\
            (sent out.1 = sent w \/
             exists rq t,
               sent out.1 = (sent w ++ [rq])%list /\ rq_verb rq = POST /\
               _clean_phone_number to_number = Ok t /\
               recipient rq = Some (PStr t) /\
               forall c, In c separators -> ~ In c (list_ascii_of_string t)) /\
            (forall v, out.2 = Ok v -> length (sent out.1) = S (length (sent w)))).
  { intros out failed bs (Hdocs & [(Hsent & e & He & _) | (rq & t & Hsent & Hv & Hr & _ & Hc & _)]).
    - split; [exact Hdocs | ]. split; [now left | ]. intros v Hv. congruence.
    - split; [exact Hdocs | ]. split.
      + right. exists rq, t. repeat split; try assumption.
        intros c. now apply (clean_free to_number).
      + intros _ _. rewrite Hsent, length_app. cbn. lia. }
  split.
  - intros out [-> | ->]; eapply Hgen; eassumption.
  - intros rq Hrq. destruct Hb as (_ & [(Hsent & _) | (rq' & t & Hsent & _ & _ & Hbs & _)]).
    + rewrite Hsent in Hrq. apply (f_equal length) in Hrq.
      rewrite length_app in Hrq. cbn in Hrq. lia.
    + rewrite Hsent in Hrq. apply app_inj_tail in Hrq as [_ <-].
      exists (take 3 buttons). split; [exact Hbs | ]. split.
      * rewrite length_take. lia.
      * apply prefix_take.
Qed.

Lemma clean_falsy (v : pyval) :
  truthy v = false -> _clean_phone_number v = Ok "".
Proof.
  intros H. unfold _clean_phone_number. now rewrite H.
Qed.

(** The two functions that ask the driver something refuse a delivery
    note without a WhatsApp number and send nothing.  The function that
    sends the final confirmation does not look at the number: it never
    raises for a missing one, and on a site that is configured it sends
    its message to the empty recipient. *)
Theorem number_checked_by_two (n : string) (d : LandmarkDeliveryNote)
    (payment_type : string) (w : world) :
  docs w !! n = Some d ->
  truthy (doc_get d "whatsapp_number") = false ->
  send_delivery_status_buttons env (PStr n) w = (w, Raise NoWhatsAppNumber) /\
  send_driver_review_flow env (PStr n) w = (w, Raise NoWhatsAppNumber) /\
  let out := send_confirmation_message env (PStr n) payment_type w in
  out.2 <> Raise NoWhatsAppNumber /\
  (whatsapp_configured env ->
   exists rq, sent out.1 = (sent w ++ [rq])%list /\ recipient rq = Some (PStr "")).
Proof.
  intros Hd Hnum.
  assert (Hget : get_doc env (PStr n) w = (w, Ok (with_is_local false d))).
  { unfold get_doc. now rewrite Hd. }
  split; [ | split].
  - unfold send_delivery_status_buttons, mbind. rewrite Hget.
    change (doc_get (with_is_local false d) "whatsapp_number")
      with (doc_get d "whatsapp_number"). now rewrite Hnum.
  - unfold send_driver_review_flow, mbind. rewrite Hget.
    change (doc_get (with_is_local false d) "whatsapp_number")
      with (doc_get d "whatsapp_number"). now rewrite Hnum.
  - intros out. subst out. unfold send_confirmation_message, mbind. rewrite Hget.
    change (doc_get (with_is_local false d) "whatsapp_number")
      with (doc_get d "whatsapp_number").
    match goal with
    | |- context [send_whatsapp_message env ?to ?m ?ty w] =>
        pose proof (send_whatsapp_message_spec to m ty w) as Hspec;
        set (out := send_whatsapp_message env to m ty w) in *
    end.
    destruct Hspec as (_ & [(Hsent & e & He & Hcase) | (rq & t & Hsent & _ & Hr & _ & Hc & Hres)]).
    + split.
      * rewrite He. intros [= ->].
        destruct Hcase as [H | [H | [H | [x H]]]]; discriminate H.
      * intros Hconf.
        destruct (prepare_configured (doc_get d "whatsapp_number") w ""
                    Hconf (clean_falsy _ Hnum)) as (url & hs & Hprep).
        exfalso. subst out. unfold send_whatsapp_message, mbind in Hsent.
        rewrite Hprep in Hsent.
        match type of Hsent with
        | context [post_json env url hs ?p ?title ?f w] =>
            destruct (post_json_spec url hs p title f w) as (Hs & _)
        end.
        rewrite Hs in Hsent. apply (f_equal length) in Hsent.
        rewrite length_app in Hsent. cbn in Hsent. lia.
    + split.
      * destruct Hres as [[v ->] | [[text ->] | [text ->]]]; discriminate.
      * intros _. exists rq. split; [exact Hsent | ].
        rewrite (clean_falsy _ Hnum) in Hc. now injection Hc as <-.
Qed.

(** The review is sent before the status is saved.  When the function
    returns, the delivery note was stored as received, parsed or
    awaiting the driver, one request was sent and the note is stored as
    awaiting the driver.  When the save refuses the change of status,
    the message has been sent all the same, and the stored documents
    are as they were. *)
Theorem review_flow_sends_first (n : string) (old : LandmarkDeliveryNote)
    (w : world) :
  docs w !! n = Some old ->
  name old = n ->
  let out := send_driver_review_flow env (PStr n) w in
  let allowed :=
    status old = IMAGE_RECEIVED \/ status old = PARSED \/ status old = AWAITING in
  (forall v, out.2 = Ok v ->
     allowed /\ (exists rq, sent out.1 = (sent w ++ [rq])%list) /\
     exists d, docs out.1 !! n = Some d /\ status d = AWAITING) /\
  (forall t, out.2 = Raise (Thrown t) ->
     t = InvalidTransition (status old) AWAITING /\ ~ allowed /\
     docs out.1 = docs w /\ exists rq, sent out.1 = (sent w ++ [rq])%list).
Proof.
  intros Hold Hname out allowed.
  assert (Hget : get_doc env (PStr n) w = (w, Ok (with_is_local false old))).
  { unfold get_doc. now rewrite Hold. }
  assert (Hedge : status old = AWAITING \/
                  In (status old, AWAITING) transition_graph <-> allowed).
  { subst allowed. cbn. split.
    - intros [H | H]; [tauto | ].
      repeat (destruct H as [H | H];
              [apply pair_equal_spec in H as [H1 H2];
               first [discriminate H2 | symmetry in H1; tauto] | ]).
      destruct H.
    - intros [H | [H | H]]; rewrite H; tauto. }
  subst out. unfold send_driver_review_flow, mbind. rewrite Hget.
  destruct (negb (truthy (doc_get (with_is_local false old) "whatsapp_number")));
    [split; intros ? H; unfold raise in H; discriminate H | ].
  match goal with
  | |- context [(if ?c then ?a else ?b) w] =>
      assert (Hdate : ((if c then a else b) w).1 = w /\
                      forall e, ((if c then a else b) w).2 = Raise e ->
                                exists v, e = DateError v)
        by (destruct c; [destruct (formatdate env _) | ];
            (split; [reflexivity | ]); intros e [= <-]; eauto);
      destruct ((if c then a else b) w) as [w0 [date | e]]
  end; destruct Hdate as [Hw Hdate]; cbn [fst snd] in Hw, Hdate; subst w0.
  2: { destruct (Hdate e eq_refl) as [v ->].
       split; intros ? H; cbn in H; discriminate H. }
  clear Hdate.
  match goal with
  | |- context [send_whatsapp_message env ?to ?m ?ty w] =>
      pose proof (send_whatsapp_message_spec to m ty w) as Hspec;
      destruct (send_whatsapp_message env to m ty w) as [w1 [response | e]]
  end.
  2: { split; intros ? H; [discriminate H | ]. injection H as ->.
       destruct Hspec as (_ & [(_ & e & He & Hcase) | (_ & _ & _ & _ & _ & _ & _ & Hres)]).
       - injection He as <-.
         destruct Hcase as [H | [H | [H | [x H]]]]; discriminate H.
       - destruct Hres as [[v H] | [[text H] | [text H]]]; discriminate H. }
  destruct Hspec as (Hdocs & [(_ & e & He & _) | (rq & _ & Hsent & _)]);
    [discriminate He | ].
  cbn [fst] in Hdocs, Hsent.
  set (st := {| db := docs w1; self := with_status AWAITING (with_is_local false old) |}).
  assert (Hstored : db st !! name (self st) = Some old).
  { cbn. now rewrite Hdocs, Hname. }
  destruct (save_outcome st old eq_refl Hstored) as (Hrefuse & _ & Hpass).
  change (status (self st)) with AWAITING in Hrefuse, Hpass.
  unfold run_method. fold st.
  destruct (classic_flow (self st) old) as [Hyes | Hno].
  - destruct (Hpass Hyes eq_refl) as (Hok & d & Hdb & _ & _ & Hs & _).
    rewrite Hok. cbn [fst snd with_docs docs sent]. split.
    + intros v _. split; [now apply Hedge | ]. split; [now exists rq | ].
      exists d. rewrite Hdb. cbn [name self st with_status with_is_local].
      unfold ret. cbn [fst docs with_docs].
      rewrite Hname, lookup_insert_eq. now split.
    + intros t H. discriminate H.
  - rewrite (Hrefuse Hno). cbn [fst snd with_docs docs sent db st]. split.
    + intros v H. discriminate H.
    + intros t [= <-]. split; [reflexivity | ]. split; [ | split].
      * intros H. now apply Hno, Hedge.
      * exact Hdocs.
      * now exists rq.
Qed.

End WhatsApp.

(** ** Properties of the replies of the driver *)
Section Replies.

Variable env : Environment.



Lemma get_doc_stored (n : string) (d : LandmarkDeliveryNote) (w : world) :
  docs w !! n = Some d ->
  get_doc env (PStr n) w = (w, Ok (with_is_local false d)).
Proof.
  intros Hd. unfold get_doc. now rewrite Hd.
Qed.


Lemma send_confirmation_message_spec (n p : string) (d : LandmarkDeliveryNote)
    (w : world) :
  docs w !! n = Some d ->
  sender_spec (doc_get d "whatsapp_number") w
    (send_confirmation_message env (PStr n) p w) MessageFailed None.
Proof.
  intros Hd. unfold send_confirmation_message, mbind.
  rewrite (get_doc_stored n d w Hd). apply send_whatsapp_message_spec.
Qed.

Lemma not_configured (to_number : pyval) (message message_type : string) (w : world) :
  opt_truthy (whatsapp_api_base_url (settings env)) = false ->
  send_whatsapp_message env to_number message message_type w
  = (w, Raise WhatsAppNotConfigured).
Proof.
  intros H. unfold send_whatsapp_message, prepare, mbind. now rewrite H.
Qed.

(** [set_delivered] with the payment type [p] on the stored document
    [old]. *)
Lemma delivered_outcome (now n p terminal : string) (old : LandmarkDeliveryNote)
    (w : world) :
  docs w !! n = Some old ->
  name old = n ->
  (p, terminal) = ("Cash", DELIVERED_CASH) \/
  (p, terminal) = ("Credit", DELIVERED_CREDIT) ->
  let out := run_method (set_delivered p now) (with_is_local false old) w in
  let accepted :=
    (status old = CONFIRMED \/ status old = terminal) /\ items old <> [] in
  (accepted ->
   exists d, out = (with_docs (<[n := d]> (docs w)) w, Ok d) /\
     status d = terminal /\ payment_type d = Some p /\ delivered_at d = Some now) /\
  (~ accepted -> exists t, out = (w, Raise (Thrown t))) /\
  (accepted \/ ~ accepted).
Proof.
  intros Hold Hname Hp out accepted.
  set (doc := with_delivered_at (Some now)
                (with_payment_type (Some p)
                   (with_status terminal (with_is_local false old)))).
  set (st := {| db := docs w; self := doc |}).
  assert (Hout : out = (with_docs (db (save st).1) w,
                        match (save st).2 with
                        | Ok _ => Ok (self (save st).1)
                        | Raise t => Raise (Thrown t)
                        end)).
  { subst out st doc. unfold run_method, set_delivered.
    destruct Hp as [[= -> ->] | [= -> ->]]; reflexivity. }
  assert (Hstored : db st !! name (self st) = Some old).
  { cbn. now rewrite Hname. }
  destruct (save_outcome st old eq_refl Hstored) as (Hrefuse & Hempty & Hpass).
  change (status (self st)) with terminal in Hrefuse, Hempty, Hpass.
  assert (Hedge : status old = terminal \/
                  In (status old, terminal) transition_graph <->
                  status old = CONFIRMED \/ status old = terminal).
  { destruct Hp as [[= _ ->] | [= _ ->]]; cbn; (split;
      [ intros [H | H]; [now right | ];
        repeat (destruct H as [H | H];
                [apply pair_equal_spec in H as [H1 H2];
                 first [discriminate H2 | now left] | ]);
        destruct H
      | intros [H | H]; [right | now left]; rewrite H; cbn; tauto ]). }
  assert (Hitems : items old <> [] <->
                   validate_items_for_confirmation (self st) = Ok tt).
  { unfold validate_items_for_confirmation.
    change (status (self st)) with terminal.
    change (items (self st)) with (items old).
    assert (Hin : str_in terminal confirmation_statuses = true)
      by (destruct Hp as [[= _ ->] | [= _ ->]]; reflexivity).
    rewrite Hin. destruct (items old); cbn; split; congruence. }
  assert (Hw : with_docs (docs w) w = w) by now destruct w.
  assert (Hdec : accepted \/ ~ accepted).
  { subst accepted. destruct (classic_flow (self st) old) as [Hyes | Hflow].
    - destruct (items old); [right; now intros [_ []] | left].
      split; [now apply Hedge | discriminate].
    - right. intros [H _]. now apply Hflow, Hedge. }
  rewrite Hout. split; [ | split; [ | exact Hdec]].
  - intros [Hst Hit]. apply Hedge in Hst. apply Hitems in Hit.
    destruct (Hpass Hst Hit) as (Hok & d & Hdb & Hself & _ & Hs & _ & Hat & _ & Hd).
    rewrite Hok, Hdb, Hself. exists d.
    change (name (self st)) with (name old). rewrite Hname.
    split; [reflexivity | ]. split; [exact Hs | ]. split; [ | exact Hat].
    rewrite Hd. destruct Hp as [[= -> ->] | [= -> ->]]; reflexivity.
  - intros Hno. destruct (classic_flow (self st) old) as [Hyes | Hflow].
    + change (status (self st)) with terminal in Hyes.
      destruct (validate_items_for_confirmation (self st)) as [[] | e] eqn:Hv.
      * destruct Hno. split; [now apply Hedge | now apply Hitems].
      * rewrite (Hempty Hyes e eq_refl). cbn [fst snd db st]. rewrite Hw. eauto.
    + change (status (self st)) with terminal in Hflow.
      rewrite (Hrefuse Hflow). cbn [fst snd db st]. rewrite Hw. eauto.
Qed.

(** What [driver_delivery_status] does with one of its two actions on a
    stored delivery note.  It always returns a response.  The note is
    stored as delivered, with the payment type and the time of the call,
    exactly when it was stored as confirmed by the driver or as
    delivered with the same payment type, and has an item; otherwise
    nothing is stored or sent and the response reports a failure.  The
    confirmation message is sent after the note is stored: a response
    that reports success means that the note is stored and one request
    was sent, while a message that cannot be sent, as on a site without
    the address of the WhatsApp service, makes the response report a
    failure for a note that is stored as delivered. *)
Theorem delivery_stored_before_message (now n action p terminal : string)
    (old : LandmarkDeliveryNote) (form_dict : list (string * pyval)) (w : world) :
  n <> "" ->
  docs w !! n = Some old ->
  name old = n ->
  (lower action, p, terminal) = ("delivered_cash", "Cash", DELIVERED_CASH) \/
  (lower action, p, terminal) = ("delivered_credit", "Credit", DELIVERED_CREDIT) ->
  let out :=
    driver_delivery_status env now
      [("delivery_note_name", PStr n); ("action", PStr action)] form_dict w in
  let accepted :=
    (status old = CONFIRMED \/ status old = terminal) /\ items old <> [] in
  (exists response, out.2 = Ok response) /\
  (accepted ->
   exists d, docs out.1 !! n = Some d /\ status d = terminal /\
     payment_type d = Some p /\ delivered_at d = Some now) /\
  (~ accepted ->
   docs out.1 = docs w /\ sent out.1 = sent w /\
   success out.2 = Some (PBool false)) /\
  (success out.2 = Some (PBool true) ->
   accepted /\ exists rq, sent out.1 = (sent w ++ [rq])%list) /\
  (accepted -> opt_truthy (whatsapp_api_base_url (settings env)) = false ->
   success out.2 = Some (PBool false)).
Proof.
  intros Hn Hold Hname Hact out accepted.
  apply String.eqb_neq in Hn.
  assert (Hp : (p, terminal) = ("Cash", DELIVERED_CASH) \/
               (p, terminal) = ("Credit", DELIVERED_CREDIT)).
  { destruct Hact as [[= _ -> ->] | [= _ -> ->]]; tauto. }
  destruct (delivered_outcome now n p terminal old w Hold Hname Hp)
    as (Hyes & Hno & Hdec). fold accepted in Hyes, Hno, Hdec.
  assert (Hout : out =
            try_except
              (mbind (run_method (set_delivered p now) (with_is_local false old))
                 (fun _ =>
                    mbind (send_confirmation_message env (PStr n) p)
                      (fun _ =>
                         ret (PDict [("success", PBool true);
                                     ("message", PStr ("Delivery marked as " ++ p));
                                     ("delivery_note", PStr n);
                                     ("payment_type", PStr p)]))))
              (error_response env "Driver Delivery Status Error: "
                 "Delivery Status API Error") w).
  { subst out. unfold driver_delivery_status, try_except, arguments.
    unfold mbind at 1. unfold py at 1.
    cbn [assoc String.eqb Ascii.eqb Bool.eqb from_option id as_str truthy].
    rewrite Hn. cbn [negb orb].
    destruct Hact as [[= Ha -> _] | [= Ha -> _]]; rewrite Ha;
      cbn [String.eqb Ascii.eqb Bool.eqb];
      unfold mbind at 1; rewrite (get_doc_stored n old w Hold); reflexivity. }
  assert (Herr : forall (e : failure) (w1 : world),
            let r := error_response env "Driver Delivery Status Error: "
                       "Delivery Status API Error" e w1 in
            docs r.1 = docs w1 /\ sent r.1 = sent w1 /\
            (exists response, r.2 = Ok response) /\
            success r.2 = Some (PBool false)).
  { intros e w1. cbn. eauto. }
  rewrite Hout. clear Hout out. unfold try_except, mbind.
  destruct Hdec as [Hacc | Hnacc].
  - destruct (Hyes Hacc) as (d & -> & Hst & Hpt & Hat).
    set (w1 := with_docs (<[n:=d]> (docs w)) w).
    assert (Hd : docs w1 !! n = Some d) by apply lookup_insert_eq.
    pose proof (send_confirmation_message_spec n p d w1 Hd) as (Hdocs & Hsent).
    destruct (send_confirmation_message env (PStr n) p w1) as [w3 [v | e3]] eqn:Hconf;
      cbn [fst snd] in Hdocs, Hsent.
    + unfold ret. cbn [fst snd success assoc String.eqb Ascii.eqb Bool.eqb].
      split; [eauto | ]. split; [ | split; [ | split]].
      * intros _. exists d. rewrite Hdocs. auto.
      * intros H. now destruct H.
      * intros _. split; [exact Hacc | ].
        destruct Hsent as [(_ & e & He & _) | (rq & _ & Hs & _)];
          [discriminate He | now exists rq].
      * intros _ Hbase. exfalso. revert Hconf.
        unfold send_confirmation_message, mbind.
        rewrite (get_doc_stored n d w1 Hd), not_configured by exact Hbase.
        discriminate.
    + destruct (Herr e3 w3) as (Hd3 & Hs3 & Hr3 & Hsucc3).
      split; [exact Hr3 | ]. split; [ | split; [ | split]].
      * intros _. exists d. rewrite Hd3, Hdocs. auto.
      * intros H. now destruct H.
      * rewrite Hsucc3. discriminate.
      * intros _ _. exact Hsucc3.
  - destruct (Hno Hnacc) as (t & ->).
    destruct (Herr (Thrown t) w) as (Hd & Hs & Hr & Hsucc).
    split; [exact Hr | ]. split; [ | split; [ | split]].
    + intros H. now destruct Hnacc.
    + intros _. auto.
    + rewrite Hsucc. discriminate.
    + intros H. now destruct Hnacc.
Qed.

Lemma quantities_changed_refl (l : list LineItem) : quantities_changed l l.
Proof.
  unfold quantities_changed. induction l as [ | x l IH]; constructor; [ | exact IH].
  now destruct x.
Qed.

Lemma quantities_changed_trans (a b c : list LineItem) :
  quantities_changed a b -> quantities_changed b c -> quantities_changed a c.
Proof.
  unfold quantities_changed. intros Hab. revert c.
  induction Hab as [ | x y a b Hxy Hab IH]; intros c Hbc.
  - inversion Hbc. constructor.
  - inversion Hbc as [ | y' z b' c' Hyz Hbc' ]; subst. constructor; [ | now apply IH].
    rewrite Hyz, Hxy. reflexivity.
Qed.

Lemma quantities_changed_alter (l : list LineItem) (i : nat) (q : pyfloat) :
  quantities_changed l (alter (with_qty q) i l).
Proof.
  unfold quantities_changed. revert i.
  induction l as [ | x l IH]; intros i; [constructor | ].
  destruct i as [ | i]; cbn.
  - constructor; [reflexivity | apply quantities_changed_refl].
  - constructor; [now destruct x | apply IH].
Qed.

(** One update reads the world and changes the quantity of at most one
    row. *)
Lemma update_item_spec (doc : LandmarkDeliveryNote) (item_update : pyval)
    (w : world) :
  exists r, update_item env doc item_update w = (w, r) /\
    forall doc', r = Ok doc' ->
      exists l, doc' = with_items l doc /\ quantities_changed (items doc) l.
Proof.
  assert (Hsame : exists l, doc = with_items l doc /\ quantities_changed (items doc) l).
  { exists (items doc). split; [now destruct doc | apply quantities_changed_refl]. }
  unfold update_item, mbind, py, ret.
  destruct (py_get item_update "name" PNone) as [item_name | e];
    [ | eexists; split; [reflexivity | discriminate]].
  destruct (py_get item_update "qty" PNone) as [new_qty | e];
    [ | eexists; split; [reflexivity | discriminate]].
  destruct (truthy item_name && negb (is_none new_qty));
    [ | eexists; split; [reflexivity | now intros ? [= <-]]].
  destruct (find_row env (name doc) item_name 0 (items doc)) as [idx | ];
    [ | eexists; split; [reflexivity | now intros ? [= <-]]].
  assert (Hfloat : exists r, py_float env new_qty w = (w, r)).
  { unfold py_float, ret, raise.
    destruct new_qty; try destruct (float_of_int env _);
      try destruct (float_of_string env _); eauto. }
  destruct Hfloat as [[q | e] ->];
    [ | eexists; split; [reflexivity | discriminate]].
  eexists; split; [reflexivity | ]. intros ? [= <-].
  eexists; split; [reflexivity | apply quantities_changed_alter].
Qed.

Lemma for_each_update_spec (updates : list pyval) (doc : LandmarkDeliveryNote)
    (w : world) :
  exists r, for_each (update_item env) updates doc w = (w, r) /\
    forall doc', r = Ok doc' ->
      exists l, doc' = with_items l doc /\ quantities_changed (items doc) l.
Proof.
  revert doc. induction updates as [ | u updates IH]; intros doc.
  - exists (Ok doc). split; [reflexivity | ]. intros ? [= <-].
    exists (items doc). split; [now destruct doc | apply quantities_changed_refl].
  - cbn [for_each]. unfold mbind.
    destruct (update_item_spec doc u w) as (r1 & -> & H1).
    destruct r1 as [doc1 | e]; [ | eexists; split; [reflexivity | discriminate]].
    destruct (H1 doc1 eq_refl) as (l1 & -> & Hl1).
    destruct (IH (with_items l1 doc)) as (r & -> & H).
    exists r. split; [reflexivity | ]. intros doc' Hr.
    destruct (H doc' Hr) as (l & -> & Hl). exists l. split; [reflexivity | ].
    eapply quantities_changed_trans; eassumption.
Qed.

(** [set_driver_confirmed] on the stored document [old] with the rows
    [l]. *)
Lemma confirmed_outcome (now n : string) (old : LandmarkDeliveryNote)
    (l : list LineItem) (w : world) :
  docs w !! n = Some old ->
  name old = n ->
  let out :=
    run_method (set_driver_confirmed now) (with_items l (with_is_local false old)) w in
  let accepted := (status old = AWAITING \/ status old = CONFIRMED) /\ l <> [] in
  (accepted ->
   exists d, out = (with_docs (<[n := d]> (docs w)) w, Ok d) /\
     status d = CONFIRMED /\ driver_confirmed_at d = Some now /\
     items d = short_item_name <$> l) /\
  (~ accepted -> exists t, out = (w, Raise (Thrown t))) /\
  (accepted \/ ~ accepted).
Proof.
  intros Hold Hname out accepted.
  set (doc := with_driver_confirmed_at (Some now)
                (with_status CONFIRMED (with_items l (with_is_local false old)))).
  set (st := {| db := docs w; self := doc |}).
  assert (Hout : out = (with_docs (db (save st).1) w,
                        match (save st).2 with
                        | Ok _ => Ok (self (save st).1)
                        | Raise t => Raise (Thrown t)
                        end)) by reflexivity.
  assert (Hstored : db st !! name (self st) = Some old).
  { cbn. now rewrite Hname. }
  destruct (save_outcome st old eq_refl Hstored) as (Hrefuse & Hempty & Hpass).
  change (status (self st)) with CONFIRMED in Hrefuse, Hempty, Hpass.
  assert (Hedge : status old = CONFIRMED \/
                  In (status old, CONFIRMED) transition_graph <->
                  status old = AWAITING \/ status old = CONFIRMED).
  { cbn. split.
    - intros [H | H]; [now right | ].
      repeat (destruct H as [H | H];
              [apply pair_equal_spec in H as [H1 H2];
               first [discriminate H2 | now left] | ]).
      destruct H.
    - intros [H | H]; [right | now left]. rewrite H. cbn. tauto. }
  assert (Hitems : l <> [] <-> validate_items_for_confirmation (self st) = Ok tt).
  { unfold validate_items_for_confirmation.
    change (status (self st)) with CONFIRMED.
    change (items (self st)) with l.
    destruct l; cbn; split; congruence. }
  assert (Hw : with_docs (docs w) w = w) by now destruct w.
  assert (Hdec : accepted \/ ~ accepted).
  { subst accepted. destruct (classic_flow (self st) old) as [Hyes | Hflow].
    - destruct l; [right; now intros [_ []] | left].
      split; [now apply Hedge | discriminate].
    - right. intros [H _]. now apply Hflow, Hedge. }
  rewrite Hout. split; [ | split; [ | exact Hdec]].
  - intros [Hst Hit]. apply Hedge in Hst. apply Hitems in Hit.
    destruct (Hpass Hst Hit) as (Hok & d & Hdb & Hself & _ & Hs & Hat & _ & _ & Hd).
    rewrite Hok, Hdb, Hself. exists d.
    change (name (self st)) with (name old). rewrite Hname.
    split; [reflexivity | ]. split; [exact Hs | ]. split; [exact Hat | ].
    rewrite Hd. reflexivity.
  - intros Hno. destruct (classic_flow (self st) old) as [Hyes | Hflow].
    + change (status (self st)) with CONFIRMED in Hyes.
      destruct (validate_items_for_confirmation (self st)) as [[] | e] eqn:Hv.
      * destruct Hno. split; [now apply Hedge | now apply Hitems].
      * rewrite (Hempty Hyes e eq_refl). cbn [fst snd db st]. rewrite Hw. eauto.
    + change (status (self st)) with CONFIRMED in Hflow.
      rewrite (Hrefuse Hflow). cbn [fst snd db st]. rewrite Hw. eauto.
Qed.

Lemma send_delivery_status_buttons_spec (n : string) (d : LandmarkDeliveryNote)
    (w : world) :
  docs w !! n = Some d ->
  let out := send_delivery_status_buttons env (PStr n) w in
  docs out.1 = docs w /\
  (forall v, out.2 = Ok v -> exists rq, sent out.1 = (sent w ++ [rq])%list).
Proof.
  intros Hd. cbv zeta. unfold send_delivery_status_buttons, mbind.
  rewrite (get_doc_stored n d w Hd).
  destruct (negb _); [split; [reflexivity | discriminate] | ].
  match goal with
  | |- context [send_whatsapp_buttons env ?to ?m ?bs w] =>
      destruct (send_whatsapp_buttons_spec env to m bs w) as (Hdocs & Hsent)
  end.
  split; [exact Hdocs | ]. intros v Hv.
  destruct Hsent as [(_ & e & He & _) | (rq & _ & Hs & _)];
    [congruence | now exists rq].
Qed.

(** What [driver_confirm_items] does with a list of updates on a stored
    delivery note.  It always returns a response.  The updates read the
    site and change nothing but quantities: the rows stay as many, in
    their order.  The quantities are stored all or none: when every
    update converts, the note was stored as awaiting the driver or as
    confirmed and has an item, the note is stored as confirmed at the
    time of the call with the rows updated; when an update raises, or
    the confirmation is refused, nothing is stored or sent and the
    response reports a failure.  A response that reports success means
    that the note is stored and the buttons were sent. *)
Theorem quantities_all_or_none (now n : string) (old : LandmarkDeliveryNote)
    (updates : list pyval) (form_dict : list (string * pyval)) (w : world) :
  n <> "" ->
  docs w !! n = Some old ->
  name old = n ->
  let out :=
    driver_confirm_items env now
      [("delivery_note_name", PStr n); ("items", PList updates)] form_dict w in
  let updated := for_each (update_item env) updates (with_is_local false old) w in
  let accepted :=
    (status old = AWAITING \/ status old = CONFIRMED) /\ items old <> [] in
  (exists response, out.2 = Ok response) /\
  updated.1 = w /\
  (forall doc, updated.2 = Ok doc ->
     quantities_changed (items old) (items doc) /\
     (accepted ->
      exists d, docs out.1 !! n = Some d /\ status d = CONFIRMED /\
        driver_confirmed_at d = Some now /\
        items d = short_item_name <$> items doc)) /\
  ((exists e, updated.2 = Raise e) \/ ~ accepted ->
   docs out.1 = docs w /\ sent out.1 = sent w /\
   success out.2 = Some (PBool false)) /\
  (success out.2 = Some (PBool true) ->
   accepted /\ exists rq, sent out.1 = (sent w ++ [rq])%list).
Proof.
  intros Hn Hold Hname out updated accepted.
  apply String.eqb_neq in Hn.
  set (handler := error_response env "Driver Confirm Items Error: "
                    "Driver Confirm API Error").
  assert (Hout : out =
            try_except
              (mbind (for_each (update_item env) updates (with_is_local false old))
                 (fun doc =>
                    mbind (run_method (set_driver_confirmed now) doc)
                      (fun _ =>
                         mbind (send_delivery_status_buttons env (PStr n))
                           (fun _ =>
                              ret (PDict [("success", PBool true);
                                          ("message", PStr "Items confirmed successfully");
                                          ("delivery_note", PStr n)])))))
              handler w).
  { subst out. unfold driver_confirm_items, try_except, arguments.
    cbn [assoc String.eqb Ascii.eqb Bool.eqb from_option id truthy].
    rewrite Hn. cbn [negb].
    unfold mbind at 1. rewrite (get_doc_stored n old w Hold).
    destruct updates as [ | u updates]; [reflexivity | ].
    cbn [truthy]. unfold mbind at 2. unfold py. cbn [py_iter]. reflexivity. }
  assert (Herr : forall (e : failure) (w1 : world),
            let r := handler e w1 in
            docs r.1 = docs w1 /\ sent r.1 = sent w1 /\
            (exists response, r.2 = Ok response) /\
            success r.2 = Some (PBool false)).
  { intros e w1. cbn. eauto. }
  destruct (for_each_update_spec updates (with_is_local false old) w)
    as (r & Hr & Hrows).
  subst updated. rewrite Hout. clear Hout out. unfold try_except, mbind.
  rewrite Hr. cbn [fst snd].
  destruct r as [doc | e].
  - destruct (Hrows doc eq_refl) as (l & -> & Hl).
    change (items (with_is_local false old)) with (items old) in Hl.
    assert (Hnil : l <> [] <-> items old <> []).
    { destruct Hl; split; congruence. }
    destruct (confirmed_outcome now n old l w Hold Hname) as (Hyes & Hno & Hdec).
    assert (Hacc : accepted <->
                   (status old = AWAITING \/ status old = CONFIRMED) /\ l <> []).
    { subst accepted. tauto. }
    destruct Hdec as [Hin | Hout].
    + destruct (Hyes Hin) as (d & -> & Hst & Hat & Hit).
      set (w1 := with_docs (<[n:=d]> (docs w)) w).
      assert (Hd : docs w1 !! n = Some d) by apply lookup_insert_eq.
      destruct (send_delivery_status_buttons_spec n d w1 Hd) as (Hdocs & Hsent).
      destruct (send_delivery_status_buttons env (PStr n) w1) as [w3 [v | e3]];
        cbn [fst snd] in Hdocs, Hsent.
      * unfold ret. cbn [fst snd success assoc String.eqb Ascii.eqb Bool.eqb].
        split; [eauto | ]. split; [reflexivity | ]. split; [ | split].
        -- intros ? [= <-]. split; [exact Hl | ]. intros _.
           exists d. rewrite Hdocs. auto.
        -- intros [[e He] | H]; [discriminate He | ]. destruct H. now apply Hacc.
        -- intros _. split; [now apply Hacc | ].
           destruct (Hsent v eq_refl) as [rq Hrq]. now exists rq.
      * destruct (Herr e3 w3) as (Hd3 & Hs3 & Hr3 & Hsucc3).
        split; [exact Hr3 | ]. split; [reflexivity | ]. split; [ | split].
        -- intros ? [= <-]. split; [exact Hl | ]. intros _.
           exists d. rewrite Hd3, Hdocs. auto.
        -- intros [[e He] | H]; [discriminate He | ]. destruct H. now apply Hacc.
        -- rewrite Hsucc3. discriminate.
    + destruct (Hno Hout) as (t & ->).
      destruct (Herr (Thrown t) w) as (Hd & Hs & Hr' & Hsucc).
      split; [exact Hr' | ]. split; [reflexivity | ]. split; [ | split].
      * intros ? [= <-]. split; [exact Hl | ]. intros H. destruct Hout.
        now apply Hacc.
      * intros _. auto.
      * rewrite Hsucc. discriminate.
  - destruct (Herr e w) as (Hd & Hs & Hr' & Hsucc).
    split; [exact Hr' | ]. split; [reflexivity | ]. split; [ | split].
    + intros ? H. discriminate H.
    + intros _. auto.
    + rewrite Hsucc. discriminate.
Qed.

End Replies.

(** ** Properties of the processing of an image *)
Section Processing.

Variable env : Environment.

Lemma keeps_same_docs {A} (n : string) (m : Action A) :
  (forall w, docs (m w).1 = docs w) -> keeps n m.
Proof.
  intros H w (d & Hd & Hn). exists d. now rewrite H.
Qed.

Lemma keeps_bind {A B} (n : string) (m : Action A) (k : A -> Action B) :
  keeps n m -> (forall a, keeps n (k a)) -> keeps n (mbind m k).
Proof.
  intros Hm Hk w Hw. unfold mbind. specialize (Hm w Hw).
  destruct (m w) as [w1 [a | e]]; [now apply Hk | exact Hm].
Qed.

Lemma keeps_ret {A} (n : string) (a : A) : keeps n (ret a).
Proof.
  now intros w Hw.
Qed.

Lemma keeps_raise {A} (n : string) (e : failure) : keeps n (@raise A e).
Proof.
  now intros w Hw.
Qed.

Lemma keeps_save (n : string) (doc : LandmarkDeliveryNote) :
  keeps n (run_method save doc).
Proof.
  intros w (d & Hd & Hn). unfold run_method. cbn [fst].
  set (st := {| db := docs w; self := doc |}).
  destruct (save st) as [st' [[] | e]] eqn:Hsave.
  - apply save_ok_inv in Hsave as (d' & Hv & ->). unfold named. cbn.
    apply validate_status in Hv as (_ & Hname & _).
    destruct (decide (name d' = n)) as [Heq | Hne].
    + exists (with_is_local false d'). rewrite Heq, lookup_insert_eq. now split.
    + exists d. rewrite lookup_insert_ne by exact Hne. now split.
  - assert (Hst : st' = st).
    { pose proof (save_raise_inv st e) as H. rewrite Hsave in H.
      specialize (H eq_refl). now injection H. }
    subst st'. unfold named. cbn. now exists d.
Qed.

Lemma submit_sends (rq : request) (max_retries : Z) (attempts : list Z)
    (w : world) (r : response) :
  (submit env rq max_retries attempts w).2 = Ok (Some r) ->
  (length (sent w) < length (sent (submit env rq max_retries attempts w).1))%nat.
Proof.
  revert w. induction attempts as [ | a attempts IH]; intros w; [discriminate | ].
  cbn [submit]. unfold send.
  destruct (http env (sent w) rq) as [r' | text rt].
  - intros _. cbn. rewrite length_app. cbn. lia.
  - destruct (a =? max_retries - 1)%Z; [discriminate | ].
    unfold mbind, sleep. cbn [fst snd]. intros H. apply IH in H.
    set (w2 := {| docs := _; sent := _; slept := _; errors := _; comments := _ |}) in *.
    change (sent w2) with (sent w ++ [rq])%list in H at 1.
    rewrite length_app in H. cbn in H. lia.
Qed.

Lemma submit_not_thrown (rq : request) (max_retries : Z) (attempts : list Z)
    (w : world) (t : thrown) :
  (submit env rq max_retries attempts w).2 <> Raise (Thrown t).
Proof.
  revert w. induction attempts as [ | a attempts IH]; intros w; [discriminate | ].
  cbn [submit]. unfold send.
  destruct (http env (sent w) rq) as [r' | text rt]; [discriminate | ].
  destruct (a =? max_retries - 1)%Z; [discriminate | ].
  unfold mbind, sleep. cbn [fst snd]. apply IH.
Qed.

Lemma poll_step_not_thrown (result : pyval) (w : world) (t : thrown) :
  (poll_step result w).2 <> Raise (Thrown t).
Proof.
  unfold poll_step, mbind, py, ret, raise.
  destruct (py_get result "status" (PStr "")) as [status | e]; [ | discriminate].
  destruct (as_str status) as [s | e]; [ | discriminate]. cbn [fst snd].
  destruct (String.eqb (lower s) "succeeded"); [discriminate | ].
  destruct (String.eqb (lower s) "failed").
  - destruct (py_get result "error" (PDict [])) as [error | e]; [ | discriminate].
    destruct (py_get error "message" (PStr "Unknown error")); discriminate.
  - destruct (str_in (lower s) ["running"; "notstarted"]); discriminate.
Qed.

Lemma poll_not_thrown (rq : request) (timeout : Z) (budget : nat) (w : world)
    (t : thrown) :
  (poll_loop env rq timeout budget w).2 <> Raise (Thrown t).
Proof.
  revert w. induction budget as [ | budget IH]; intros w; [discriminate | ].
  cbn [poll_loop]. cbv zeta. unfold send.
  destruct (http env (sent w) rq) as [r | text rt].
  - destruct (json r) as [result | text].
    + unfold mbind.
      pose proof (poll_step_not_thrown result (with_sent (sent w ++ [rq]) w) t) as H.
      destruct (poll_step result (with_sent (sent w ++ [rq]) w))
        as [w1 [[returned | ] | e]]; cbn [fst snd] in *;
        [discriminate | apply IH | intros [= ->]; now apply H].
    + destruct (json_error_is_request_exception env); [ | discriminate].
      unfold mbind, log_error, sleep. cbn [fst snd]. apply IH.
  - unfold mbind, log_error, sleep. cbn [fst snd]. apply IH.
Qed.

(** The call of the service leaves the stored documents as they were,
    and has sent a request when it returns. *)
Lemma call_frame (endpoint api_key model_id document_url : string)
    (timeout max_retries : Z) (w : world) :
  let out :=
    call_azure_document_intelligence env endpoint api_key model_id document_url
      timeout max_retries w in
  docs out.1 = docs w /\
  (forall result, out.2 = Ok result ->
     (length (sent w) < length (sent out.1))%nat /\
     exists d, result = PDict d) /\
  (forall t, out.2 <> Raise (Thrown t)).
Proof.
  cbv zeta. unfold call_azure_document_intelligence.
  set (rq := {| rq_verb := POST; rq_url := _; rq_headers := _; rq_json := _;
                rq_timeout := _ |}).
  set (attempts := Z.of_nat <$> seq 0 (Z.to_nat max_retries)).
  unfold mbind.
  pose proof (submit_docs env rq max_retries attempts w) as Hdocs.
  pose proof (submit_sends rq max_retries attempts w) as Hsends.
  pose proof (submit_not_thrown rq max_retries attempts w) as Hthrown.
  destruct (submit env rq max_retries attempts w) as [w1 [[r | ] | e]];
    cbn [fst snd] in Hdocs, Hsends, Hthrown;
    try (split; [exact Hdocs | split; [intros ? H; discriminate H | ]];
         first [discriminate | intros t [= ->]; now apply (Hthrown t)]).
  specialize (Hsends r eq_refl). clear Hthrown.
  assert (Hset : forall (w2 : world) (result : pyval),
            docs w2 = docs w -> (length (sent w) < length (sent w2))%nat ->
            let out := py (set_item result "operation_id"
                             (PStr (opt_or_str (operation_location_of r) ""))) w2 in
            docs out.1 = docs w /\
            (forall result', out.2 = Ok result' ->
               (length (sent w) < length (sent out.1))%nat /\
               exists d, result' = PDict d) /\
            (forall t, out.2 <> Raise (Thrown t))).
  { intros w2 result Hd Hs. unfold py. cbn [fst snd]. split; [exact Hd | ].
    destruct result; cbn; (split; [ | discriminate]); try discriminate.
    intros ? [= <-]. eauto. }
  destruct (opt_truthy (operation_location_of r)).
  - unfold poll_for_results.
    match goal with
    | |- context [poll_loop env ?q timeout ?b w1] =>
        destruct (poll_loop_spec env q timeout b w1)
          as (k & j & _ & Hsent & _ & Hd & _);
        pose proof (poll_not_thrown q timeout b w1) as Hthrown;
        destruct (poll_loop env q timeout b w1) as [w2 [result | e]]
    end; cbn [fst snd] in Hsent, Hd, Hthrown.
    + apply Hset; [congruence | ]. rewrite Hsent, length_app. lia.
    + cbn [fst snd]. split; [congruence | ].
      split; [intros ? H; discriminate H | exact Hthrown].
  - destruct (json r) as [result | text]; unfold ret, raise.
    + now apply Hset.
    + split; [exact Hdocs | ]. split; [intros ? H; discriminate H | discriminate].
Qed.

Lemma parse_response_frame (doc : LandmarkDeliveryNote) (azure_result : pyval)
    (w : world) :
  let out := parse_response env doc azure_result w in
  docs out.1 = docs w /\ sent out.1 = sent w /\
  (forall doc', out.2 = Ok doc' ->
     exists f l, doc' = with_items l (with_fields f doc)) /\
  (forall e, out.2 = Raise e -> exists x, e = Thrown (MalformedAnalysisResult x)).
Proof.
  cbv zeta. unfold parse_response.
  destruct (parse_body (float_of_string env) doc azure_result) as [doc' | x]
    eqn:Hbody.
  - apply parse_body_frame in Hbody. unfold ret. cbn [fst snd].
    do 2 (split; [reflexivity | ]). split; [ | intros ? H; discriminate H].
    now intros ? [= <-].
  - unfold mbind, log_error, raise. cbn [fst snd docs sent].
    do 2 (split; [reflexivity | ]). split; [intros ? H; discriminate H | ].
    intros ? [= <-]. eauto.
Qed.

(** The steps of [parse_delivery_note_image] on a stored delivery
    note: it raises with the stored documents as they were, before or
    after the service was called, or stores the note as parsed. *)
Lemma parse_image_cases (n : string) (old : LandmarkDeliveryNote) (w : world) :
  docs w !! n = Some old ->
  name old = n ->
  let out := parse_delivery_note_image env (PStr n) w in
  let allowed := status old = IMAGE_RECEIVED \/ status old = PARSED in
  (exists e, out.2 = Raise e /\ docs out.1 = docs w /\
     forall from to, e <> Thrown (InvalidTransition from to)) \/
  (out.2 = Raise (Thrown (InvalidTransition (status old) PARSED)) /\
   docs out.1 = docs w /\ ~ allowed /\
   (length (sent w) < length (sent out.1))%nat) \/
  (exists v d, out.2 = Ok v /\ docs out.1 = <[n := d]> (docs w) /\
     name d = n /\ status d = PARSED /\ allowed /\
     (length (sent w) < length (sent out.1))%nat).
Proof.
  intros Hold Hname out allowed.
  assert (Hout : out = parse_delivery_note_image env (PStr n) w) by reflexivity.
  clearbody out.
  unfold parse_delivery_note_image in Hout. unfold mbind at 1 in Hout.
  unfold get_doc in Hout. rewrite Hold in Hout.
  set (doc := with_is_local false old) in Hout.
  destruct (_ || _);
    [subst out; left; eexists;
     (split; [reflexivity | split; [reflexivity | intros ? ?; discriminate]]) | ].
  destruct (negb _);
    [subst out; left; eexists;
     (split; [reflexivity | split; [reflexivity | intros ? ?; discriminate]]) | ].
  unfold mbind at 1 in Hout. unfold password in Hout.
  destruct (get_password env "azure_api_key") as [api_key | ];
    [ | subst out; left; eexists;
        (split; [reflexivity | split; [reflexivity | intros ? ?; discriminate]])].
  unfold ret at 1 in Hout. unfold mbind at 1 in Hout.
  match type of Hout with
  | context [call_azure_document_intelligence env ?a ?b ?c ?d ?e ?f w] =>
      destruct (call_frame a b c d e f w) as (Hdocs & Hsent & Hthrown);
      destruct (call_azure_document_intelligence env a b c d e f w)
        as [w1 [azure_result | e1]]
  end; cbn [fst snd] in Hdocs, Hsent, Hthrown;
    [ | subst out; left; eexists;
        (split; [reflexivity | split; [exact Hdocs | ]]);
        intros from to ->; now destruct (Hthrown (InvalidTransition from to))].
  destruct (Hsent azure_result eq_refl) as (Hgrown & fields & ->). clear Hsent.
  unfold mbind at 1 in Hout. unfold py at 1 in Hout. cbn [py_get] in Hout.
  unfold mbind at 1 in Hout.
  match type of Hout with
  | context [parse_response env ?d ?r w1] =>
      destruct (parse_response_frame d r w1) as (Hd2 & Hs2 & Hok & Hraise);
      destruct (parse_response env d r w1) as [w2 [doc2 | e2]]
  end; cbn [fst snd] in Hd2, Hs2, Hok, Hraise.
  2: { left. destruct (Hraise e2 eq_refl) as [x ->]. subst out.
       eexists. split; [reflexivity | ].
       split; [cbn [fst]; congruence | intros ? ?; discriminate]. }
  destruct (Hok doc2 eq_refl) as (f & l & ->). clear Hok Hraise.
  unfold mbind, run_method in Hout.
  match type of Hout with
  | context [save ?s] => set (st := s) in Hout
  end.
  assert (Hstored : db st !! name (self st) = Some old).
  { cbn. now rewrite Hd2, Hdocs, Hname. }
  destruct (save_outcome st old eq_refl Hstored) as (Hrefuse & _ & Hpass).
  change (status (self st)) with PARSED in Hrefuse, Hpass.
  assert (Hedge : status old = PARSED \/
                  In (status old, PARSED) transition_graph <-> allowed).
  { subst allowed. cbn. split.
    - intros [H | H]; [tauto | ].
      repeat (destruct H as [H | H];
              [apply pair_equal_spec in H as [H1 H2];
               first [discriminate H2 | symmetry in H1; tauto] | ]).
      destruct H.
    - intros [H | H]; rewrite H; tauto. }
  destruct (classic_flow (self st) old) as [Hyes | Hno].
  - destruct (Hpass Hyes eq_refl) as (Hsaved & d & Hdb & _ & Hnd & Hs & _).
    right; right. rewrite Hsaved in Hout. unfold ret in Hout. subst out.
    cbn [fst snd docs with_docs sent].
    eexists _, d. split; [reflexivity | ]. rewrite Hdb.
    change (name (self st)) with (name old) in *. rewrite Hname in *.
    change (db st) with (docs w2). rewrite Hd2, Hdocs.
    repeat split; try assumption; [now apply Hedge | now rewrite Hs2].
  - right; left. rewrite (Hrefuse Hno) in Hout. subst out.
    cbn [fst snd docs with_docs sent db st].
    split; [reflexivity | ]. split; [congruence | ]. split.
    + intros H. now apply Hno, Hedge.
    + now rewrite Hs2.
Qed.

(** A delivery note is stored as parsed only from the statuses
    "Image Received" and "Parsed", and the service is called before the
    status is looked at: when the function returns, the note was in one
    of the two, requests were sent and the note is stored as parsed;
    when the change of status is refused, requests were sent all the
    same.  Whenever the function raises, the stored documents are as
    they were. *)
Theorem parsed_after_the_call (n : string) (old : LandmarkDeliveryNote)
    (w : world) :
  docs w !! n = Some old ->
  name old = n ->
  let out := parse_delivery_note_image env (PStr n) w in
  let allowed := status old = IMAGE_RECEIVED \/ status old = PARSED in
  (forall v, out.2 = Ok v ->
     allowed /\ (length (sent w) < length (sent out.1))%nat /\
     exists d, docs out.1 !! n = Some d /\ status d = PARSED) /\
  (forall e, out.2 = Raise e -> docs out.1 = docs w) /\
  (forall from to, out.2 = Raise (Thrown (InvalidTransition from to)) ->
     from = status old /\ to = PARSED /\ ~ allowed /\
     (length (sent w) < length (sent out.1))%nat).
Proof.
  intros Hold Hname out allowed.
  destruct (parse_image_cases n old w Hold Hname)
    as [(e & He & Hd & Hne) | [(He & Hd & Hno & Hs) | (v & d & Hv & Hd & _ & Hst & Hyes & Hs)]];
    fold out in He || fold out in Hv; fold out in Hd; try fold out in Hs.
  - split; [intros v Hv; congruence | ]. split; [intros; exact Hd | ].
    intros from to H. rewrite He in H. injection H as ->. now destruct (Hne from to).
  - split; [intros v Hv; congruence | ]. split; [intros; exact Hd | ].
    intros from to H. rewrite He in H. injection H as <- <-. auto.
  - split; [ | split; intros; congruence].
    intros _ _. split; [exact Hyes | ]. split; [exact Hs | ].
    exists d. rewrite Hd, lookup_insert_eq. auto.
Qed.

Lemma keeps_parse (n : string) :
  keeps n (parse_delivery_note_image env (PStr n)).
Proof.
  intros w (old & Hold & Hname).
  destruct (parse_image_cases n old w Hold Hname)
    as [(e & _ & Hd & _) | [(_ & Hd & _) | (v & d & _ & Hd & Hnd & _)]].
  - exists old. now rewrite Hd.
  - exists old. now rewrite Hd.
  - exists d. now rewrite Hd, lookup_insert_eq.
Qed.

Lemma keeps_review (n : string) :
  keeps n (send_driver_review_flow env (PStr n)).
Proof.
  unfold send_driver_review_flow.
  apply keeps_bind; [now apply keeps_same_docs | intros doc].
  destruct (negb _); [apply keeps_raise | ].
  apply keeps_bind.
  { apply keeps_same_docs. intros w.
    destruct (truthy _); [destruct (formatdate env _) | ]; reflexivity. }
  intros date. apply keeps_bind.
  { apply keeps_same_docs. intros w.
    match goal with
    | |- context [send_whatsapp_message env ?to ?m ?ty w] =>
        now destruct (send_whatsapp_message_spec env to m ty w) as [H _]
    end. }
  intros response. apply keeps_bind; [apply keeps_save | intros _; apply keeps_ret].
Qed.

(** The background job returns for every delivery note that is stored,
    whatever the services answer, and the note stays stored; for a name
    under which nothing is stored, the look-up of its handler raises
    after one entry was written to the error log. *)
Theorem job_returns (n : string) (w : world) :
  let out := _process_delivery_note_async env (PStr n) w in
  (named n w -> out.2 = Ok tt /\ named n out.1) /\
  (docs w !! n = None ->
   out.2 = Raise (DoesNotExist (PStr n)) /\ docs out.1 = docs w /\
   length (errors out.1) = S (length (errors w))).
Proof.
  intros out. subst out. unfold _process_delivery_note_async, try_except. split.
  - intros Hw.
    assert (Hkeep : keeps n
              (mbind (parse_delivery_note_image env (PStr n))
                 (fun _ =>
                    if send_flow_after_parse (settings env)
                    then mbind (send_driver_review_flow env (PStr n))
                           (fun _ => ret tt)
                    else ret tt))).
    { apply keeps_bind; [apply keeps_parse | intros _].
      destruct (send_flow_after_parse (settings env)); [ | apply keeps_ret].
      apply keeps_bind; [apply keeps_review | intros _; apply keeps_ret]. }
    specialize (Hkeep w Hw).
    match type of Hkeep with
    | named n (?body w).1 => change (mbind _ _ w) with (body w);
                             destruct (body w) as [w1 [[] | e]]
    end; cbn [fst] in Hkeep; [now split | ].
    destruct Hkeep as (d & Hd & Hname).
    unfold mbind, log_error, get_doc, add_comment. cbn [fst snd docs].
    rewrite Hd. cbn [fst snd]. split; [reflexivity | ].
    exists d. now split.
  - intros Hnone. unfold mbind at 1. unfold parse_delivery_note_image.
    unfold mbind at 1. unfold get_doc at 1. rewrite Hnone.
    unfold mbind, log_error, get_doc. cbn [fst snd docs errors]. rewrite !Hnone.
    cbn [fst snd docs errors]. repeat split. rewrite length_app. cbn. lia.
Qed.

End Processing.

(** ** Properties of the look-up of the driver *)
Section Lookup.

Variable env : Environment.

Lemma remove_char_digits (c : ascii) (s : string) :
  is_digit c = false -> all_digits s = true -> remove_char c s = s.
Proof.
  intros Hc. induction s as [ | a s IH]; [reflexivity | ].
  cbn [all_digits remove_char]. intros [Ha Hs]%andb_prop.
  destruct (Ascii.eqb_spec a c) as [-> | _]; [congruence | ].
  now rewrite IH.
Qed.

(** A text of digits has one character for each byte. *)
Lemma py_len_digits (s : string) : all_digits s = true -> py_len s = String.length s.
Proof.
  induction s as [ | a s IH]; [reflexivity | ].
  cbn [all_digits py_len String.length]. intros [Ha Hs]%andb_prop.
  rewrite (IH Hs). unfold is_digit, continuation, ascii_code in *.
  apply andb_prop in Ha as [_ Ha]. apply Nat.leb_le in Ha.
  destruct (Nat.leb_spec 128 (nat_of_ascii a)); [lia | reflexivity].
Qed.

Lemma contains_longer (p s : string) :
  (String.length s < String.length p)%nat -> contains p s = false.
Proof.
  revert p. induction s as [ | a s IH]; intros p Hlen.
  - destruct p; [cbn in Hlen; lia | reflexivity].
  - cbn [contains]. rewrite IH by (cbn in Hlen; lia).
    rewrite orb_false_r. destruct p as [ | b p]; [cbn in Hlen; lia | ].
    cbn [String.prefix]. destruct (ascii_dec b a); [ | reflexivity].
    assert (Hp : contains p s = false) by (apply IH; cbn in Hlen; lia).
    destruct (String.prefix p s) eqn:Hpre; [ | reflexivity].
    destruct s as [ | a' s'].
    + destruct p; [cbn in Hlen; lia | discriminate Hpre].
    + cbn [contains] in Hp. rewrite Hpre in Hp. discriminate Hp.
Qed.

Lemma filter_none {A} (P : A -> bool) (l : list A) :
  Forall (fun x => P x = false) l -> filter (fun x => P x = true) l = [].
Proof.
  induction 1 as [ | x l Hx _ IH]; [reflexivity | ].
  rewrite filter_cons. destruct (decide (P x = true)); [congruence | exact IH].
Qed.

(** What the look-up comes to when no row matches the last ten
    characters [key], and when the first row does. *)
Lemma lookup_cases (number : string) (w : world) :
  let doctype :=
    opt_or_str (driver_link_doctype (settings env)) "Whatsapp Contact Link" in
  let driver_field := opt_or_str (driver_link_fieldname (settings env)) "driver" in
  let key :=
    take_last 10 (remove_char "-" (remove_char " " (remove_char "+" number))) in
  (Forall (fun row => like env key (row_get row "whatsapp_number") = false)
     (rows env doctype) ->
   _lookup_driver_from_whatsapp env (PStr number) w = (w, Ok PNone)) /\
  (forall row rest, rows env doctype = row :: rest ->
     like env key (row_get row "whatsapp_number") = true ->
     _lookup_driver_from_whatsapp env (PStr number) w
     = (w, Ok (PDict [("driver", row_get row driver_field);
                      ("contact_link", row_get row "name");
                      ("whatsapp_number", row_get row "whatsapp_number")]))).
Proof.
  cbv zeta. unfold _lookup_driver_from_whatsapp, mbind, py. cbn [as_str]. split.
  - intros Hnone. now rewrite (filter_none _ _ Hnone).
  - intros row rest -> Hrow. rewrite filter_cons.
    destruct (decide _) as [_ | Hno]; [reflexivity | contradiction].
Qed.

(** A number that holds nothing but "+", spaces and hyphens is cleaned
    to the empty string. *)
Lemma remove_dropped (number : string) :
  Forall (fun c => In c dropped) (list_ascii_of_string number) ->
  remove_char "-" (remove_char " " (remove_char "+" number)) = "".
Proof.
  induction number as [ | a number IH]; [reflexivity | ].
  cbn [list_ascii_of_string]. intros [Ha Hrest]%Forall_cons.
  specialize (IH Hrest).
  destruct Ha as [<- | [<- | [<- | []]]]; cbn [remove_char Ascii.eqb Bool.eqb];
    exact IH.
Qed.

Lemma contains_empty (s : string) : contains "" s = true.
Proof. now destruct s. Qed.

(** Where the numbers are texts, the empty search finds the contacts
    that have a number. *)
Lemma filter_like_empty (l : list (list (string * pyval))) :
  Forall number_is_text l ->
  filter (fun row => like env "" (row_get row "whatsapp_number") = true) l
  = filter (fun row => has_number row = true) l.
Proof.
  induction 1 as [ | row l Hrow _ IH]; [reflexivity | ].
  rewrite !filter_cons, IH. unfold number_is_text in Hrow. unfold has_number, like.
  destruct (row_get row "whatsapp_number") as [ | | | | v | | ]; try contradiction.
  - reflexivity.
  - cbn [all_digits]. rewrite contains_empty. reflexivity.
Qed.

(** The look-up searches the stored numbers for the last ten characters
    of the number without "+", spaces and hyphens, so it tells the
    national form of a number of the Emirates from the international
    one, which [_clean_phone_number] does not: where the contacts are
    stored with a leading 0, a number given with +971 finds no driver,
    and the other way round; where they are stored with 971, it finds
    the first contact.  A number that holds nothing but "+", spaces and
    hyphens, or nothing at all, finds the first contact that has a
    number, whatever that number is, where the numbers of the contacts
    are texts. *)
Theorem lookup_by_last_ten (r : string) (w : world) :
  all_digits r = true ->
  String.length r = 9%nat ->
  let doctype :=
    opt_or_str (driver_link_doctype (settings env)) "Whatsapp Contact Link" in
  let driver_field := opt_or_str (driver_link_fieldname (settings env)) "driver" in
  let stored_as := fun s =>
    Forall (fun row => row_get row "whatsapp_number" = PStr s) (rows env doctype) in
  let found := fun row =>
    Ok (PDict [("driver", row_get row driver_field);
               ("contact_link", row_get row "name");
               ("whatsapp_number", row_get row "whatsapp_number")]) in
  (stored_as ("0" ++ r) ->
   _lookup_driver_from_whatsapp env (PStr ("+971" ++ r)) w = (w, Ok PNone)) /\
  (stored_as ("+971" ++ r) ->
   _lookup_driver_from_whatsapp env (PStr ("0" ++ r)) w = (w, Ok PNone)) /\
  (forall row rest, rows env doctype = row :: rest ->
     stored_as ("971" ++ r) ->
     _lookup_driver_from_whatsapp env (PStr ("+971 " ++ r)) w = (w, found row)) /\
  (forall number,
     Forall (fun c => In c dropped) (list_ascii_of_string number) ->
     Forall number_is_text (rows env doctype) ->
     _lookup_driver_from_whatsapp env (PStr number) w
     = (w, match filter (fun row => has_number row = true) (rows env doctype) with
           | row :: _ => found row
           | [] => Ok PNone
           end)).
Proof.
  intros Hdigits Hlen doctype driver_field stored_as found.
  assert (Hclean : forall c, is_digit c = false -> remove_char c r = r).
  { intros c Hc. now apply remove_char_digits. }
  assert (Hchars : py_len r = 9%nat).
  { now rewrite py_len_digits. }
  assert (Hinter : forall sep : string,
            sep = "" \/ sep = " " ->
            take_last 10
              (remove_char "-" (remove_char " " (remove_char "+" ("+971" ++ sep ++ r))))
            = String "1" r).
  { intros sep [-> | ->].
    - change ("+971" ++ "" ++ r)
        with (String "+" (String "9" (String "7" (String "1" r)))).
      cbn [remove_char Ascii.eqb Bool.eqb]. rewrite !Hclean by reflexivity.
      unfold take_last. cbn [py_len]. rewrite Hchars. reflexivity.
    - change ("+971" ++ " " ++ r)
        with (String "+" (String "9" (String "7" (String "1" (String " " r))))).
      cbn [remove_char Ascii.eqb Bool.eqb]. rewrite !Hclean by reflexivity.
      unfold take_last. cbn [py_len]. rewrite Hchars. reflexivity. }
  assert (Hnational :
            take_last 10
              (remove_char "-" (remove_char " " (remove_char "+" ("0" ++ r))))
            = String "0" r).
  { change ("0" ++ r) with (String "0" r).
    cbn [remove_char Ascii.eqb Bool.eqb].
    rewrite !Hclean by reflexivity. unfold take_last. cbn [py_len].
    rewrite Hchars. reflexivity. }
  assert (Hshort : forall p : string, String.length p = 10%nat -> contains p r = false).
  { intros p Hp. apply contains_longer. lia. }
  destruct (lookup_cases ("+971" ++ r) w) as [Hnone1 _].
  destruct (lookup_cases ("0" ++ r) w) as [Hnone2 _].
  destruct (lookup_cases ("+971 " ++ r) w) as [_ Hfound3].
  fold doctype in Hnone1, Hnone2, Hfound3.
  fold driver_field in Hfound3.
  change ("+971" ++ r) with ("+971" ++ "" ++ r) in Hnone1.
  change ("+971 " ++ r) with ("+971" ++ " " ++ r) in Hfound3.
  rewrite Hinter in Hnone1, Hfound3 by tauto. rewrite Hnational in Hnone2.
  split; [ | split; [ | split]].
  - intros Hstored. apply Hnone1. eapply Forall_impl; [exact Hstored | ].
    intros row ->. unfold like. cbn [all_digits is_digit]. rewrite Hdigits.
    cbn [andb]. change (is_digit "1") with true. cbn [andb].
    change ("0" ++ r) with (String "0" r). cbn [contains String.prefix].
    destruct (ascii_dec "1" "0") as [H | _]; [discriminate H | ].
    cbn [orb]. apply Hshort. cbn. now rewrite Hlen.
  - intros Hstored. apply Hnone2. eapply Forall_impl; [exact Hstored | ].
    intros row ->. unfold like. cbn [all_digits]. rewrite Hdigits.
    change (is_digit "0") with true. cbn [andb].
    change ("+971" ++ r)
      with (String "+" (String "9" (String "7" (String "1" r)))).
    cbn [contains String.prefix].
    repeat match goal with
           | |- context [ascii_dec ?a ?b] =>
               destruct (ascii_dec a b) as [H | _]; [discriminate H | ]
           end.
    cbn [orb]. apply Hshort. cbn. now rewrite Hlen.
  - intros row rest Hrows Hstored. apply (Hfound3 row rest Hrows).
    subst stored_as. cbn beta in Hstored. rewrite Hrows in Hstored.
    apply Forall_cons in Hstored as [-> _].
    unfold like. cbn [all_digits]. rewrite Hdigits.
    change (is_digit "1") with true. cbn [andb].
    change ("971" ++ r) with (String "9" (String "7" (String "1" r))).
    cbn [contains String.prefix].
    repeat match goal with
           | |- context [ascii_dec ?a ?b] =>
               destruct (ascii_dec a b) as [H | H];
               try discriminate H; try (now destruct H)
           end.
    assert (Hpre : forall s : string, String.prefix s s = true).
    { induction s as [ | a s IH]; [reflexivity | ]. cbn.
      destruct (ascii_dec a a); [exact IH | contradiction]. }
    rewrite Hpre. now rewrite !orb_true_r.
  - intros number Hnumber Htexts.
    unfold _lookup_driver_from_whatsapp, mbind, py. cbn [as_str].
    rewrite (remove_dropped number Hnumber).
    change (take_last 10 "") with "".
    fold doctype. fold driver_field. rewrite (filter_like_empty _ Htexts).
    now destruct (filter _ (rows env doctype)).
Qed.

End Lookup.

(** * The properties of the site on the samples *)
Section SiteWitnesses.

Local Open Scope string_scope.


Lemma number_checked_by_two_witness :
  let w := storing (note false CONFIRMED [widget]) in
  send_delivery_status_buttons (site answering) (PStr "LDEL-0001") w
  = (w, Raise NoWhatsAppNumber) /\
  exists rq,
    sent (send_confirmation_message (site answering) (PStr "LDEL-0001") "Cash" w).1
    = [rq] /\ recipient rq = Some (PStr "").
Proof.
  intros w.
  destruct (number_checked_by_two (site answering) "LDEL-0001"
              (note false CONFIRMED [widget]) "Cash" w eq_refl eq_refl)
    as (Hbuttons & _ & _ & Hsent).
  split; [exact Hbuttons | ]. apply Hsent.
  repeat split; try reflexivity. now exists "secret".
Defined.

Lemma review_flow_sends_first_witness :
  let w := storing (driver_note CONFIRMED [widget]) in
  let out := send_driver_review_flow (site answering) (PStr "LDEL-0001") w in
  out.2 = Raise (Thrown (InvalidTransition CONFIRMED AWAITING)) /\
  docs out.1 = docs w /\ length (sent out.1) = 1%nat.
Proof.
  intros w out.
  assert (Hraise : out.2 = Raise (Thrown (InvalidTransition CONFIRMED AWAITING)))
    by (vm_compute; reflexivity).
  destruct (review_flow_sends_first (site answering) "LDEL-0001"
              (driver_note CONFIRMED [widget]) w eq_refl eq_refl) as [_ H].
  destruct (H _ Hraise) as (_ & _ & Hdocs & rq & Hsent).
  split; [exact Hraise | ]. split; [exact Hdocs | ].
  fold out in Hsent. now rewrite Hsent.
Defined.


Lemma delivery_stored_before_message_witness :
  let w := storing (driver_note CONFIRMED [widget]) in
  let out :=
    driver_delivery_status (site failing) "2025-01-15 11:00:00"
      [("delivery_note_name", PStr "LDEL-0001"); ("action", PStr "Delivered_Cash")]
      [] w in
  success out.2 <> Some (PBool true) /\
  exists d, docs out.1 !! "LDEL-0001" = Some d /\ status d = DELIVERED_CASH /\
    payment_type d = Some "Cash" /\ delivered_at d = Some "2025-01-15 11:00:00".
Proof.
  intros w out.
  destruct (delivery_stored_before_message (site failing) "2025-01-15 11:00:00"
              "LDEL-0001" "Delivered_Cash" "Cash" DELIVERED_CASH
              (driver_note CONFIRMED [widget]) [] w)
    as (_ & Hstored & _);
    [discriminate | reflexivity | reflexivity | now left | ].
  split; [vm_compute; discriminate | ].
  apply Hstored. split; [now left | discriminate].
Defined.

Lemma quantities_all_or_none_witness :
  let w := storing (driver_note AWAITING [widget]) in
  let out :=
    driver_confirm_items (site answering) "2025-01-15 10:30:00"
      [("delivery_note_name", PStr "LDEL-0001");
       ("items", PList [PDict [("name", PStr "1"); ("qty", PStr "five")]])]
      [] w in
  docs out.1 = docs w /\ sent out.1 = sent w /\
  success out.2 = Some (PBool false).
Proof.
  intros w out.
  destruct (quantities_all_or_none (site answering) "2025-01-15 10:30:00"
              "LDEL-0001" (driver_note AWAITING [widget])
              [PDict [("name", PStr "1"); ("qty", PStr "five")]] [] w)
    as (_ & _ & _ & Hnone & _);
    [discriminate | reflexivity | reflexivity | ].
  apply Hnone. left. eexists. vm_compute. reflexivity.
Defined.

Lemma parsed_after_the_call_witness :
  let w := storing (driver_note AWAITING [widget]) in
  let out := parse_delivery_note_image (site answering) (PStr "LDEL-0001") w in
  out.2 = Raise (Thrown (InvalidTransition AWAITING PARSED)) /\
  docs out.1 = docs w /\ (length (sent w) < length (sent out.1))%nat.
Proof.
  intros w out.
  assert (Hraise : out.2 = Raise (Thrown (InvalidTransition AWAITING PARSED)))
    by (vm_compute; reflexivity).
  destruct (parsed_after_the_call (site answering) "LDEL-0001"
              (driver_note AWAITING [widget]) w eq_refl eq_refl)
    as (_ & Hdocs & Hsent).
  split; [exact Hraise | ]. split; [exact (Hdocs _ Hraise) | ].
  now destruct (Hsent _ _ Hraise) as (_ & _ & _ & H).
Defined.

Lemma lookup_by_last_ten_witness :
  let w := storing (driver_note IMAGE_RECEIVED []) in
  _lookup_driver_from_whatsapp (site answering) (PStr "+971501234567") w
  = (w, Ok PNone) /\
  _clean_phone_number (PStr "+971501234567")
  = _clean_phone_number (PStr "0501234567") /\
  _lookup_driver_from_whatsapp (site answering) (PStr "+ -") w
  = (w, Ok (PDict [("driver", PStr "DRV-7"); ("contact_link", PStr "WCL-0001");
                   ("whatsapp_number", PStr "0501234567")])).
Proof.
  intros w.
  destruct (lookup_by_last_ten (site answering) "501234567" w eq_refl eq_refl)
    as (Hnational & _ & _ & Hempty).
  split; [apply Hnational; repeat constructor | ]. split; [reflexivity | ].
  rewrite (Hempty "+ -"); [reflexivity | | repeat constructor].
  repeat (constructor; [cbn; tauto | ]). constructor.
Defined.

End SiteWitnesses.
